(** * Portfolio accounting engine: FIFO holdings, valuation and return metrics

    A shallow embedding of [utils/portfolio.py].

    Numeric model.  Quantities, prices and money amounts are exact rationals
    ([Q]); the rounding of Python floats is not modelled.  A missing value
    (pandas' NaN) is [None] in an [option Q], and so is a float that is not
    finite where the array library divides by zero; a non-finite result of
    the root finders is a constructor of [pyfloat].

    Effects.  Python exceptions are the [Raise] constructor of [res]; a
    function of the source that can raise returns in [res].

    Dates.  The cells of a date column are Python objects: Timestamps when
    the frame comes from [pd.to_datetime], [datetime.date] objects when a
    row was typed into the entry form.  Comparing or subtracting a datetime
    and a [datetime.date] raises [TypeError], so the functions that order
    or subtract dates are written once, over any class of date objects
    ([DateObject]), and used at two instances: [timestamp], the cells of a
    datetime64 column, and [pydate], objects of either class.

    Library code.  [DataFrame.sort_values], [scipy.optimize.newton],
    [scipy.optimize.brentq], float exponentiation and [datetime.now] are not
    code of this program: they are parameters of the definitions that call
    them. *)

From Stdlib Require Import List String ZArith QArith Lqa Lia Bool.
From Stdlib Require Import Permutation Sorted.
Import ListNotations.

Local Open Scope Q_scope.

(** ** Python values and exceptions *)

(** [DateTypeError] is the [TypeError] of a comparison or a subtraction
    whose operands are a datetime and a [datetime.date]. *)
Inductive exn : Type :=
| KeyError
| IndexError
| ValueError
| ZeroDivisionError
| RuntimeError
| DateTypeError.

Inductive res (A : Type) : Type :=
| Ok (a : A)
| Raise (e : exn).

Arguments Ok {A} a.
Arguments Raise {A} e.

Definition bind {A B : Type} (c : res A) (k : A -> res B) : res B :=
  match c with
  | Ok a => k a
  | Raise e => Raise e
  end.

Notation "x <- c ;; k" := (bind c (fun x => k))
  (at level 61, c at next level, right associativity).

(** [x > y] on numbers. *)
Definition Qgt_bool (x y : Q) : bool := negb (Qle_bool x y).

(** The builtin [sum]: starts from [0] and adds from the left. *)
Definition py_sum (l : list Q) : Q := fold_left Qplus l 0.

(** Float division [x / y]: raises [ZeroDivisionError] on a zero divisor. *)
Definition py_truediv (x y : Q) : res Q :=
  if Qeq_bool y 0 then Raise ZeroDivisionError else Ok (x / y).

(** ** Dictionaries with string keys, in insertion order *)

Definition dict (V : Type) : Type := list (string * V).

Fixpoint dict_get {V : Type} (d : dict V) (k : string) : option V :=
  match d with
  | [] => None
  | (k', v) :: tl => if String.eqb k' k then Some v else dict_get tl k
  end.

(** [k in d] *)
Definition dict_contains {V : Type} (d : dict V) (k : string) : bool :=
  match dict_get d k with
  | Some _ => true
  | None => false
  end.

(** [d[k]] *)
Definition dict_getitem {V : Type} (d : dict V) (k : string) : res V :=
  match dict_get d k with
  | Some v => Ok v
  | None => Raise KeyError
  end.

(** [d[k] = v]: an existing key keeps its place, a new key goes last. *)
Fixpoint dict_setitem {V : Type} (d : dict V) (k : string) (v : V) : dict V :=
  match d with
  | [] => [(k, v)]
  | (k', v') :: tl =>
      if String.eqb k' k then (k', v) :: tl else (k', v') :: dict_setitem tl k v
  end.

(** ** Dates *)

(** A point in time, in microseconds since the epoch: the value of a
    [datetime.datetime], of which pandas' [Timestamp] is a subclass. *)
Definition timestamp : Type := Z.

Definition microseconds_per_day : Z := 86400000000.

(** [(a - b).days] for two datetimes *)
Definition timedelta_days (a b : timestamp) : Z :=
  ((a - b) / microseconds_per_day)%Z.

(** The class of the objects of a date column.  [py_lt a b] is [a < b],
    [py_sub_days a b] is [(a - b).days], and [of_datetime t] is the
    datetime [t], such as [datetime.now()] returns, as an object. *)
Class DateObject (D : Type) : Type := {
  py_lt : D -> D -> res bool;
  py_sub_days : D -> D -> res Z;
  of_datetime : timestamp -> D
}.

#[global] Hint Mode DateObject ! : typeclass_instances.

(** The cells of a column of dtype datetime64, which is what
    [pd.to_datetime] makes of the date column of an uploaded frame: every
    cell is a Timestamp, and Timestamps and datetimes are compared and
    subtracted without error. *)
#[export] Instance timestamp_object : DateObject timestamp := {
  py_lt a b := Ok (a <? b)%Z;
  py_sub_days a b := Ok (timedelta_days a b);
  of_datetime t := t
}.

(** The cells of a column of Python objects: a datetime (a Timestamp), or a
    [datetime.date], the class of the value of the date input of the entry
    form, given as a number of days.  Two objects of one class are compared
    and subtracted; a datetime and a [datetime.date] are not. *)
Inductive pydate : Type :=
| Datetime (t : timestamp)
| CalendarDate (day : Z).

#[export] Instance pydate_object : DateObject pydate := {
  py_lt a b :=
    match a, b with
    | Datetime x, Datetime y => Ok (x <? y)%Z
    | CalendarDate x, CalendarDate y => Ok (x <? y)%Z
    | _, _ => Raise DateTypeError
    end;
  py_sub_days a b :=
    match a, b with
    | Datetime x, Datetime y => Ok (timedelta_days x y)
    | CalendarDate x, CalendarDate y => Ok (x - y)%Z
    | _, _ => Raise DateTypeError
    end;
  of_datetime t := Datetime t
}.

(** The builtin [min] of a list: [ValueError] on an empty one; otherwise
    each further item is compared with the least item so far and replaces
    it when it is smaller. *)
Fixpoint py_min_loop {D : Type} `{DateObject D} (least : D) (l : list D)
  : res D :=
  match l with
  | [] => Ok least
  | item :: rest =>
      smaller <- py_lt item least ;;
      py_min_loop (if smaller then item else least) rest
  end.

Definition py_min {D : Type} `{DateObject D} (l : list D) : res D :=
  match l with
  | [] => Raise ValueError
  | x :: rest => py_min_loop x rest
  end.

(** ** Data model *)

(** One row of the transactions frame; [D] is the class of the objects of
    its date column. *)
Record TransactionRow (D : Type) : Type := mkTransaction {
  ticker : string;
  date : D;
  transaction_type : string;
  quantity : Q;
  price : Q
}.

Arguments mkTransaction {D} ticker date transaction_type quantity price.
Arguments ticker {D} t.
Arguments date {D} t.
Arguments transaction_type {D} t.
Arguments quantity {D} t.
Arguments price {D} t.

(** A row of a frame whose date column holds Timestamps: the validated
    ledger the engine works on. *)
Abbreviation Transaction := (TransactionRow timestamp).

(** A lot is the tuple [(quantity, price)]. *)
Abbreviation lot := (Q * Q)%type (only parsing).

(** One row of the holdings frame. *)
Record Holding : Type := mkHolding {
  h_ticker : string;
  h_quantity : Q;
  h_avg_cost_basis : Q
}.

(** ** calculate_holdings_fifo *)

(** The [while remaining_quantity > 0 and lots[ticker]] loop on the queue of
    one ticker.  Returns the final [remaining_quantity] and the queue. *)
Fixpoint sell_loop (remaining_quantity : Q) (queue : list lot) : Q * list lot :=
  match queue with
  | [] => (remaining_quantity, [])
  | (lot_quantity, lot_price) :: rest =>
      if Qgt_bool remaining_quantity 0 then
        if Qle_bool lot_quantity remaining_quantity then
          sell_loop (remaining_quantity - lot_quantity) rest
        else
          (0, (lot_quantity - remaining_quantity, lot_price) :: rest)
      else (remaining_quantity, queue)
  end.

(** The body of [for _, row in df.iterrows()]. *)
Definition process_row (lots : dict (list lot)) (row : Transaction)
  : res (dict (list lot)) :=
  let lots :=
    if dict_contains lots (ticker row) then lots
    else dict_setitem lots (ticker row) [] in
  if String.eqb (transaction_type row) "BUY" then
    queue <- dict_getitem lots (ticker row) ;;
    Ok (dict_setitem lots (ticker row) (queue ++ [(quantity row, price row)]))
  else if String.eqb (transaction_type row) "SELL" then
    queue <- dict_getitem lots (ticker row) ;;
    Ok (dict_setitem lots (ticker row) (snd (sell_loop (quantity row) queue)))
  else Ok lots.

Fixpoint process_rows (lots : dict (list lot)) (rows : list Transaction)
  : res (dict (list lot)) :=
  match rows with
  | [] => Ok lots
  | row :: rest => lots' <- process_row lots row ;; process_rows lots' rest
  end.

Definition lot_cost (l : lot) : Q := fst l * snd l.

(** The [for ticker, ticker_lots in lots.items()] loop. *)
Fixpoint create_holdings (items : dict (list lot)) : res (list Holding) :=
  match items with
  | [] => Ok []
  | (tk, ticker_lots) :: rest =>
      let total_quantity := py_sum (map fst ticker_lots) in
      if Qgt_bool total_quantity 0 then
        let total_cost := py_sum (map lot_cost ticker_lots) in
        avg_cost_basis <- py_truediv total_cost total_quantity ;;
        holdings <- create_holdings rest ;;
        Ok (mkHolding tk total_quantity avg_cost_basis :: holdings)
      else create_holdings rest
  end.

(** The lots dictionary after the whole frame was replayed. *)
Definition final_lots (sort_values : list Transaction -> list Transaction)
  (rows : list Transaction) : res (dict (list lot)) :=
  process_rows [] (sort_values rows).

(** [transactions_df] is [None] or a frame; [sort_values] is
    [df.sort_values('date')]. *)
Definition calculate_holdings_fifo
  (sort_values : list Transaction -> list Transaction)
  (transactions_df : option (list Transaction)) : res (list Holding) :=
  match transactions_df with
  | None => Ok []
  | Some rows =>
      if (List.length rows =? 0)%nat then Ok []
      else
        lots <- final_lots sort_values rows ;;
        create_holdings lots
  end.

(** ** calculate_portfolio_value *)

(** One row of the valued holdings frame; [None] is NaN. *)
Record ValuedHolding : Type := mkValuedHolding {
  v_ticker : string;
  v_quantity : Q;
  v_avg_cost_basis : Q;
  v_current_price : option Q;
  v_current_value : option Q;
  v_unrealized_pl : option Q;
  v_unrealized_pl_percent : option Q
}.

(** [Series.map(prices_dict)] at one ticker: NaN for an absent key; a price
    of the dictionary may itself be NaN. *)
Definition map_price (prices_dict : dict (option Q)) (tk : string) : option Q :=
  match dict_get prices_dict tk with
  | Some p => p
  | None => None
  end.

(** Element-wise float division of two columns: a zero divisor gives a
    non-finite float and no exception; it is rendered as [None]. *)
Definition np_truediv (x y : Q) : option Q :=
  if Qeq_bool y 0 then None else Some (x / y).

(** Float addition: the sum with a non-finite float is not finite. *)
Definition np_add (x y : option Q) : option Q :=
  match x, y with
  | Some a, Some b => Some (a + b)
  | _, _ => None
  end.

Definition value_row (prices_dict : dict (option Q)) (h : Holding)
  : ValuedHolding :=
  let current_price := map_price prices_dict (h_ticker h) in
  let current_value := option_map (Qmult (h_quantity h)) current_price in
  let cost := h_quantity h * h_avg_cost_basis h in
  let unrealized_pl := option_map (fun v => v - cost) current_value in
  let unrealized_pl_percent :=
    match unrealized_pl with
    | Some pl => option_map (fun r => r * 100) (np_truediv pl cost)
    | None => None
    end in
  mkValuedHolding (h_ticker h) (h_quantity h) (h_avg_cost_basis h)
    current_price current_value unrealized_pl unrealized_pl_percent.

Definition calculate_portfolio_value (holdings_df : list Holding)
  (prices_dict : dict (option Q)) : list ValuedHolding :=
  match holdings_df with
  | [] => []
  | _ => map (value_row prices_dict) holdings_df
  end.

(** ** calculate_xirr *)

(** A float returned by a root finder. *)
Inductive pyfloat : Type :=
| Finite (q : Q)
| Infinite
| NaN.

Definition pyfloat_mul (x : pyfloat) (k : Q) : pyfloat :=
  match x with
  | Finite q => Finite (q * k)
  | Infinite => Infinite
  | NaN => NaN
  end.

Definition isnan (x : pyfloat) : bool :=
  match x with NaN => true | _ => false end.

Definition isinf (x : pyfloat) : bool :=
  match x with Infinite => true | _ => false end.

(** [l[i]] on a list. *)
Definition list_getitem {A : Type} (l : list A) (i : nat) : res A :=
  match nth_error l i with
  | Some a => Ok a
  | None => Raise IndexError
  end.

(** The signed amount appended to [cash_flows] for one row. *)
Definition cash_flow_of {D : Type} (row : TransactionRow D) : Q :=
  let amount := quantity row * price row in
  if String.eqb (transaction_type row) "BUY" then - amount else amount.

Definition xirr_cash_flows {D : Type} (rows : list (TransactionRow D))
  (current_value : Q) : list Q :=
  map cash_flow_of rows
  ++ (if Qgt_bool current_value 0 then [current_value] else []).

(** The list [dates]: the date of each row, then [datetime.now()] when the
    current value is appended to the cash flows. *)
Definition xirr_dates {D : Type} `{DateObject D} (now : timestamp)
  (rows : list (TransactionRow D)) (current_value : Q) : list D :=
  map date rows
  ++ (if Qgt_bool current_value 0 then [of_datetime now] else []).

(** [[(date - min_date).days for date in dates]] *)
Fixpoint xirr_days {D : Type} `{DateObject D} (dates : list D) (min_date : D)
  : res (list Z) :=
  match dates with
  | [] => Ok []
  | d :: rest =>
      n <- py_sub_days d min_date ;;
      ns <- xirr_days rest min_date ;;
      Ok (n :: ns)
  end.

(** The [metrics] dictionary. *)
Record Metrics : Type := mkMetrics {
  total_investment : Q;
  total_sells : Q;
  current_value : Q;
  total_return : Q;
  total_return_percent : Q;
  xirr : option pyfloat
}.

(** The initial [metrics] dictionary. *)
Definition initial_metrics : Metrics := mkMetrics 0 0 0 0 0 None.

(** [Series.sum()]: NaN entries are skipped. *)
Fixpoint series_sum (s : list (option Q)) : Q :=
  match s with
  | [] => 0
  | Some x :: tl => x + series_sum tl
  | None :: tl => series_sum tl
  end.

Definition is_type {D : Type} (ty : string) (row : TransactionRow D) : bool :=
  String.eqb (transaction_type row) ty.

(** [(rows['quantity'] * rows['price']).sum()] over the rows of one type. *)
Definition notional_sum {D : Type} (ty : string)
  (rows : list (TransactionRow D)) : Q :=
  series_sum
    (map (fun row => Some (quantity row * price row))
         (filter (is_type ty) rows)).

Section Xirr.

(** The class of the objects of the date column of the frame. *)
Context {D : Type} `{DateObject D}.

(** [datetime.now()] *)
Variable now : timestamp.
(** [x ** y] on floats *)
Variable pow : Q -> Q -> res Q.
(** [optimize.newton(func, x0=...)] *)
Variable newton : (Q -> res (option Q)) -> Q -> res pyfloat.
(** [optimize.brentq(func, a, b)] *)
Variable brentq : (Q -> res (option Q)) -> Q -> Q -> res pyfloat.

(** The loop of [xirr_equation], from index [i] on.  The division is one
    of floats of the array library: no exception on a zero divisor, the
    term and the sum are then not finite ([None]). *)
Fixpoint xirr_equation_loop (days : list Z) (rate : Q) (i : nat)
  (cash_flows : list Q) (result : option Q) : res (option Q) :=
  match cash_flows with
  | [] => Ok result
  | cf :: rest =>
      d <- list_getitem days i ;;
      denom <- pow (1 + rate) (inject_Z d / 365) ;;
      xirr_equation_loop days rate (S i) rest
        (np_add result (np_truediv cf denom))
  end.

Definition xirr_equation (cash_flows : list Q) (days : list Z) (rate : Q)
  : res (option Q) :=
  xirr_equation_loop days rate 0 cash_flows (Some 0).

(** [xirr_value = result * 100], then the [np.isnan]/[np.isinf] test;
    the value returned is a float or [None]. *)
Definition xirr_percent (result : pyfloat) : option pyfloat :=
  let xirr_value := pyfloat_mul result 100 in
  if isnan xirr_value || isinf xirr_value then None else Some xirr_value.

(** The [try] block: the first solver, and the second one when the first
    raises. *)
Definition solve_xirr (cash_flows : list Q) (days : list Z)
  : option pyfloat :=
  match newton (xirr_equation cash_flows days) (1 # 10) with
  | Ok result => xirr_percent result
  | Raise _ =>
      match brentq (xirr_equation cash_flows days) (- (999 # 1000)) 10 with
      | Ok result => xirr_percent result
      | Raise _ => None
      end
  end.

(** [min(dates)] and the list [days] are computed before the [try]
    block: what they raise is raised by the call. *)
Definition calculate_xirr (transactions_df : option (list (TransactionRow D)))
  (current_value : Q) : res (option pyfloat) :=
  match transactions_df with
  | None => Ok None
  | Some rows =>
      if (List.length rows =? 0)%nat then Ok None
      else
        let cash_flows := xirr_cash_flows rows current_value in
        let dates := xirr_dates now rows current_value in
        if (List.length cash_flows <? 2)%nat then Ok None
        else
          min_date <- py_min dates ;;
          days <- xirr_days dates min_date ;;
          Ok (solve_xirr cash_flows days)
  end.

(** ** calculate_portfolio_metrics *)

Definition calculate_portfolio_metrics
  (transactions_df : option (list (TransactionRow D)))
  (holdings_df : option (list ValuedHolding)) : res Metrics :=
  match transactions_df, holdings_df with
  | Some rows, Some holdings =>
      let total_investment :=
        match rows with [] => 0 | _ => notional_sum "BUY" rows end in
      let total_sells :=
        match rows with [] => 0 | _ => notional_sum "SELL" rows end in
      let current_value :=
        match holdings with
        | [] => 0
        | _ => series_sum (map v_current_value holdings)
        end in
      let total_return := total_sells + current_value - total_investment in
      let total_return_percent :=
        if Qgt_bool total_investment 0
        then (total_return / total_investment) * 100
        else 0 in
      xirr <- calculate_xirr transactions_df current_value ;;
      Ok (mkMetrics total_investment total_sells current_value
            total_return total_return_percent xirr)
  | _, _ => Ok initial_metrics
  end.

End Xirr.

(** ** A stable sort by date *)

(** Insertion sort by date.  A row is put in front of the first row whose
    date is not earlier, so that rows of equal date stay in the order of
    the frame. *)
Fixpoint insert_row (x : Transaction) (l : list Transaction)
  : list Transaction :=
  match l with
  | [] => [x]
  | y :: tl => if (date x <=? date y)%Z then x :: l else y :: insert_row x tl
  end.

Definition stable_sort_values (rows : list Transaction) : list Transaction :=
  fold_right insert_row [] rows.

(** ** Vocabulary of the statements *)

(** [df.sort_values('date')] is called with the library's default sorting
    kind, which the library documents as not stable.  What every kind
    guarantees, and all that is assumed of the parameter [sort_values], is
    that the result holds the rows of the frame in ascending order of
    date. *)
Definition date_le (a b : Transaction) : Prop := (date a <= date b)%Z.
Definition date_lt (a b : Transaction) : Prop := (date a < date b)%Z.

Definition sorts_by_date (sort_values : list Transaction -> list Transaction)
  : Prop :=
  forall rows,
    Permutation rows (sort_values rows) /\ Sorted date_le (sort_values rows).

(** Sum of a list of numbers, from the right. *)
Definition Qsum (l : list Q) : Q := fold_right Qplus 0 l.

(** The value of [remaining_quantity] after the lots [consumed] were removed
    one after the other by a sell of [r]. *)
Definition remaining_after (r : Q) (consumed : list lot) : Q :=
  fold_left (fun acc l => acc - fst l) consumed r.

Definition buy (tk : string) (d : timestamp) (q p : Q) : Transaction :=
  mkTransaction tk d "BUY" q p.

Definition sell (tk : string) (d : timestamp) (q p : Q) : Transaction :=
  mkTransaction tk d "SELL" q p.

(** The queue of a ticker, empty when the ticker is not a key. *)
Definition queue_of (lots : dict (list lot)) (tk : string) : list lot :=
  match dict_get lots tk with
  | Some queue => queue
  | None => []
  end.

(** What one row does to the queue of its own ticker. *)
Definition step_queue (row : Transaction) (queue : list lot) : list lot :=
  if String.eqb (transaction_type row) "BUY" then
    queue ++ [(quantity row, price row)]
  else if String.eqb (transaction_type row) "SELL" then
    snd (sell_loop (quantity row) queue)
  else queue.

(** The quantity a row matched against lots: for a SELL, its quantity less
    the [remaining_quantity] left when the loop ends. *)
Definition matched_of (row : Transaction) (queue : list lot) : Q :=
  if String.eqb (transaction_type row) "SELL" then
    quantity row - fst (sell_loop (quantity row) queue)
  else 0.


Definition is_buy (row : Transaction) : bool :=
  String.eqb (transaction_type row) "BUY".

Definition bought_total (rows : list Transaction) : Q :=
  Qsum (map quantity (filter is_buy rows)).

Definition lots_quantity (queue : list lot) : Q := Qsum (map fst queue).


(** The holdings of a ticker in a result frame. *)
Definition holdings_for (tk : string) (holdings : list Holding) : list Holding :=
  filter (fun h => String.eqb (h_ticker h) tk) holdings.

(** Every queue of the dictionary satisfies [P]. *)
Definition all_queues (P : list lot -> Prop) (lots : dict (list lot)) : Prop :=
  Forall (fun kv => P (snd kv)) lots.

(** The row appended for one item of [lots.items()] that passes the
    [total_quantity > 0] test. *)
Definition has_quantity (kv : string * list lot) : bool :=
  Qgt_bool (py_sum (map fst (snd kv))) 0.

Definition holding_of (kv : string * list lot) : Holding :=
  mkHolding (fst kv) (py_sum (map fst (snd kv)))
    (py_sum (map lot_cost (snd kv)) / py_sum (map fst (snd kv))).

(** The equation of the rate as a sum over dated flows
    [(cash flow, days)]: each flow divided by [(1 + rate) ** (days / 365)],
    added from the first flow on. *)
Definition discounted (pow : Q -> Q -> res Q) (rate cf : Q) (d : Z)
  : res (option Q) :=
  denom <- pow (1 + rate) (inject_Z d / 365) ;;
  Ok (np_truediv cf denom).

Fixpoint npv_from (pow : Q -> Q -> res Q) (rate : Q) (flows : list (Q * Z))
  (acc : option Q) : res (option Q) :=
  match flows with
  | [] => Ok acc
  | (cf, d) :: rest =>
      term <- discounted pow rate cf d ;;
      npv_from pow rate rest (np_add acc term)
  end.

Definition npv (pow : Q -> Q -> res Q) (rate : Q) (flows : list (Q * Z))
  : res (option Q) :=
  npv_from pow rate flows (Some 0).

(** Stand-ins for the library parameters, to run the definitions on
    examples: a power function defined at the exponents 0 and 1 only, a
    first solver that returns its starting point, and solvers that raise. *)
Definition sample_pow (x y : Q) : res Q :=
  if Qeq_bool y 0 then Ok 1
  else if Qeq_bool y 1 then Ok x
  else Raise ValueError.

Definition seed_newton (f : Q -> res (option Q)) (x0 : Q) : res pyfloat :=
  Ok (Finite x0).

Definition failing_newton (f : Q -> res (option Q)) (x0 : Q) : res pyfloat :=
  Raise RuntimeError.

Definition failing_brentq (f : Q -> res (option Q)) (a b : Q) : res pyfloat :=
  Raise ValueError.

(** One day and one year (of 365 days), in microseconds. *)
Definition day : timestamp := microseconds_per_day.
Definition year : timestamp := (365 * microseconds_per_day)%Z.

(** ** A ledger of one trading day *)

(** 2 January 2024. *)
Definition one_day : timestamp := (19724 * microseconds_per_day)%Z.

(** Forty rows of that date, in the order of arrival: thirty-nine
    purchases of one share, at the prices 100, 101, ..., 138, then the sale
    of five shares. *)
Definition same_day_ledger : list Transaction :=
  map (fun k => buy "X" one_day 1 (inject_Z (100 + Z.of_nat k))) (seq 0 39)
  ++ [sell "X" one_day 5 140].

(** [df.iloc[indexer]]: the rows at the given positions. *)
Definition take_rows (indexer : list nat) (rows : list Transaction)
  : list Transaction :=
  flat_map (fun i => match nth_error rows i with
                     | Some row => [row]
                     | None => []
                     end) indexer.

(** The positions in which the default sort kind of the library, an
    introsort, leaves forty rows of equal date: a partition step swaps rows
    of equal key, and the frame is partitioned twice before the parts are
    short enough for the insertion sort that ends it. *)
Definition quicksort_indexer : list nat :=
  [0; 22; 23; 24; 25; 26; 27; 28; 21; 29; 31; 32; 33; 34; 35; 36; 37; 30;
   20; 19; 18; 1; 2; 3; 4; 5; 6; 7; 8; 9; 10; 11; 12; 13; 14; 15; 16; 17;
   38; 39]%nat.

(** ** Frames by the class of their dates *)

Definition is_calendar_date (d : pydate) : bool :=
  match d with CalendarDate _ => true | Datetime _ => false end.

(** A row of a frame of Timestamps, as a row of a frame of objects. *)
Definition stamped (row : Transaction) : TransactionRow pydate :=
  mkTransaction (ticker row) (Datetime (date row)) (transaction_type row)
    (quantity row) (price row).

(** ** data_processing: the tickers of a frame *)

(** The values of a column in order of first appearance ([Series.unique],
    [drop_duplicates]): an element is kept unless an equal one was seen. *)
Fixpoint first_occurrences {A : Type} (eqb : A -> A -> bool) (seen : list A)
  (l : list A) : list A :=
  match l with
  | [] => []
  | x :: tl =>
      if existsb (eqb x) seen then first_occurrences eqb seen tl
      else x :: first_occurrences eqb (x :: seen) tl
  end.

Definition series_unique (s : list string) : list string :=
  first_occurrences String.eqb [] s.

Definition get_unique_tickers (transactions_df : option (list Transaction))
  : list string :=
  match transactions_df with
  | None => []
  | Some rows =>
      if (List.length rows =? 0)%nat then []
      else series_unique (map ticker rows)
  end.

(** ** More vocabulary *)

Definition has_ticker (tk : string) (row : Transaction) : bool :=
  String.eqb (ticker row) tk.

(** The lots bought for a ticker, in the order of the rows. *)
Definition bought_lots (tk : string) (rows : list Transaction) : list lot :=
  map (fun row => (quantity row, price row))
    (filter is_buy (filter (has_ticker tk) rows)).

(** [queue] is what FIFO selling leaves of the lots [bought]: the lots from
    some position [k] on, the first of them possibly reduced in quantity. *)
Definition fifo_rest (queue bought : list lot) : Prop :=
  exists k : nat,
    (k <= List.length bought)%nat
    /\ tl queue = skipn (S k) bought
    /\ match queue with
       | [] => k = List.length bought
       | (q, p) :: _ =>
           exists q0, nth_error bought k = Some (q0, p) /\ q <= q0
       end.

(** Lots equal up to the value of their quantities. *)
Definition lots_eq (l1 l2 : list lot) : Prop :=
  Forall2 (fun a b => fst a == fst b /\ snd a = snd b) l1 l2.

(** ** get_current_prices *)

(** What [yf.download(...)['Close']] gives: a Series of closing prices, or
    a frame whose rows map tickers to closing prices. *)
Inductive close_data : Type :=
| CloseSeries (values : list (option Q))
| CloseFrame (rows : list (dict (option Q))).

(** [x.iloc[-1]] *)
Definition iloc_last {A : Type} (l : list A) : res A :=
  match rev l with
  | [] => Raise IndexError
  | x :: _ => Ok x
  end.

(** The [for ticker in tickers] loop; an exception ends it and leaves the
    prices set so far. *)
Fixpoint collect_prices (latest_prices : dict (option Q))
  (tickers : list string) (prices : dict (option Q))
  : dict (option Q) * option exn :=
  match tickers with
  | [] => (prices, None)
  | tk :: rest =>
      if dict_contains latest_prices tk then
        match dict_getitem latest_prices tk with
        | Ok v => collect_prices latest_prices rest (dict_setitem prices tk v)
        | Raise e => (prices, Some e)
        end
      else collect_prices latest_prices rest prices
  end.

(** [download] is [yf.download(tickers, period="1d")['Close']]. *)
Definition get_current_prices (download : list string -> res close_data)
  (tickers : list string) : dict (option Q) :=
  match tickers with
  | [] => []
  | first :: _ =>
      match download tickers with
      | Ok (CloseSeries values) =>
          match iloc_last values with
          | Ok v => dict_setitem [] first v
          | Raise _ => []
          end
      | Ok (CloseFrame rows) =>
          match iloc_last rows with
          | Ok latest_prices => fst (collect_prices latest_prices tickers [])
          | Raise _ => []
          end
      | Raise _ => []
      end
  end.

(** ** The data path of the view tab *)

(** What [render_view_portfolio] shows. *)
Inductive portfolio_view : Type :=
| NoTransactions
| NoHoldings
| PricesUnavailable
| ValueUnavailable
| PortfolioTable (total_value : Q) (holdings : list ValuedHolding).

Definition render_view_portfolio
  (sort_values : list Transaction -> list Transaction)
  (download : list string -> res close_data)
  (transactions : option (list Transaction)) : res portfolio_view :=
  match transactions with
  | None => Ok NoTransactions
  | Some [] => Ok NoTransactions
  | Some _ =>
      holdings_df <- calculate_holdings_fifo sort_values transactions ;;
      match holdings_df with
      | [] => Ok NoHoldings
      | _ =>
          let tickers := map h_ticker holdings_df in
          let current_prices := get_current_prices download tickers in
          match current_prices with
          | [] => Ok PricesUnavailable
          | _ =>
              let holdings_with_value :=
                calculate_portfolio_value holdings_df current_prices in
              match holdings_with_value with
              | [] => Ok ValueUnavailable
              | _ =>
                  Ok (PortfolioTable
                        (series_sum (map v_current_value holdings_with_value))
                        holdings_with_value)
              end
          end
      end
  end.

(** One row of the "Transaction History by Ticker" table. *)
Record TickerSummary : Type := mkTickerSummary {
  s_ticker : string;
  s_buy_quantity : Q;
  s_buy_value : Q;
  s_sell_quantity : Q;
  s_sell_value : Q;
  s_realized_pl : Q
}.

(** [column.sum() if not rows.empty else 0] *)
Definition sum_or_zero (f : Transaction -> Q) (rows : list Transaction) : Q :=
  match rows with
  | [] => 0
  | _ => series_sum (map (fun row => Some (f row)) rows)
  end.

Definition notional (row : Transaction) : Q := quantity row * price row.

Definition ticker_summary_row (transactions : list Transaction) (tk : string)
  : TickerSummary :=
  let ticker_transactions := filter (has_ticker tk) transactions in
  let ticker_buys := filter (is_type "BUY") ticker_transactions in
  let ticker_sells := filter (is_type "SELL") ticker_transactions in
  let buy_quantity := sum_or_zero quantity ticker_buys in
  let buy_value := sum_or_zero notional ticker_buys in
  let sell_quantity := sum_or_zero quantity ticker_sells in
  let sell_value := sum_or_zero notional ticker_sells in
  let realized_pl :=
    if Qgt_bool buy_quantity 0
    then sell_value - buy_value * (sell_quantity / buy_quantity)
    else 0 in
  mkTickerSummary tk buy_quantity buy_value sell_quantity sell_value
    realized_pl.

Definition ticker_summary (transactions : list Transaction)
  : list TickerSummary :=
  map (ticker_summary_row transactions)
    (series_unique (map ticker transactions)).

(** ** Adding an uploaded frame to the portfolio *)

(** Two rows are duplicates when all their fields are equal. *)
Definition row_eqb (a b : Transaction) : bool :=
  String.eqb (ticker a) (ticker b)
  && (date a =? date b)%Z
  && String.eqb (transaction_type a) (transaction_type b)
  && Qeq_bool (quantity a) (quantity b)
  && Qeq_bool (price a) (price b).

(** [drop_duplicates()]: the first of equal rows is kept. *)
Definition drop_duplicates (rows : list Transaction) : list Transaction :=
  first_occurrences row_eqb [] rows.

(** The "Add to Portfolio" button of the upload tab. *)
Definition add_to_portfolio (transactions : option (list Transaction))
  (result : list Transaction) : list Transaction :=
  match transactions with
  | None => result
  | Some rows => drop_duplicates (rows ++ result)
  end.

(** The cost of the lots of a queue, and of all queues. *)
Definition lots_cost (queue : list lot) : Q := Qsum (map lot_cost queue).

Definition dict_cost (lots : dict (list lot)) : Q :=
  Qsum (map (fun kv => lots_cost (snd kv)) lots).

(** The cost basis of a holding: its quantity at its average cost. *)
Definition cost_basis (h : Holding) : Q := h_quantity h * h_avg_cost_basis h.

(** ** validate_csv_format *)

(** Exceptions of the CSV path: [TypeError], or one of [exn]. *)
Inductive py_error : Type :=
| TypeError
| OtherError (e : exn).

Inductive outcome (A : Type) : Type :=
| Returns (a : A)
| Throws (e : py_error).

Arguments Returns {A} a.
Arguments Throws {A} e.

Definition obind {A B : Type} (c : outcome A) (k : A -> outcome B)
  : outcome B :=
  match c with
  | Returns a => k a
  | Throws e => Throws e
  end.

Notation "x <~ c ;; k" := (obind c (fun x => k))
  (at level 61, c at next level, right associativity).

(** A value of a frame read from CSV: a string, a number, a missing value,
    or, once a column was converted, a timestamp. *)
Inductive cell : Type :=
| CStr (s : string)
| CNum (x : Q)
| CNaN
| CTime (t : timestamp).

(** A column: as read, or converted to numbers or to timestamps. *)
Inductive column : Type :=
| Cells (cs : list cell)
| Floats (vs : list (option Q))
| Datetimes (ts : list (option timestamp)).

Definition frame : Type := dict column.

Definition column_cells (c : column) : list cell :=
  match c with
  | Cells cs => cs
  | Floats vs =>
      map (fun v => match v with Some x => CNum x | None => CNaN end) vs
  | Datetimes ts =>
      map (fun t => match t with Some d => CTime d | None => CNaN end) ts
  end.

Definition cell_eqb (a b : cell) : bool :=
  match a, b with
  | CStr s, CStr s' => String.eqb s s'
  | CNum x, CNum y => Qeq_bool x y
  | CNaN, CNaN => true
  | CTime t, CTime t' => (t =? t')%Z
  | _, _ => false
  end.

(** [df[col]] *)
Definition getcol (df : frame) (col : string) : outcome column :=
  match dict_get df col with
  | Some c => Returns c
  | None => Throws (OtherError KeyError)
  end.

Definition required_columns : list string :=
  ["ticker"; "date"; "transaction_type"; "quantity"; "price"]%string.

(** [isin(['BUY', 'SELL'])] at one value *)
Definition is_valid_type (c : cell) : bool :=
  match c with
  | CStr s => String.eqb s "BUY" || String.eqb s "SELL"
  | _ => false
  end.

(** [sep.join(items)]: [TypeError] unless every item is a string. *)
Fixpoint cell_strings (items : list cell) : outcome (list string) :=
  match items with
  | [] => Returns []
  | CStr s :: rest => ss <~ cell_strings rest ;; Returns (s :: ss)
  | _ :: _ => Throws TypeError
  end.

Definition py_join (sep : string) (items : list cell) : outcome string :=
  ss <~ cell_strings items ;; Returns (String.concat sep ss).

(** [(column <= 0).any()]; a comparison with NaN is false. *)
Definition any_not_positive (vs : list (option Q)) : bool :=
  existsb (fun v => match v with Some x => Qle_bool x 0 | None => false end)
    vs.

Section ValidateCsv.

(** [pd.to_numeric] and [pd.to_datetime] on a column. *)
Variable to_numeric : column -> outcome (list (option Q)).
Variable to_datetime : column -> outcome (list (option timestamp)).

(** The checks after the conversion of the numeric columns. *)
Definition validate_dates_and_signs (df : frame) (qs ps : list (option Q))
  : outcome ((bool * string) * frame) :=
  dcol <~ getcol df "date" ;;
  match to_datetime dcol with
  | Throws (OtherError ValueError) =>
      Returns ((false, "Date must be in YYYY-MM-DD format."%string), df)
  | Throws e => Throws e
  | Returns ds =>
      let df := dict_setitem df "date" (Datetimes ds) in
      if any_not_positive qs then
        Returns ((false, "Quantity must be a positive number."%string), df)
      else if any_not_positive ps then
        Returns ((false, "Price must be a positive number."%string), df)
      else Returns ((true, ""%string), df)
  end.

(** The [try] block converting quantity and price, and what follows. *)
Definition validate_numbers (df : frame)
  : outcome ((bool * string) * frame) :=
  let not_numeric :=
    (false, "Quantity and price must be numeric values."%string) in
  qcol <~ getcol df "quantity" ;;
  match to_numeric qcol with
  | Throws (OtherError ValueError) => Returns (not_numeric, df)
  | Throws e => Throws e
  | Returns qs =>
      let df := dict_setitem df "quantity" (Floats qs) in
      pcol <~ getcol df "price" ;;
      match to_numeric pcol with
      | Throws (OtherError ValueError) => Returns (not_numeric, df)
      | Throws e => Throws e
      | Returns ps =>
          let df := dict_setitem df "price" (Floats ps) in
          validate_dates_and_signs df qs ps
      end
  end.

(** Returns [(is_valid, error_message)] and the frame, whose columns the
    function converts in place. *)
Definition validate_csv_format (df : frame)
  : outcome ((bool * string) * frame) :=
  let missing_columns :=
    filter (fun col => negb (dict_contains df col)) required_columns in
  match missing_columns with
  | _ :: _ =>
      Returns ((false,
                String.append "Missing required columns: "
                  (String.concat ", " missing_columns)), df)
  | [] =>
      types <~ getcol df "transaction_type" ;;
      let invalid_types :=
        first_occurrences cell_eqb []
          (filter (fun c => negb (is_valid_type c)) (column_cells types)) in
      match invalid_types with
      | _ :: _ =>
          joined <~ py_join ", " invalid_types ;;
          Returns ((false,
                    String.append "Invalid transaction types: "
                      (String.append joined ". Must be 'BUY' or 'SELL'.")),
                   df)
      | [] => validate_numbers df
      end
  end.

End ValidateCsv.

Definition is_string (c : cell) : Prop := exists s, c = CStr s.

(** Stand-ins for the two converters: numbers and missing values convert,
    a string raises [ValueError]. *)
Fixpoint sample_numbers (cs : list cell) : outcome (list (option Q)) :=
  match cs with
  | [] => Returns []
  | CNum x :: rest => vs <~ sample_numbers rest ;; Returns (Some x :: vs)
  | CNaN :: rest => vs <~ sample_numbers rest ;; Returns (None :: vs)
  | _ :: _ => Throws (OtherError ValueError)
  end.

Definition sample_to_numeric (c : column) : outcome (list (option Q)) :=
  sample_numbers (column_cells c).

Fixpoint sample_times (cs : list cell) : outcome (list (option timestamp)) :=
  match cs with
  | [] => Returns []
  | CNum x :: rest => ts <~ sample_times rest ;; Returns (Some (Qnum x) :: ts)
  | CTime t :: rest => ts <~ sample_times rest ;; Returns (Some t :: ts)
  | CNaN :: rest => ts <~ sample_times rest ;; Returns (None :: ts)
  | _ :: _ => Throws (OtherError ValueError)
  end.

Definition sample_to_datetime (c : column)
  : outcome (list (option timestamp)) :=
  sample_times (column_cells c).

(** A frame of one row, as read from CSV. *)
Definition sample_frame (ty : cell) : frame :=
  [("ticker"%string, Cells [CStr "AAPL"]);
   ("date"%string, Cells [CNum 0]);
   ("transaction_type"%string, Cells [ty]);
   ("quantity"%string, Cells [CNum 10]);
   ("price"%string, Cells [CNum 150])].

(** * Proofs *)

(** ** Numbers *)

Lemma Qgt_bool_true (x y : Q) : Qgt_bool x y = true <-> y < x.
Proof.
  unfold Qgt_bool. rewrite negb_true_iff. split; intro H.
  - apply Qnot_le_lt. intro Hle. apply Qle_bool_iff in Hle. congruence.
  - destruct (Qle_bool x y) eqn:E; [|reflexivity].
    apply Qle_bool_iff in E. lra.
Qed.

Lemma Qgt_bool_false (x y : Q) : Qgt_bool x y = false <-> x <= y.
Proof.
  unfold Qgt_bool. rewrite negb_false_iff. apply Qle_bool_iff.
Qed.

Lemma fold_left_Qplus_acc (l : list Q) (a : Q) :
  fold_left Qplus l a == a + Qsum l.
Proof.
  revert a. induction l as [|x l IH]; intro a; simpl.
  - lra.
  - rewrite IH. lra.
Qed.

Lemma py_sum_Qsum (l : list Q) : py_sum l == Qsum l.
Proof. unfold py_sum. rewrite fold_left_Qplus_acc. lra. Qed.

Lemma Qsum_app (l1 l2 : list Q) : Qsum (l1 ++ l2) == Qsum l1 + Qsum l2.
Proof.
  induction l1 as [|x l1 IH]; simpl; [lra | rewrite IH; lra].
Qed.

Lemma Qsum_perm (l1 l2 : list Q) : Permutation l1 l2 -> Qsum l1 == Qsum l2.
Proof.
  induction 1; simpl; lra.
Qed.

Lemma Qsum_nonneg (l : list Q) : Forall (fun x => 0 <= x) l -> 0 <= Qsum l.
Proof.
  induction 1; simpl; lra.
Qed.

Lemma remaining_after_Qsum (consumed : list lot) (r : Q) :
  remaining_after r consumed == r - Qsum (map fst consumed).
Proof.
  unfold remaining_after. revert r.
  induction consumed as [|[q p] c IH]; intro r; simpl.
  - lra.
  - rewrite IH. simpl. lra.
Qed.

(** ** The sell loop *)

Lemma sell_loop_fifo (r : Q) (queue : list lot) :
  exists k : nat,
    (forall j, (j < k)%nat ->
       exists q p, nth_error queue j = Some (q, p)
                /\ 0 < remaining_after r (firstn j queue)
                /\ q <= remaining_after r (firstn j queue))
    /\ fst (sell_loop r queue) == remaining_after r (firstn k queue)
         - (Qsum (map fst (skipn k queue))
            - Qsum (map fst (snd (sell_loop r queue))))
    /\ ((snd (sell_loop r queue) = skipn k queue
         /\ (remaining_after r (firstn k queue) <= 0 \/ k = List.length queue))
        \/ exists q p,
             nth_error queue k = Some (q, p)
             /\ 0 < remaining_after r (firstn k queue)
             /\ remaining_after r (firstn k queue) < q
             /\ snd (sell_loop r queue)
                = (q - remaining_after r (firstn k queue), p)
                    :: skipn (S k) queue).
Proof.
  revert r. induction queue as [|[q p] rest IH]; intro r.
  - exists 0%nat. simpl. split; [intros j Hj; lia|].
    split; [unfold remaining_after; simpl; lra|].
    left. split; [reflexivity | right; reflexivity].
  - simpl sell_loop. destruct (Qgt_bool r 0) eqn:Hr.
    + apply Qgt_bool_true in Hr. destruct (Qle_bool q r) eqn:Hq.
      * apply Qle_bool_iff in Hq.
        destruct (IH (r - q)) as (k & Hpre & Hrem & Hres).
        exists (S k). split; [|split].
        -- intros [|j] Hj.
           ++ exists q, p. simpl. unfold remaining_after. simpl. auto.
           ++ destruct (Hpre j ltac:(lia)) as (q' & p' & ? & ? & ?).
              exists q', p'. simpl. unfold remaining_after in *. simpl. auto.
        -- simpl. unfold remaining_after in *. simpl. exact Hrem.
        -- destruct Hres as [[Hs Hstop] | (q' & p' & Hn & H1 & H2 & Hs)].
           ++ left. simpl. unfold remaining_after in *. simpl.
              split; [exact Hs|]. destruct Hstop; [left; assumption | right; lia].
           ++ right. exists q', p'. simpl.
              unfold remaining_after in *. simpl. auto.
      * assert (r < q).
        { apply Qnot_le_lt. intro Hle. apply Qle_bool_iff in Hle. congruence. }
        exists 0%nat. split; [intros j Hj; lia|]. split.
        -- simpl. unfold remaining_after. simpl. lra.
        -- right. exists q, p. simpl. unfold remaining_after. simpl. auto.
    + apply Qgt_bool_false in Hr.
      exists 0%nat. split; [intros j Hj; lia|]. split.
      * simpl. unfold remaining_after. simpl. lra.
      * left. simpl. unfold remaining_after. simpl. auto.
Qed.

Lemma sell_loop_matched (r : Q) (queue : list lot) :
  r - fst (sell_loop r queue)
  == Qsum (map fst queue) - Qsum (map fst (snd (sell_loop r queue))).
Proof.
  revert r. induction queue as [|[q p] rest IH]; intro r; simpl.
  - lra.
  - destruct (Qgt_bool r 0); [destruct (Qle_bool q r)|]; simpl.
    + specialize (IH (r - q)). lra.
    + lra.
    + lra.
Qed.


Lemma sell_loop_remaining_le (r : Q) (queue : list lot) :
  Forall (fun l => 0 <= fst l) queue -> fst (sell_loop r queue) <= r.
Proof.
  intro H. revert r. induction H as [|[q p] rest Hq _ IH]; intro r; simpl.
  - lra.
  - destruct (Qgt_bool r 0) eqn:Hr; [destruct (Qle_bool q r)|]; simpl in *.
    + specialize (IH (r - q)). lra.
    + apply Qgt_bool_true in Hr. lra.
    + lra.
Qed.

Lemma sell_loop_keeps (P : Q -> Prop) (r : Q) (queue : list lot) :
  (forall r' q, P q -> r' < q -> 0 < r' -> r' <= r -> P (q - r')) ->
  Forall (fun l => P (fst l)) queue ->
  Forall (fun l => 0 <= fst l) queue ->
  Forall (fun l => P (fst l)) (snd (sell_loop r queue)).
Proof.
  intros Hsub HP Hpos. revert r Hsub.
  induction queue as [|[q p] rest IH]; intros r Hsub; simpl.
  - constructor.
  - inversion HP as [|? ? HPq HPrest]; subst.
    inversion Hpos as [|? ? Hq0 Hposrest]; subst. simpl in *.
    destruct (Qgt_bool r 0) eqn:Hr; [destruct (Qle_bool q r) eqn:Hq|]; simpl.
    + apply IH; try assumption. intros r' q' HP' Hlt H0 Hle.
      apply Hsub; try assumption. lra.
    + constructor; [|assumption]. simpl.
      apply Qgt_bool_true in Hr.
      apply Hsub; try assumption; try lra.
      apply Qnot_le_lt. intro Hle. apply Qle_bool_iff in Hle. congruence.
    + constructor; assumption.
Qed.

Lemma sell_loop_nonneg (r : Q) (queue : list lot) :
  Forall (fun l => 0 <= fst l) queue ->
  Forall (fun l => 0 <= fst l) (snd (sell_loop r queue)).
Proof.
  intro H. apply (sell_loop_keeps (fun q => 0 <= q)); try assumption.
  intros; lra.
Qed.

Lemma sell_loop_pos (r : Q) (queue : list lot) :
  Forall (fun l => 0 < fst l) queue ->
  Forall (fun l => 0 < fst l) (snd (sell_loop r queue)).
Proof.
  intro H. apply (sell_loop_keeps (fun q => 0 < q)); try assumption.
  - intros; lra.
  - eapply Forall_impl; [|exact H]. simpl. intros; lra.
Qed.

(** A sell of at least the whole queue empties it. *)
Lemma sell_loop_oversell (r : Q) (queue : list lot) :
  Forall (fun l => 0 < fst l) queue ->
  Qsum (map fst queue) <= r ->
  snd (sell_loop r queue) = []
  /\ fst (sell_loop r queue) == r - Qsum (map fst queue).
Proof.
  intro H. revert r. induction H as [|[q p] rest Hq Hrest IH]; intros r Hr.
  - simpl. split; [reflexivity | lra].
  - simpl in *.
    assert (0 <= Qsum (map fst rest)).
    { apply Qsum_nonneg. rewrite Forall_map.
      eapply Forall_impl; [|exact Hrest]. simpl. intros; lra. }
    assert (Hgt : Qgt_bool r 0 = true) by (apply Qgt_bool_true; lra).
    assert (Hle : Qle_bool q r = true) by (apply Qle_bool_iff; lra).
    rewrite Hgt, Hle.
    destruct (IH (r - q)) as [E1 E2]; [lra|].
    split; [exact E1 | rewrite E2; lra].
Qed.

(** ** Dictionaries *)

Section DictFacts.

Context {V : Type}.
Implicit Types (d : dict V) (k : string) (v : V).

Lemma dict_get_setitem_same d k v : dict_get (dict_setitem d k v) k = Some v.
Proof.
  induction d as [|[k' v'] tl IH]; simpl.
  - now rewrite String.eqb_refl.
  - destruct (String.eqb k' k) eqn:E; simpl; rewrite E; auto.
Qed.

Lemma dict_get_setitem_other d k k' v :
  k <> k' -> dict_get (dict_setitem d k v) k' = dict_get d k'.
Proof.
  intro Hne. induction d as [|[k0 v0] tl IH]; simpl.
  - apply String.eqb_neq in Hne. now rewrite Hne.
  - destruct (String.eqb k0 k) eqn:E; simpl.
    + apply String.eqb_eq in E. subst k0.
      apply String.eqb_neq in Hne. now rewrite Hne.
    + now rewrite IH.
Qed.

Lemma dict_get_In d k v : dict_get d k = Some v -> In (k, v) d.
Proof.
  induction d as [|[k' v'] tl IH]; simpl; [discriminate|].
  destruct (String.eqb k' k) eqn:E.
  - apply String.eqb_eq in E. intro H. inversion H. subst. now left.
  - intro H. right. auto.
Qed.

Lemma dict_get_None d k : dict_get d k = None -> ~ In k (map fst d).
Proof.
  induction d as [|[k' v'] tl IH]; simpl; [tauto|].
  destruct (String.eqb k' k) eqn:E; [discriminate|].
  apply String.eqb_neq in E. intros H [H1 | H1]; [congruence | now apply IH].
Qed.

Lemma dict_setitem_keys d k v :
  map fst (dict_setitem d k v)
  = if dict_contains d k then map fst d else map fst d ++ [k].
Proof.
  unfold dict_contains. induction d as [|[k' v'] tl IH]; simpl.
  - reflexivity.
  - destruct (String.eqb k' k) eqn:E; simpl; [reflexivity|].
    rewrite IH. now destruct (dict_get tl k).
Qed.

Lemma dict_setitem_NoDup d k v :
  NoDup (map fst d) -> NoDup (map fst (dict_setitem d k v)).
Proof.
  intro Hnd. rewrite dict_setitem_keys. unfold dict_contains.
  destruct (dict_get d k) eqn:E; [assumption|].
  apply dict_get_None in E.
  apply (Permutation_NoDup (l := k :: map fst d)).
  - apply Permutation_cons_append.
  - now constructor.
Qed.

End DictFacts.

(** ** One row, then all rows *)

Lemma dict_setitem_twice {V : Type} (d : dict V) (k : string) (v v' : V) :
  dict_setitem (dict_setitem d k v) k v' = dict_setitem d k v'.
Proof.
  induction d as [|[k0 v0] tl IH]; simpl.
  - now rewrite String.eqb_refl.
  - destruct (String.eqb k0 k) eqn:E; simpl; rewrite E; [reflexivity|].
    now rewrite IH.
Qed.

Lemma dict_setitem_get_id {V : Type} (d : dict V) (k : string) (v : V) :
  dict_get d k = Some v -> dict_setitem d k v = d.
Proof.
  induction d as [|[k0 v0] tl IH]; simpl; [discriminate|].
  destruct (String.eqb k0 k) eqn:E.
  - intro H. now inversion H.
  - intro H. now rewrite IH.
Qed.

Lemma queue_of_setitem (lots : dict (list lot)) (k k' : string) (v : list lot) :
  queue_of (dict_setitem lots k v) k'
  = if String.eqb k k' then v else queue_of lots k'.
Proof.
  unfold queue_of. destruct (String.eqb k k') eqn:E.
  - apply String.eqb_eq in E. subst. now rewrite dict_get_setitem_same.
  - apply String.eqb_neq in E. now rewrite dict_get_setitem_other.
Qed.

(** A row never raises: it rewrites the queue of its ticker with
    [step_queue]. *)
Lemma process_row_step (lots : dict (list lot)) (row : Transaction) :
  process_row lots row
  = Ok (dict_setitem lots (ticker row)
          (step_queue row (queue_of lots (ticker row)))).
Proof.
  unfold process_row, step_queue, queue_of, dict_contains, dict_getitem.
  destruct (dict_get lots (ticker row)) as [queue|] eqn:Hget.
  - rewrite Hget.
    destruct (String.eqb (transaction_type row) "BUY"); simpl; [reflexivity|].
    destruct (String.eqb (transaction_type row) "SELL"); simpl; [reflexivity|].
    now rewrite dict_setitem_get_id.
  - rewrite dict_get_setitem_same.
    destruct (String.eqb (transaction_type row) "BUY"); simpl;
      [now rewrite dict_setitem_twice|].
    destruct (String.eqb (transaction_type row) "SELL"); simpl;
      [now rewrite dict_setitem_twice | reflexivity].
Qed.

Lemma process_rows_ok (rows : list Transaction) (lots : dict (list lot)) :
  exists lots', process_rows lots rows = Ok lots'.
Proof.
  revert lots. induction rows as [|row rest IH]; intro lots; simpl.
  - now exists lots.
  - rewrite process_row_step. simpl. apply IH.
Qed.

Lemma process_rows_cons (row : Transaction) (rest : list Transaction)
  (lots : dict (list lot)) :
  process_rows lots (row :: rest)
  = process_rows
      (dict_setitem lots (ticker row)
         (step_queue row (queue_of lots (ticker row)))) rest.
Proof. simpl. now rewrite process_row_step. Qed.

Lemma process_rows_NoDup (rows : list Transaction) (lots lots' : dict (list lot)) :
  NoDup (map fst lots) -> process_rows lots rows = Ok lots' ->
  NoDup (map fst lots').
Proof.
  revert lots. induction rows as [|row rest IH]; intros lots Hnd.
  - simpl. intro H. inversion H. now subst.
  - rewrite process_rows_cons. apply IH. now apply dict_setitem_NoDup.
Qed.

Lemma all_queues_setitem (P : list lot -> Prop) (lots : dict (list lot))
  (k : string) (v : list lot) :
  all_queues P lots -> P v -> all_queues P (dict_setitem lots k v).
Proof.
  unfold all_queues. intros H Hv.
  induction H as [|[k0 v0] tl H0 Htl IH]; simpl.
  - constructor; [exact Hv | constructor].
  - destruct (String.eqb k0 k); constructor; auto.
Qed.

Lemma all_queues_queue_of (P : list lot -> Prop) (lots : dict (list lot))
  (k : string) :
  all_queues P lots -> P [] -> P (queue_of lots k).
Proof.
  unfold all_queues, queue_of. intros H Hnil.
  destruct (dict_get lots k) as [queue|] eqn:E; [|exact Hnil].
  apply dict_get_In in E. rewrite Forall_forall in H. exact (H _ E).
Qed.

Lemma process_rows_all_queues (P : list lot -> Prop) (rows : list Transaction)
  (lots lots' : dict (list lot)) :
  P [] ->
  Forall (fun row => forall queue, P queue -> P (step_queue row queue)) rows ->
  all_queues P lots -> process_rows lots rows = Ok lots' ->
  all_queues P lots'.
Proof.
  intros Hnil Hrows. revert lots.
  induction Hrows as [|row rest Hrow _ IH]; intros lots Hall.
  - simpl. intro H. inversion H. now subst.
  - rewrite process_rows_cons. apply IH.
    apply all_queues_setitem; [exact Hall|].
    apply Hrow. now apply all_queues_queue_of.
Qed.

(** ** The holdings frame *)

Lemma create_holdings_eq (lots : dict (list lot)) :
  create_holdings lots = Ok (map holding_of (filter has_quantity lots)).
Proof.
  induction lots as [|[tk queue] rest IH]; simpl; [reflexivity|].
  unfold has_quantity at 1. simpl.
  destruct (Qgt_bool (py_sum (map fst queue)) 0) eqn:Hgt; [|exact IH].
  apply Qgt_bool_true in Hgt. unfold py_truediv.
  destruct (Qeq_bool (py_sum (map fst queue)) 0) eqn:Hz.
  - apply Qeq_bool_iff in Hz. lra.
  - simpl. rewrite IH. reflexivity.
Qed.

Lemma holdings_for_absent (tk : string) (lots : dict (list lot)) :
  ~ In tk (map fst lots) ->
  holdings_for tk (map holding_of (filter has_quantity lots)) = [].
Proof.
  induction lots as [|[k queue] rest IH]; simpl; [reflexivity|].
  intro Hnot. destruct (has_quantity (k, queue)); simpl.
  - destruct (String.eqb k tk) eqn:E.
    + apply String.eqb_eq in E. tauto.
    + apply IH. tauto.
  - apply IH. tauto.
Qed.

Lemma holdings_for_present (tk : string) (queue : list lot)
  (lots : dict (list lot)) :
  NoDup (map fst lots) -> dict_get lots tk = Some queue ->
  holdings_for tk (map holding_of (filter has_quantity lots))
  = if has_quantity (tk, queue) then [holding_of (tk, queue)] else [].
Proof.
  induction lots as [|[k q0] rest IH]; simpl; [discriminate|].
  intros Hnd Hget. inversion Hnd as [|? ? Hnotin Hnd']; subst.
  destruct (String.eqb k tk) eqn:E.
  - apply String.eqb_eq in E. subst k. inversion Hget. subst q0.
    destruct (has_quantity (tk, queue)) eqn:Hq; simpl.
    + rewrite String.eqb_refl. f_equal. now apply holdings_for_absent.
    + now apply holdings_for_absent.
  - destruct (has_quantity (k, q0)); simpl; [rewrite E|]; now apply IH.
Qed.

Lemma has_quantity_pos (tk : string) (queue : list lot) :
  Forall (fun l => 0 < fst l) queue -> queue <> [] ->
  has_quantity (tk, queue) = true.
Proof.
  intros Hpos Hne. unfold has_quantity. simpl. apply Qgt_bool_true.
  rewrite py_sum_Qsum. destruct queue as [|[q p] rest]; [now elim Hne|].
  inversion Hpos as [|? ? Hq Hrest]; subst. simpl in *.
  assert (0 <= Qsum (map fst rest)); [|lra].
  apply Qsum_nonneg. rewrite Forall_map.
  eapply Forall_impl; [|exact Hrest]. simpl. intros; lra.
Qed.


Lemma holdings_quantity_pos (lots : dict (list lot)) :
  Forall (fun h => 0 < h_quantity h)
    (map holding_of (filter has_quantity lots)).
Proof.
  rewrite Forall_map, Forall_forall. intros kv Hin.
  apply filter_In in Hin. destruct Hin as [_ Hq].
  unfold has_quantity in Hq. apply Qgt_bool_true in Hq. exact Hq.
Qed.

(** ** Sorting by date *)

Lemma date_le_trans : Relations_1.Transitive date_le.
Proof. intros a b c. unfold date_le. lia. Qed.

(** A frame already in strictly increasing date order is left as it is. *)
Lemma sorted_perm_unique (l l' : list Transaction) :
  StronglySorted date_lt l -> Permutation l l' -> Sorted date_le l' -> l' = l.
Proof.
  intros Hl. revert l'. induction Hl as [|a t Ht IH Ha]; intros l' Hperm Hs.
  - now apply Permutation_nil in Hperm.
  - destruct l' as [|b t'].
    + symmetry in Hperm. now apply Permutation_nil in Hperm.
    + apply Sorted_StronglySorted in Hs; [|exact date_le_trans].
      inversion Hs as [|? ? Hs' Hb]; subst.
      assert (b = a).
      { assert (Hin : In b (a :: t))
          by (eapply Permutation_in; [symmetry; exact Hperm | now left]).
        destruct Hin as [-> | Hin]; [reflexivity|].
        rewrite Forall_forall in Ha, Hb. specialize (Ha _ Hin).
        assert (Hin' : In a (b :: t'))
          by (eapply Permutation_in; [exact Hperm | now left]).
        destruct Hin' as [-> | Hin']; [reflexivity|].
        specialize (Hb _ Hin'). unfold date_le, date_lt in *. lia. }
      subst b. f_equal. apply IH.
      * now apply Permutation_cons_inv in Hperm.
      * now apply StronglySorted_Sorted.
Qed.

Lemma insert_row_perm (x : Transaction) (l : list Transaction) :
  Permutation (x :: l) (insert_row x l).
Proof.
  induction l as [|y tl IH]; simpl; [reflexivity|].
  destruct (date x <=? date y)%Z; [reflexivity|].
  etransitivity; [apply perm_swap | now constructor].
Qed.

Lemma insert_row_hd (x y : Transaction) (l : list Transaction) :
  date_le y x -> HdRel date_le y l -> HdRel date_le y (insert_row x l).
Proof.
  intros Hyx Hy. destruct Hy as [|z tl Hyz]; simpl.
  - now constructor.
  - destruct (date x <=? date z)%Z; now constructor.
Qed.

Lemma insert_row_sorted (x : Transaction) (l : list Transaction) :
  Sorted date_le l -> Sorted date_le (insert_row x l).
Proof.
  induction 1 as [|y tl Htl IH Hy]; simpl.
  - repeat constructor.
  - destruct (date x <=? date y)%Z eqn:E.
    + constructor; [now constructor|]. constructor.
      unfold date_le. lia.
    + constructor; [exact IH|].
      apply insert_row_hd; [|exact Hy].
      unfold date_le. lia.
Qed.

Lemma stable_sort_values_sorts : sorts_by_date stable_sort_values.
Proof.
  intro rows. unfold stable_sort_values.
  induction rows as [|x l [IHp IHs]]; simpl.
  - split; constructor.
  - split.
    + etransitivity; [|apply insert_row_perm]. now constructor.
    + now apply insert_row_sorted.
Qed.

Lemma filter_Permutation {A : Type} (f : A -> bool) (l l' : list A) :
  Permutation l l' -> Permutation (filter f l) (filter f l').
Proof.
  induction 1 as [|x l l' _ IH|x y l|l l' l'' _ IH1 _ IH2]; simpl.
  - constructor.
  - destruct (f x); [now constructor | exact IH].
  - destruct (f x), (f y); try reflexivity. apply perm_swap.
  - etransitivity; eassumption.
Qed.

Lemma bought_total_perm (rows rows' : list Transaction) :
  Permutation rows rows' -> bought_total rows == bought_total rows'.
Proof.
  intro H. unfold bought_total. apply Qsum_perm.
  apply Permutation_map. now apply filter_Permutation.
Qed.

(** ** Conservation of quantity *)


Lemma step_queue_quantity (row : Transaction) (queue : list lot) :
  lots_quantity (step_queue row queue)
  == lots_quantity queue
     + (if is_buy row then quantity row else 0)
     - matched_of row queue.
Proof.
  unfold step_queue, matched_of, is_buy, lots_quantity.
  destruct (String.eqb (transaction_type row) "BUY") eqn:Hb.
  - apply String.eqb_eq in Hb. rewrite Hb.
    change (String.eqb "BUY" "SELL") with false. cbv iota.
    rewrite map_app, Qsum_app. simpl. lra.
  - destruct (String.eqb (transaction_type row) "SELL").
    + pose proof (sell_loop_matched (quantity row) queue). lra.
    + lra.
Qed.

Lemma bought_total_cons (row : Transaction) (rest : list Transaction) :
  bought_total (row :: rest)
  == (if is_buy row then quantity row else 0) + bought_total rest.
Proof.
  unfold bought_total. simpl. destruct (is_buy row); simpl; lra.
Qed.


Lemma step_queue_nonneg (row : Transaction) (queue : list lot) :
  (is_buy row = true -> 0 <= quantity row) ->
  Forall (fun l => 0 <= fst l) queue ->
  Forall (fun l => 0 <= fst l) (step_queue row queue).
Proof.
  intros Hrow Hq. unfold step_queue. unfold is_buy in Hrow.
  destruct (String.eqb (transaction_type row) "BUY").
  - apply Forall_app. split; [exact Hq|]. constructor; [|constructor].
    simpl. now apply Hrow.
  - destruct (String.eqb (transaction_type row) "SELL"); [|exact Hq].
    now apply sell_loop_nonneg.
Qed.

Lemma step_queue_pos (row : Transaction) (queue : list lot) :
  (is_buy row = true -> 0 < quantity row) ->
  Forall (fun l => 0 < fst l) queue ->
  Forall (fun l => 0 < fst l) (step_queue row queue).
Proof.
  intros Hrow Hq. unfold step_queue. unfold is_buy in Hrow.
  destruct (String.eqb (transaction_type row) "BUY").
  - apply Forall_app. split; [exact Hq|]. constructor; [|constructor].
    simpl. now apply Hrow.
  - destruct (String.eqb (transaction_type row) "SELL"); [|exact Hq].
    now apply sell_loop_pos.
Qed.

(** A ticker without a BUY row never gets a lot. *)
Lemma process_rows_never_bought (tk : string) (rows : list Transaction) :
  (forall row, In row rows -> ticker row = tk -> is_buy row = false) ->
  forall lots lots',
    queue_of lots tk = [] -> process_rows lots rows = Ok lots' ->
    queue_of lots' tk = [].
Proof.
  induction rows as [|row rest IH]; intros Hrows lots lots' Hq H.
  - simpl in H. inversion H. now subst.
  - rewrite process_rows_cons in H. eapply IH; [| |exact H].
    + intros r Hin. apply Hrows. now right.
    + rewrite queue_of_setitem.
      destruct (String.eqb (ticker row) tk) eqn:E; [|exact Hq].
      apply String.eqb_eq in E. rewrite E, Hq.
      specialize (Hrows row (or_introl eq_refl) E).
      unfold step_queue. unfold is_buy in Hrows. rewrite Hrows.
      now destruct (String.eqb (transaction_type row) "SELL").
Qed.

Lemma holdings_for_empty_queue (tk : string) (lots : dict (list lot)) :
  NoDup (map fst lots) -> queue_of lots tk = [] ->
  holdings_for tk (map holding_of (filter has_quantity lots)) = [].
Proof.
  intros Hnd Hq. unfold queue_of in Hq.
  destruct (dict_get lots tk) as [queue|] eqn:E.
  - subst queue. now rewrite (holdings_for_present tk [] lots Hnd E).
  - apply holdings_for_absent. now apply dict_get_None.
Qed.

Lemma calculate_holdings_fifo_eq
  (sort_values : list Transaction -> list Transaction)
  (rows : list Transaction) :
  sort_values [] = [] ->
  exists lots,
    final_lots sort_values rows = Ok lots
    /\ NoDup (map fst lots)
    /\ calculate_holdings_fifo sort_values (Some rows)
       = Ok (map holding_of (filter has_quantity lots)).
Proof.
  intro Hnil. unfold calculate_holdings_fifo, final_lots.
  destruct (process_rows_ok (sort_values rows) []) as [lots Hlots].
  exists lots. split; [exact Hlots|]. split.
  - eapply process_rows_NoDup; [|exact Hlots]. constructor.
  - destruct rows as [|row rest]; simpl.
    + rewrite Hnil in Hlots. simpl in Hlots. inversion Hlots. reflexivity.
    + rewrite Hlots. simpl. apply create_holdings_eq.
Qed.

(** ** calculate_holdings_fifo, for any sort that orders the frame by date *)

Section HoldingsFifo.

Variable sort_values : list Transaction -> list Transaction.
Hypothesis sort_values_sorts : sorts_by_date sort_values.

Lemma sort_values_nil : sort_values [] = [].
Proof.
  destruct (sort_values_sorts []) as [Hp _].
  now apply Permutation_nil in Hp.
Qed.

Lemma sort_values_increasing (rows : list Transaction) :
  StronglySorted date_lt rows -> sort_values rows = rows.
Proof.
  intro H. destruct (sort_values_sorts rows) as [Hp Hs].
  now apply sorted_perm_unique.
Qed.

Lemma increasing3 (a b c : Transaction) :
  (date a < date b < date c)%Z -> StronglySorted date_lt [a; b; c].
Proof.
  intros [H1 H2]. unfold date_lt.
  repeat constructor; simpl; lia.
Qed.

(** C1. A SELL consumes the lots of its ticker from the front of the
    queue: the first [k] lots are removed entirely, each one while the
    quantity still to sell (the sell quantity less the lots removed so far)
    is positive and covers the lot; then either the
    loop stops there and the rest of the queue is untouched, or lot [k]
    exceeds what is left to sell, stays at the front with its quantity
    reduced by that amount, and the lots behind it are untouched.  A SELL
    row runs this loop on the queue of its own ticker and leaves the other
    queues alone.  For BUY (10 at 100), BUY (5 at 200), SELL 12 of one
    ticker, replayed in this order, the queue is left with the single lot
    (3, 200); on increasing dates this is the order of replay and the
    holding has quantity 3 at an average cost of 200. *)
Theorem sell_matches_lots_in_fifo_order :
  (forall (r : Q) (consumed : list lot),
     remaining_after r consumed == r - lots_quantity consumed)
  /\ (forall (r : Q) (queue : list lot),
     exists k : nat,
       (forall j, (j < k)%nat ->
          exists q p, nth_error queue j = Some (q, p)
                   /\ 0 < remaining_after r (firstn j queue)
                   /\ q <= remaining_after r (firstn j queue))
       /\ ((snd (sell_loop r queue) = skipn k queue
            /\ (remaining_after r (firstn k queue) <= 0
                \/ k = List.length queue))
           \/ exists q p,
                nth_error queue k = Some (q, p)
                /\ 0 < remaining_after r (firstn k queue)
                /\ remaining_after r (firstn k queue) < q
                /\ snd (sell_loop r queue)
                   = (q - remaining_after r (firstn k queue), p)
                       :: skipn (S k) queue))
  /\ (forall (lots : dict (list lot)) (row : Transaction),
        transaction_type row = "SELL"%string ->
        exists lots',
          process_row lots row = Ok lots'
          /\ queue_of lots' (ticker row)
             = snd (sell_loop (quantity row) (queue_of lots (ticker row)))
          /\ forall tk, tk <> ticker row -> queue_of lots' tk = queue_of lots tk)
  /\ (forall (d1 d2 d3 : timestamp) (p : Q),
        process_rows []
          [buy "X" d1 10 100; buy "X" d2 5 200; sell "X" d3 12 p]
        = Ok [("X"%string, [(3, 200)])])
  /\ (forall (d1 d2 d3 : timestamp) (p : Q),
        (d1 < d2 < d3)%Z ->
        let ledger :=
          [buy "X" d1 10 100; buy "X" d2 5 200; sell "X" d3 12 p] in
        final_lots sort_values ledger = Ok [("X"%string, [(3, 200)])]
        /\ exists h,
             calculate_holdings_fifo sort_values (Some ledger) = Ok [h]
             /\ h_ticker h = "X"%string
             /\ h_quantity h == 3
             /\ h_avg_cost_basis h == 200).
Proof.
  split; [|split; [|split; [|split]]].
  - intros r consumed. apply remaining_after_Qsum.
  - intros r queue.
    destruct (sell_loop_fifo r queue) as (k & Hpre & _ & Hres).
    exists k. split; assumption.
  - intros lots row Hty. rewrite process_row_step. eexists.
    split; [reflexivity|]. unfold step_queue. rewrite Hty.
    change (String.eqb "SELL" "BUY") with false.
    change (String.eqb "SELL" "SELL") with true. cbv iota. split.
    + rewrite queue_of_setitem. now rewrite String.eqb_refl.
    + intros tk Hne. rewrite queue_of_setitem.
      destruct (String.eqb_spec (ticker row) tk) as [E|E]; [|reflexivity].
      now elim Hne.
  - reflexivity.
  - intros d1 d2 d3 p Hd ledger.
    assert (Hs : sort_values ledger = ledger)
      by (apply sort_values_increasing, increasing3; exact Hd).
    unfold calculate_holdings_fifo, final_lots. rewrite Hs.
    split; [reflexivity|].
    eexists. split; [reflexivity|].
    simpl. repeat split; reflexivity.
Qed.


(** C4. For a ledger whose BUY quantities are positive, the frame
    returned has, for each ticker whose queue is not empty after the
    replay, exactly one row: its quantity is the sum of the remaining lot
    quantities and its average cost is the sum of quantity times price
    over these lots, divided by that quantity; a ticker whose queue is
    empty has no row, and no row has a zero quantity.  A ledger that leaves
    the lots (3, 200) and (4, 300) gives the average cost
    (3*200 + 4*300) / 7. *)
Theorem holdings_emitted_per_ticker (rows : list Transaction) :
  Forall (fun row => is_buy row = true -> 0 < quantity row) rows ->
  exists lots holdings,
    final_lots sort_values rows = Ok lots
    /\ calculate_holdings_fifo sort_values (Some rows) = Ok holdings
    /\ (forall tk,
          (queue_of lots tk <> [] ->
           exists h,
             holdings_for tk holdings = [h]
             /\ h_ticker h = tk
             /\ h_quantity h = py_sum (map fst (queue_of lots tk))
             /\ h_avg_cost_basis h
                = py_sum (map lot_cost (queue_of lots tk)) / h_quantity h
             /\ 0 < h_quantity h)
          /\ (queue_of lots tk = [] -> holdings_for tk holdings = []))
    /\ Forall (fun h => 0 < h_quantity h) holdings
    /\ (forall (d1 d2 d3 d4 : timestamp) (p : Q),
          (d1 < d2 < d3)%Z -> (d3 < d4)%Z ->
          let ledger :=
            [buy "X" d1 10 100; buy "X" d2 5 200; sell "X" d3 12 p;
             buy "X" d4 4 300] in
          final_lots sort_values ledger
          = Ok [("X"%string, [(3, 200); (4, 300)])]
          /\ exists h,
               calculate_holdings_fifo sort_values (Some ledger) = Ok [h]
               /\ h_quantity h == 7
               /\ h_avg_cost_basis h == (3 * 200 + 4 * 300) / 7).
Proof.
  intro Hrows.
  destruct (calculate_holdings_fifo_eq sort_values rows sort_values_nil)
    as (lots & Hlots & Hnd & Hcalc).
  exists lots. eexists. split; [exact Hlots|]. split; [exact Hcalc|].
  destruct (sort_values_sorts rows) as [Hperm _].
  assert (Hpos : all_queues (Forall (fun l => 0 < fst l)) lots).
  { unfold final_lots in Hlots.
    eapply (process_rows_all_queues
              (Forall (fun l => 0 < fst l))); [| | |exact Hlots].
    - constructor.
    - eapply Permutation_Forall in Hrows; [|exact Hperm].
      eapply Forall_impl; [|exact Hrows].
      intros row Hrow queue. now apply step_queue_pos.
    - constructor. }
  split; [|split; [apply holdings_quantity_pos|]].
  - intro tk. split.
    + intro Hne. unfold queue_of in *.
      destruct (dict_get lots tk) as [queue|] eqn:E; [|congruence].
      rewrite (holdings_for_present tk queue lots Hnd E).
      assert (Hq : has_quantity (tk, queue) = true).
      { apply has_quantity_pos; [|exact Hne].
        apply dict_get_In in E. unfold all_queues in Hpos.
        rewrite Forall_forall in Hpos. exact (Hpos _ E). }
      rewrite Hq. eexists. split; [reflexivity|].
      simpl. repeat split; try reflexivity.
      unfold has_quantity in Hq. now apply Qgt_bool_true in Hq.
    + intro Hq. now apply holdings_for_empty_queue.
  - intros d1 d2 d3 d4 p H123 H34 ledger.
    assert (Hs : sort_values ledger = ledger).
    { apply sort_values_increasing. unfold date_lt.
      repeat constructor; simpl; lia. }
    unfold calculate_holdings_fifo, final_lots. rewrite Hs.
    split; [reflexivity|].
    eexists. split; [reflexivity|]. simpl. split; reflexivity.
Qed.

(** C6. A SELL beyond the inventory is no error: the call returns a
    frame for every ledger; a sell of at least the whole queue (of
    positive lots) empties it and the unmatched rest of its quantity is
    dropped; a ticker with no BUY row has no holding, and the ledger made
    of one SELL of 50 for a ticker never bought gives the empty frame. *)
Theorem oversell_is_discarded (rows : list Transaction) :
  (exists holdings,
     calculate_holdings_fifo sort_values (Some rows) = Ok holdings
     /\ forall tk,
          (forall row, In row rows -> ticker row = tk -> is_buy row = false) ->
          holdings_for tk holdings = [])
  /\ (forall (row : Transaction) (queue : list lot),
        transaction_type row = "SELL"%string ->
        Forall (fun l => 0 < fst l) queue ->
        lots_quantity queue <= quantity row ->
        step_queue row queue = []
        /\ matched_of row queue == lots_quantity queue)
  /\ (forall (d : timestamp) (p : Q),
        calculate_holdings_fifo sort_values (Some [sell "X" d 50 p])
        = Ok []).
Proof.
  split; [|split].
  - destruct (calculate_holdings_fifo_eq sort_values rows sort_values_nil)
      as (lots & Hlots & Hnd & Hcalc).
    eexists. split; [exact Hcalc|].
    intros tk Hnever. apply holdings_for_empty_queue; [exact Hnd|].
    destruct (sort_values_sorts rows) as [Hperm _].
    unfold final_lots in Hlots.
    eapply (process_rows_never_bought tk); [| |exact Hlots].
    + intros row Hin. apply Hnever.
      eapply Permutation_in; [symmetry; exact Hperm | exact Hin].
    + reflexivity.
  - intros row queue Hty Hpos Hle.
    unfold step_queue, matched_of. rewrite Hty.
    change (String.eqb "SELL" "BUY") with false.
    change (String.eqb "SELL" "SELL") with true. cbv iota.
    destruct (sell_loop_oversell (quantity row) queue Hpos Hle) as [E1 E2].
    split; [exact E1|]. rewrite E2. unfold lots_quantity. lra.
  - intros d p.
    assert (Hs : sort_values [sell "X" d 50 p] = [sell "X" d 50 p]).
    { apply sort_values_increasing. repeat constructor. }
    unfold calculate_holdings_fifo, final_lots. rewrite Hs. reflexivity.
Qed.

End HoldingsFifo.

(** ** Rows of equal date *)

Lemma take_rows_perm (indexer : list nat) (rows : list Transaction) :
  Permutation (seq 0 (List.length rows)) indexer ->
  take_rows (seq 0 (List.length rows)) rows = rows ->
  Permutation rows (take_rows indexer rows).
Proof.
  intros Hperm Hid. rewrite <- Hid at 1. unfold take_rows.
  now apply Permutation_flat_map.
Qed.

(** C9, at a ledger on which the code departs from it.  The forty rows of
    [same_day_ledger] share one date, so a stable sort returns them as they
    are, and the sale is matched against the five shares bought first, at
    100 to 104: thirty-four shares at an average cost of 121.5 are left.
    The rows in the order of [quicksort_indexer] are a sorting by date of
    the same ledger, and not the ledger; replayed in that order, the sale
    is matched against the shares bought at 100 and at 122 to 125, and the
    average cost left is 4047/34.  Sorting that frame once more, as happens
    when the frame was stored by [process_uploaded_csv], which sorts it in
    the same way, gives neither of the two orders: the sale is then
    matched against the shares bought at 100 and at 102 to 105, and the
    average cost left is 4127/34. *)
Theorem same_day_rows_replayed_out_of_order :
  let sorted_once := take_rows quicksort_indexer same_day_ledger in
  let sorted_twice := take_rows quicksort_indexer sorted_once in
  Permutation same_day_ledger sorted_once
  /\ Sorted date_le sorted_once
  /\ sorted_once <> same_day_ledger
  /\ sorted_twice <> sorted_once
  /\ sorted_twice <> same_day_ledger
  /\ stable_sort_values same_day_ledger = same_day_ledger
  /\ calculate_holdings_fifo stable_sort_values (Some same_day_ledger)
     = Ok [mkHolding "X" 34 (4131 # 34)]
  /\ calculate_holdings_fifo (fun _ => sorted_once) (Some same_day_ledger)
     = Ok [mkHolding "X" 34 (4047 # 34)]
  /\ calculate_holdings_fifo (fun _ => sorted_twice) (Some sorted_once)
     = Ok [mkHolding "X" 34 (4127 # 34)].
Proof.
  intros sorted_once sorted_twice. split; [|split; [|split; [|split]]].
  - apply take_rows_perm; [|reflexivity].
    apply NoDup_Permutation_bis.
    + apply seq_NoDup.
    + apply Nat.leb_le. reflexivity.
    + intros i Hi. apply in_seq in Hi. unfold quicksort_indexer.
      do 40 (destruct i as [|i];
             [repeat first [left; reflexivity | right]|]).
      simpl in Hi. lia.
  - unfold sorted_once. vm_compute take_rows.
    repeat (constructor; try (unfold date_le; simpl; lia)).
  - intro E. vm_compute in E. discriminate E.
  - intro E. vm_compute in E. discriminate E.
  - split; [intro E; vm_compute in E; discriminate E|].
    repeat split; reflexivity.
Qed.

(** ** calculate_portfolio_value *)

Lemma value_row_no_price (h : Holding) :
  value_row [] h
  = mkValuedHolding (h_ticker h) (h_quantity h) (h_avg_cost_basis h)
      None None None None.
Proof. reflexivity. Qed.

(** C8. With an empty price map the call returns one row per holding and
    none of them carries a value: price, value and unrealized profit are all
    missing, and the values of the frame sum to zero. *)
Theorem no_prices_no_values (holdings : list Holding) :
  let valued := calculate_portfolio_value holdings [] in
  map v_ticker valued = map h_ticker holdings
  /\ Forall (fun v => v_current_price v = None
                      /\ v_current_value v = None
                      /\ v_unrealized_pl v = None
                      /\ v_unrealized_pl_percent v = None) valued
  /\ series_sum (map v_current_value valued) = 0.
Proof.
  assert (E : calculate_portfolio_value holdings [] = map (value_row []) holdings)
    by (destruct holdings; reflexivity).
  simpl. rewrite E. clear E. split; [|split].
  - rewrite map_map. reflexivity.
  - rewrite Forall_map, Forall_forall. intros h _.
    rewrite value_row_no_price. simpl. auto.
  - induction holdings as [|h l IH]; simpl; [reflexivity | exact IH].
Qed.

(** ** Dates and days *)

Lemma fold_left_min_spec (l : list Z) (x : Z) :
  (fold_left Z.min l x = x \/ In (fold_left Z.min l x) l)
  /\ (fold_left Z.min l x <= x)%Z
  /\ Forall (fun y => (fold_left Z.min l x <= y)%Z) l.
Proof.
  revert x. induction l as [|y l IH]; intro x; simpl.
  - split; [now left|]. split; [lia | constructor].
  - destruct (IH (Z.min x y)) as (Hin & Hle & Hall).
    split; [|split].
    + destruct Hin as [E | Hin]; [|now right; right].
      rewrite E. destruct (Z.min_spec x y) as [[_ ->] | [_ ->]]; auto.
    + lia.
    + constructor; [lia | exact Hall].
Qed.

(** On Timestamps no comparison raises, and [min] is the least value. *)
Lemma py_min_loop_timestamp (l : list timestamp) (x : timestamp) :
  py_min_loop x l = Ok (fold_left Z.min l x).
Proof.
  revert x. induction l as [|y l IH]; intro x; [reflexivity|].
  cbn [py_min_loop py_lt timestamp_object bind fold_left]. rewrite IH.
  do 2 f_equal. destruct (Z.ltb_spec y x); lia.
Qed.

Lemma py_min_spec (l : list timestamp) :
  l <> [] ->
  exists m, py_min l = Ok m /\ In m l /\ Forall (fun y => (m <= y)%Z) l.
Proof.
  destruct l as [|x l]; [congruence|]. intros _.
  exists (fold_left Z.min l x). split; [apply py_min_loop_timestamp|].
  destruct (fold_left_min_spec l x) as (Hin & Hle & Hall).
  split; [|constructor; assumption].
  destruct Hin as [E | Hin]; [left; now rewrite E | now right].
Qed.

(** On Timestamps no subtraction raises. *)
Lemma xirr_days_timestamp (dates : list timestamp) (m : timestamp) :
  xirr_days dates m = Ok (map (fun d => timedelta_days d m) dates).
Proof.
  induction dates as [|d l IH]; [reflexivity|].
  cbn [xirr_days py_sub_days timestamp_object bind map]. rewrite IH.
  reflexivity.
Qed.

Lemma timedelta_days_same (d : timestamp) : timedelta_days d d = 0%Z.
Proof. unfold timedelta_days. now rewrite Z.sub_diag. Qed.

Lemma timedelta_days_nonneg (a b : timestamp) :
  (b <= a)%Z -> (0 <= timedelta_days a b)%Z.
Proof.
  intro H. unfold timedelta_days, microseconds_per_day.
  apply Z.div_pos; lia.
Qed.

Lemma xirr_lengths {D : Type} `{DateObject D} (now : timestamp)
  (rows : list (TransactionRow D)) (cv : Q) :
  List.length (xirr_dates now rows cv) = List.length (xirr_cash_flows rows cv).
Proof.
  unfold xirr_dates, xirr_cash_flows.
  rewrite !length_app, !length_map. now destruct (Qgt_bool cv 0).
Qed.

Lemma skipn_nth_error {A : Type} (l : list A) (i : nat) :
  (i < List.length l)%nat ->
  exists a, nth_error l i = Some a /\ skipn i l = a :: skipn (S i) l.
Proof.
  revert i. induction l as [|x l IH]; intros i Hi; simpl in Hi; [lia|].
  destruct i as [|i].
  - exists x. split; reflexivity.
  - destruct (IH i ltac:(lia)) as (a & Ha & Hs).
    exists a. split; [exact Ha | exact Hs].
Qed.

Lemma series_sum_Some (l : list Q) : series_sum (map Some l) = Qsum l.
Proof.
  induction l as [|x l IH]; simpl; [reflexivity | now rewrite IH].
Qed.

Lemma xirr_percent_not_finite (r : pyfloat) :
  r = NaN \/ r = Infinite -> xirr_percent r = None.
Proof. intros [-> | ->]; reflexivity. Qed.

(** ** calculate_xirr, for any class of dates, clock, power function and
    root finders *)

Section XirrFacts.

Context {D : Type} `{DateObject D}.
Variable now : timestamp.
Variable pow : Q -> Q -> res Q.
Variable newton : (Q -> res (option Q)) -> Q -> res pyfloat.
Variable brentq : (Q -> res (option Q)) -> Q -> Q -> res pyfloat.

Lemma xirr_equation_loop_npv (days : list Z) (rate : Q) (cfs : list Q) :
  forall (i : nat) (acc : option Q),
    (i + List.length cfs <= List.length days)%nat ->
    xirr_equation_loop pow days rate i cfs acc
    = npv_from pow rate (combine cfs (skipn i days)) acc.
Proof.
  induction cfs as [|cf rest IH]; intros i acc Hlen; simpl in *.
  - reflexivity.
  - destruct (skipn_nth_error days i ltac:(lia)) as (d & Hd & Hs).
    rewrite Hs. simpl. unfold list_getitem, discounted. rewrite Hd. simpl.
    destruct (pow (1 + rate) (inject_Z d / 365)) as [denom|e];
      simpl; [|reflexivity].
    apply IH. lia.
Qed.

Lemma xirr_equation_npv (cfs : list Q) (days : list Z) (rate : Q) :
  List.length days = List.length cfs ->
  xirr_equation pow cfs days rate = npv pow rate (combine cfs days).
Proof.
  intro Hlen. unfold xirr_equation, npv.
  rewrite xirr_equation_loop_npv; [reflexivity | simpl; lia].
Qed.

Lemma calculate_xirr_few (rows : list (TransactionRow D)) (cv : Q) :
  (List.length (xirr_cash_flows rows cv) < 2)%nat ->
  calculate_xirr now pow newton brentq (Some rows) cv = Ok None.
Proof.
  intro Hlen. unfold calculate_xirr.
  destruct (List.length rows =? 0)%nat; [reflexivity|].
  apply Nat.ltb_lt in Hlen. now rewrite Hlen.
Qed.

(** With two cash flows or more the call is [min(dates)], the list of
    days and the [try] block, in this order. *)
Lemma calculate_xirr_many (rows : list (TransactionRow D)) (cv : Q) :
  (2 <= List.length (xirr_cash_flows rows cv))%nat ->
  calculate_xirr now pow newton brentq (Some rows) cv
  = (min_date <- py_min (xirr_dates now rows cv) ;;
     days <- xirr_days (xirr_dates now rows cv) min_date ;;
     Ok (solve_xirr pow newton brentq (xirr_cash_flows rows cv) days)).
Proof.
  intro Hlen. unfold calculate_xirr.
  destruct (List.length rows =? 0)%nat eqn:E0.
  - apply Nat.eqb_eq in E0. exfalso.
    unfold xirr_cash_flows in Hlen.
    rewrite length_app, length_map, E0 in Hlen.
    destruct (Qgt_bool cv 0); simpl in Hlen; lia.
  - assert (E2 : (List.length (xirr_cash_flows rows cv) <? 2)%nat = false)
      by (apply Nat.ltb_ge; exact Hlen).
    now rewrite E2.
Qed.

End XirrFacts.

(** ** calculate_xirr and calculate_portfolio_metrics on a frame of
    Timestamps *)

Section TimestampFrames.

Variable now : timestamp.
Variable pow : Q -> Q -> res Q.
Variable newton : (Q -> res (option Q)) -> Q -> res pyfloat.
Variable brentq : (Q -> res (option Q)) -> Q -> Q -> res pyfloat.

Lemma calculate_xirr_solve (rows : list Transaction) (cv : Q) :
  (2 <= List.length (xirr_cash_flows rows cv))%nat ->
  exists min_date,
    py_min (xirr_dates now rows cv) = Ok min_date
    /\ In min_date (xirr_dates now rows cv)
    /\ Forall (fun d => (min_date <= d)%Z) (xirr_dates now rows cv)
    /\ calculate_xirr now pow newton brentq (Some rows) cv
       = Ok (solve_xirr pow newton brentq (xirr_cash_flows rows cv)
               (map (fun d => timedelta_days d min_date)
                  (xirr_dates now rows cv))).
Proof.
  intro Hlen.
  destruct (py_min_spec (xirr_dates now rows cv)) as (m & Hm & Hin & Hall).
  { intro E. pose proof (xirr_lengths now rows cv) as HL.
    rewrite E in HL. simpl in HL. lia. }
  exists m. repeat (split; [assumption|]).
  rewrite calculate_xirr_many by exact Hlen.
  rewrite Hm. cbn [bind]. rewrite xirr_days_timestamp. reflexivity.
Qed.

Lemma calculate_xirr_ok (df : option (list Transaction)) (cv : Q) :
  exists r, calculate_xirr now pow newton brentq df cv = Ok r.
Proof.
  destruct df as [rows|]; [|now exists None].
  destruct (Nat.lt_ge_cases (List.length (xirr_cash_flows rows cv)) 2)
    as [Hlt | Hge].
  - exists None. now apply calculate_xirr_few.
  - destruct (calculate_xirr_solve rows cv Hge) as (m & _ & _ & _ & H).
    eexists. exact H.
Qed.

End TimestampFrames.

Section ReturnAnalytics.

Variable now : timestamp.
Variable pow : Q -> Q -> res Q.
Variable newton : (Q -> res (option Q)) -> Q -> res pyfloat.
Variable brentq : (Q -> res (option Q)) -> Q -> Q -> res pyfloat.

(** The two functions on a frame whose date column holds Timestamps. *)
Local Abbreviation xirr_of :=
  (calculate_xirr (D := timestamp) now pow newton brentq).

(** C2. Every transaction gives one cash flow dated on its own date,
    minus quantity times price for a BUY and plus quantity times price
    otherwise (a SELL); exactly when the current value is above zero one
    more flow, the current value dated now, comes last.  With two flows or
    more, the days of a flow are the whole days from the earliest date of
    all flows to its date, hence zero for the earliest and never negative;
    the equation solved adds each flow divided by
    [(1 + rate) ** (days / 365)]; and a finite rate found by either solver
    is returned times 100. *)
Theorem xirr_flows_days_and_percent (rows : list Transaction) (cv : Q) :
  let cfs := xirr_cash_flows rows cv in
  let dates := xirr_dates now rows cv in
  (forall i row,
     nth_error rows i = Some row ->
     nth_error cfs i
     = Some (if is_buy row then - (quantity row * price row)
             else quantity row * price row)
     /\ nth_error dates i = Some (date row))
  /\ (0 < cv ->
      cfs = map cash_flow_of rows ++ [cv]
      /\ dates = map date rows ++ [now])
  /\ (~ 0 < cv -> cfs = map cash_flow_of rows /\ dates = map date rows)
  /\ ((2 <= List.length cfs)%nat ->
      exists min_date days,
        py_min dates = Ok min_date
        /\ In min_date dates
        /\ Forall (fun d => (min_date <= d)%Z) dates
        /\ xirr_days dates min_date = Ok days
        /\ (forall i d,
              nth_error dates i = Some d ->
              nth_error days i
              = Some ((d - min_date) / microseconds_per_day)%Z
              /\ (0 <= (d - min_date) / microseconds_per_day)%Z)
        /\ (forall i,
              nth_error dates i = Some min_date ->
              nth_error days i = Some 0%Z)
        /\ (forall rate,
              xirr_equation pow cfs days rate
              = npv pow rate (combine cfs days))
        /\ (forall r,
              newton (xirr_equation pow cfs days) (1 # 10)
              = Ok (Finite r) ->
              xirr_of (Some rows) cv = Ok (Some (Finite (r * 100))))
        /\ (forall e r,
              newton (xirr_equation pow cfs days) (1 # 10) = Raise e ->
              brentq (xirr_equation pow cfs days) (- (999 # 1000)) 10
              = Ok (Finite r) ->
              xirr_of (Some rows) cv = Ok (Some (Finite (r * 100))))).
Proof.
  intros cfs dates. subst cfs dates. split; [|split; [|split]].
  - intros i row Hrow. unfold xirr_cash_flows, xirr_dates. split.
    + rewrite nth_error_app1
        by (rewrite length_map; apply nth_error_Some; congruence).
      rewrite nth_error_map, Hrow. reflexivity.
    + rewrite nth_error_app1
        by (rewrite length_map; apply nth_error_Some; congruence).
      rewrite nth_error_map, Hrow. reflexivity.
  - intro Hcv. apply Qgt_bool_true in Hcv.
    unfold xirr_cash_flows, xirr_dates. rewrite Hcv. split; reflexivity.
  - intro Hcv. unfold xirr_cash_flows, xirr_dates.
    destruct (Qgt_bool cv 0) eqn:E; [apply Qgt_bool_true in E; tauto|].
    rewrite !app_nil_r. split; reflexivity.
  - intro Hlen.
    destruct (calculate_xirr_solve now pow newton brentq rows cv Hlen)
      as (m & Hm & Hin & Hall & Hcalc).
    exists m, (map (fun d => timedelta_days d m) (xirr_dates now rows cv)).
    repeat (split; [assumption|]).
    split; [apply xirr_days_timestamp|].
    split; [|split; [|split; [|split]]].
    + intros i d Hd. rewrite nth_error_map, Hd.
      split; [reflexivity|].
      apply (timedelta_days_nonneg d m).
      rewrite Forall_forall in Hall. apply Hall.
      eapply nth_error_In. exact Hd.
    + intros i Hd. rewrite nth_error_map, Hd. simpl.
      now rewrite timedelta_days_same.
    + intro rate. apply xirr_equation_npv.
      rewrite length_map. apply xirr_lengths.
    + intros r Hn. rewrite Hcalc.
      unfold solve_xirr. rewrite Hn. reflexivity.
    + intros e r Hn Hb. rewrite Hcalc.
      unfold solve_xirr. rewrite Hn, Hb. reflexivity.
Qed.

(** C5. On a frame with dates of any class.  Without a frame, and with
    fewer than two cash flows, the call returns None.  Once [min(dates)]
    and the list of days are computed the [try] block is entered, and from
    there the call returns and does not raise: the rate of the first
    solver, started at 0.10, times 100; when that solver raises, the
    answer of the second solver on the interval from -0.999 to 10; None
    when both raise, and None when the rate found is NaN or infinite.  An
    exception of the call is one raised before the [try] block, by
    [min(dates)] or by the subtraction of dates. *)
Theorem xirr_undefined_is_none {D : Type} `{DateObject D}
  (rows : list (TransactionRow D)) (cv : Q) :
  let cfs := xirr_cash_flows rows cv in
  let dates := xirr_dates now rows cv in
  calculate_xirr (D := D) now pow newton brentq None cv = Ok None
  /\ ((List.length cfs < 2)%nat ->
      calculate_xirr now pow newton brentq (Some rows) cv = Ok None)
  /\ (forall min_date days,
        (2 <= List.length cfs)%nat ->
        py_min dates = Ok min_date ->
        xirr_days dates min_date = Ok days ->
        let f := xirr_equation pow cfs days in
        (forall r,
           newton f (1 # 10) = Ok r ->
           calculate_xirr now pow newton brentq (Some rows) cv
           = Ok (xirr_percent r))
        /\ (forall e,
              newton f (1 # 10) = Raise e ->
              calculate_xirr now pow newton brentq (Some rows) cv
              = Ok match brentq f (- (999 # 1000)) 10 with
                   | Ok result => xirr_percent result
                   | Raise _ => None
                   end)
        /\ (forall e e',
              newton f (1 # 10) = Raise e ->
              brentq f (- (999 # 1000)) 10 = Raise e' ->
              calculate_xirr now pow newton brentq (Some rows) cv = Ok None)
        /\ (forall r,
              r = NaN \/ r = Infinite ->
              newton f (1 # 10) = Ok r ->
              calculate_xirr now pow newton brentq (Some rows) cv = Ok None)
        /\ (forall e r,
              r = NaN \/ r = Infinite ->
              newton f (1 # 10) = Raise e ->
              brentq f (- (999 # 1000)) 10 = Ok r ->
              calculate_xirr now pow newton brentq (Some rows) cv = Ok None))
  /\ (forall e,
        calculate_xirr now pow newton brentq (Some rows) cv = Raise e ->
        (2 <= List.length cfs)%nat
        /\ (py_min dates = Raise e
            \/ exists min_date,
                 py_min dates = Ok min_date
                 /\ xirr_days dates min_date = Raise e)).
Proof.
  intros cfs dates. subst cfs dates. split; [reflexivity|].
  split; [apply calculate_xirr_few|]. split.
  - intros m days Hlen Hm Hdays f. subst f.
    rewrite (calculate_xirr_many now pow newton brentq rows cv Hlen).
    rewrite Hm. cbn [bind]. rewrite Hdays. cbn [bind]. unfold solve_xirr.
    split; [|split; [|split; [|split]]].
    + intros r Hn. now rewrite Hn.
    + intros e Hn. now rewrite Hn.
    + intros e e' Hn Hb. now rewrite Hn, Hb.
    + intros r Hr Hn. rewrite Hn. now rewrite xirr_percent_not_finite.
    + intros e r Hr Hn Hb. rewrite Hn, Hb.
      now rewrite xirr_percent_not_finite.
  - intros e He.
    destruct (Nat.lt_ge_cases (List.length (xirr_cash_flows rows cv)) 2)
      as [Hlt | Hge].
    + rewrite (calculate_xirr_few now pow newton brentq rows cv Hlt) in He.
      discriminate He.
    + split; [exact Hge|].
      rewrite (calculate_xirr_many now pow newton brentq rows cv Hge) in He.
      destruct (py_min (xirr_dates now rows cv)) as [m|e0];
        cbn [bind] in He; [|left; now inversion He].
      right. exists m. split; [reflexivity|].
      destruct (xirr_days (xirr_dates now rows cv) m) as [days|e1];
        cbn [bind] in He; [discriminate He | now inversion He].
Qed.

Local Abbreviation metrics_of :=
  (calculate_portfolio_metrics (D := timestamp) now pow newton brentq).

(** C7. The metrics of a ledger and a valued holdings frame: total
    investment is the sum of quantity times price over the BUY rows, total
    sells the same sum over the SELL rows, current value the sum of the
    current values of the holdings (a missing value is skipped), total
    return is total sells plus current value less total investment, and
    the percentage is total return over total investment times 100 when
    total investment is above zero, and 0 otherwise. *)
Theorem metrics_formulas (rows : list Transaction)
  (holdings : list ValuedHolding) :
  exists m,
    metrics_of (Some rows) (Some holdings) = Ok m
    /\ total_investment m
       = Qsum (map (fun row => quantity row * price row)
                 (filter (is_type "BUY") rows))
    /\ total_sells m
       = Qsum (map (fun row => quantity row * price row)
                 (filter (is_type "SELL") rows))
    /\ current_value m = series_sum (map v_current_value holdings)
    /\ (forall values,
          map v_current_value holdings = map Some values ->
          current_value m = Qsum values)
    /\ total_return m = total_sells m + current_value m - total_investment m
    /\ (0 < total_investment m ->
        total_return_percent m
        = total_return m / total_investment m * 100)
    /\ (~ 0 < total_investment m -> total_return_percent m = 0)
    /\ xirr_of (Some rows) (current_value m) = Ok (xirr m).
Proof.
  unfold calculate_portfolio_metrics.
  set (ti := match rows with [] => 0 | _ => notional_sum "BUY" rows end).
  set (ts := match rows with [] => 0 | _ => notional_sum "SELL" rows end).
  set (cur := match holdings with
              | [] => 0
              | _ => series_sum (map v_current_value holdings)
              end).
  assert (Hti : ti = notional_sum "BUY" rows) by (now destruct rows).
  assert (Hts : ts = notional_sum "SELL" rows) by (now destruct rows).
  assert (Hcur : cur = series_sum (map v_current_value holdings))
    by (now destruct holdings).
  destruct (calculate_xirr_ok now pow newton brentq (Some rows) cur)
    as [x Hx].
  rewrite Hx. simpl. eexists. split; [reflexivity|]. simpl.
  split; [rewrite Hti; unfold notional_sum;
          now rewrite <- series_sum_Some, map_map|].
  split; [rewrite Hts; unfold notional_sum;
          now rewrite <- series_sum_Some, map_map|].
  split; [exact Hcur|].
  split; [intros values Hv; now rewrite Hcur, Hv, series_sum_Some|].
  split; [reflexivity|].
  split; [intro Hpos; apply Qgt_bool_true in Hpos; now rewrite Hpos|].
  split; [|exact Hx].
  intro Hnot. destruct (Qgt_bool ti 0) eqn:E; [|reflexivity].
  apply Qgt_bool_true in E. tauto.
Qed.

(** C10. When the transactions or the holdings are None the call returns
    the initial metrics, all zero with no XIRR, and does not raise. *)
Theorem metrics_of_missing_input
  (transactions_df : option (list Transaction))
  (holdings_df : option (list ValuedHolding)) :
  metrics_of None holdings_df = Ok initial_metrics
  /\ metrics_of transactions_df None = Ok initial_metrics
  /\ total_investment initial_metrics = 0
  /\ total_sells initial_metrics = 0
  /\ current_value initial_metrics = 0
  /\ total_return initial_metrics = 0
  /\ total_return_percent initial_metrics = 0
  /\ xirr initial_metrics = None.
Proof.
  split; [reflexivity|].
  split; [now destruct transactions_df|].
  repeat split.
Qed.

End ReturnAnalytics.

(** ** The statements at concrete inputs *)

Lemma sell_matches_lots_in_fifo_order_witness :
  final_lots stable_sort_values
    [buy "X" 0%Z 10 100; buy "X" day 5 200; sell "X" year 12 250]
  = Ok [("X"%string, [(3, 200)])].
Proof.
  destruct (sell_matches_lots_in_fifo_order stable_sort_values
              stable_sort_values_sorts) as (_ & _ & _ & _ & H).
  apply (H 0%Z day year 250).
  unfold day, year, microseconds_per_day. lia.
Defined.


Lemma holdings_emitted_per_ticker_witness :
  let ledger :=
    [buy "X" 0%Z 10 100; buy "Y" 0%Z 2 50; sell "X" day 4 120;
     sell "Y" day 5 60] in
  exists lots holdings,
    final_lots stable_sort_values ledger = Ok lots
    /\ calculate_holdings_fifo stable_sort_values (Some ledger) = Ok holdings
    /\ (queue_of lots "Y" = [] -> holdings_for "Y" holdings = []).
Proof.
  intro ledger.
  destruct (holdings_emitted_per_ticker stable_sort_values
              stable_sort_values_sorts ledger) as (lots & hs & H1 & H2 & H3 & _).
  - repeat constructor; simpl; intros; lra.
  - exists lots, hs. repeat split; try assumption. apply (H3 "Y"%string).
Defined.

Lemma oversell_is_discarded_witness :
  calculate_holdings_fifo stable_sort_values (Some [sell "X" 0%Z 50 10])
  = Ok [].
Proof.
  apply (oversell_is_discarded stable_sort_values stable_sort_values_sorts []).
Defined.

Lemma xirr_flows_days_and_percent_witness :
  calculate_xirr year sample_pow seed_newton failing_brentq
    (Some [buy "X" 0%Z 10 100]) 1100
  = Ok (Some (Finite ((1 # 10) * 100))).
Proof.
  destruct (xirr_flows_days_and_percent year sample_pow seed_newton
              failing_brentq [buy "X" 0%Z 10 100] 1100)
    as (_ & _ & _ & H).
  destruct H as (m & days & _ & _ & _ & _ & _ & _ & _ & H & _).
  - simpl. lia.
  - apply H. reflexivity.
Defined.

Lemma xirr_undefined_is_none_witness :
  calculate_xirr year sample_pow failing_newton failing_brentq
    (Some [mkTransaction "X" (Datetime 0%Z) "BUY" 10 100]) 1100
  = Ok None.
Proof.
  destruct (xirr_undefined_is_none year sample_pow failing_newton
              failing_brentq [mkTransaction "X" (Datetime 0%Z) "BUY" 10 100]
              1100)
    as (_ & _ & H & _).
  destruct (H (Datetime 0%Z) [0%Z; 365%Z]) as (_ & _ & H' & _).
  - simpl. lia.
  - reflexivity.
  - reflexivity.
  - apply (H' RuntimeError ValueError); reflexivity.
Defined.

Lemma metrics_formulas_witness :
  exists m,
    calculate_portfolio_metrics year sample_pow seed_newton failing_brentq
      (Some [buy "X" 0%Z 10 100])
      (Some [mkValuedHolding "X" 10 100 (Some 110) (Some 1100) (Some 100)
               (Some 10)])
    = Ok m
    /\ total_return_percent m = total_return m / total_investment m * 100.
Proof.
  destruct (metrics_formulas year sample_pow seed_newton failing_brentq
              [buy "X" 0%Z 10 100]
              [mkValuedHolding "X" 10 100 (Some 110) (Some 1100) (Some 100)
                 (Some 10)])
    as (m & Hm & Hti & _ & _ & _ & _ & Hpct & _).
  exists m. split; [exact Hm|]. apply Hpct. rewrite Hti. reflexivity.
Defined.

(** * Further properties of the program *)

(** ** Lists *)

Lemma tl_skipn {A : Type} (n : nat) (l : list A) :
  tl (skipn n l) = skipn (S n) l.
Proof.
  revert l. induction n as [|n IH]; intro l.
  - now destruct l.
  - destruct l as [|x l]; [reflexivity|]. simpl skipn at 1. rewrite IH.
    reflexivity.
Qed.

Lemma skipn_head_nth_error {A : Type} (n : nat) (l : list A) (x : A)
  (tl' : list A) :
  skipn n l = x :: tl' -> nth_error l n = Some x.
Proof.
  revert l. induction n as [|n IH]; intros l H.
  - simpl in H. subst l. reflexivity.
  - destruct l as [|y l]; [discriminate|]. simpl in *. now apply IH.
Qed.

Lemma nth_error_skipn_cons {A : Type} (n : nat) (l : list A) (x : A) :
  nth_error l n = Some x -> skipn n l = x :: skipn (S n) l.
Proof.
  intro H. destruct (skipn_nth_error l n) as (a & Ha & Hs).
  - apply nth_error_Some. congruence.
  - congruence.
Qed.

Lemma filter_idem {A : Type} (f : A -> bool) (l : list A) :
  filter f (filter f l) = filter f l.
Proof.
  induction l as [|x l IH]; [reflexivity|].
  simpl. destruct (f x) eqn:E; simpl; [rewrite E|]; now rewrite IH.
Qed.

(** ** Each ticker is replayed on its own *)

Lemma process_rows_queue (tk : string) (rows : list Transaction) :
  forall lots lots',
    process_rows lots rows = Ok lots' ->
    queue_of lots' tk
    = fold_left (fun queue row => step_queue row queue)
        (filter (has_ticker tk) rows) (queue_of lots tk).
Proof.
  induction rows as [|row rest IH]; intros lots lots' H.
  - simpl in H. inversion H. reflexivity.
  - rewrite process_rows_cons in H. apply IH in H. rewrite H.
    rewrite queue_of_setitem. simpl. unfold has_ticker at 2.
    destruct (String.eqb_spec (ticker row) tk) as [E|E].
    + simpl. now rewrite E.
    + reflexivity.
Qed.

Lemma dict_get_of_In {V : Type} (d : dict V) (k : string) (v : V) :
  NoDup (map fst d) -> In (k, v) d -> dict_get d k = Some v.
Proof.
  induction d as [|[k' v'] tl IH]; simpl; [tauto|].
  intros Hnd [H | H].
  - inversion H. subst. now rewrite String.eqb_refl.
  - inversion Hnd as [|? ? Hnotin Hnd']; subst.
    destruct (String.eqb_spec k' k) as [E|E]; [|auto].
    subst k'. exfalso. apply Hnotin.
    change k with (fst (k, v)). now apply in_map.
Qed.

Lemma holdings_for_queue_of (tk : string) (lots : dict (list lot)) :
  NoDup (map fst lots) ->
  holdings_for tk (map holding_of (filter has_quantity lots))
  = if has_quantity (tk, queue_of lots tk)
    then [holding_of (tk, queue_of lots tk)] else [].
Proof.
  intro Hnd. unfold queue_of.
  destruct (dict_get lots tk) as [queue|] eqn:E.
  - now apply holdings_for_present.
  - rewrite holdings_for_absent; [reflexivity | now apply dict_get_None].
Qed.

Lemma process_rows_single_ticker (tk : string) (rows : list Transaction) :
  Forall (fun row => has_ticker tk row = true) rows ->
  forall lots lots',
    lots = [] \/ (exists queue, lots = [(tk, queue)]) ->
    process_rows lots rows = Ok lots' ->
    lots' = [] \/ exists queue, lots' = [(tk, queue)].
Proof.
  induction 1 as [|row rest Hrow _ IH]; intros lots lots' Hlots H.
  - simpl in H. inversion H. now subst.
  - rewrite process_rows_cons in H. eapply IH; [|exact H].
    right. unfold has_ticker in Hrow. apply String.eqb_eq in Hrow.
    rewrite Hrow. destruct Hlots as [-> | [queue ->]]; simpl.
    + eexists. reflexivity.
    + rewrite String.eqb_refl. eexists. reflexivity.
Qed.

(** X1. The holding of a ticker depends on the rows of that ticker only:
    replaying the whole frame and replaying the rows of the ticker alone
    leave the same queue for it, and the frame of holdings built from the
    whole replay has, for this ticker, exactly the rows built from the
    replay of the ticker alone. *)
Theorem ticker_replayed_alone (rows : list Transaction) (tk : string) :
  exists lots lots_tk holdings holdings_tk,
    process_rows [] rows = Ok lots
    /\ process_rows [] (filter (has_ticker tk) rows) = Ok lots_tk
    /\ queue_of lots tk = queue_of lots_tk tk
    /\ create_holdings lots = Ok holdings
    /\ create_holdings lots_tk = Ok holdings_tk
    /\ holdings_for tk holdings = holdings_tk.
Proof.
  destruct (process_rows_ok rows []) as [lots Hlots].
  destruct (process_rows_ok (filter (has_ticker tk) rows) [])
    as [lots_tk Hlots_tk].
  exists lots, lots_tk. do 2 eexists.
  split; [exact Hlots|]. split; [exact Hlots_tk|].
  assert (Hq : queue_of lots tk = queue_of lots_tk tk).
  { rewrite (process_rows_queue tk _ _ _ Hlots).
    rewrite (process_rows_queue tk _ _ _ Hlots_tk).
    now rewrite filter_idem. }
  split; [exact Hq|].
  split; [apply create_holdings_eq|]. split; [apply create_holdings_eq|].
  rewrite holdings_for_queue_of
    by (eapply process_rows_NoDup; [|exact Hlots]; constructor).
  rewrite Hq.
  assert (Hshape : lots_tk = [] \/ exists queue, lots_tk = [(tk, queue)]).
  { eapply process_rows_single_ticker; [| |exact Hlots_tk].
    - rewrite Forall_forall. intros row Hin.
      now apply filter_In in Hin.
    - now left. }
  destruct Hshape as [-> | [queue ->]]; [reflexivity|].
  unfold queue_of. simpl. rewrite String.eqb_refl.
  now destruct (has_quantity (tk, queue)).
Qed.

(** ** What is left of the lots bought *)

Lemma fifo_rest_sell (queue : list lot) :
  forall (r : Q) (bought : list lot),
    fifo_rest queue bought -> fifo_rest (snd (sell_loop r queue)) bought.
Proof.
  induction queue as [|[q p] rest IH]; intros r bought H; [exact H|].
  simpl. destruct (Qgt_bool r 0) eqn:Hr; [|exact H].
  apply Qgt_bool_true in Hr.
  destruct H as (k & Hk & Htl & q0 & Hnth & Hq). cbn [tl] in Htl.
  destruct (Qle_bool q r) eqn:Hle.
  - apply IH. exists (S k).
    assert (k < List.length bought)%nat
      by (apply nth_error_Some; congruence).
    split; [lia|]. split; [rewrite Htl; apply tl_skipn|].
    destruct rest as [|[q' p'] rest'].
    + pose proof (f_equal (@List.length _) Htl) as HL.
      rewrite length_skipn in HL. cbn [List.length] in HL. lia.
    + exists q'. split; [|lra].
      eapply skipn_head_nth_error. symmetry. exact Htl.
  - cbn [snd]. exists k. split; [exact Hk|]. split; [exact Htl|].
    exists q0. split; [exact Hnth|]. lra.
Qed.

Lemma fifo_rest_buy (queue bought : list lot) (b : lot) :
  fifo_rest queue bought -> fifo_rest (queue ++ [b]) (bought ++ [b]).
Proof.
  intros (k & Hk & Htl & Hhd). exists k. rewrite length_app.
  cbn [List.length]. split; [lia|].
  destruct queue as [|[q p] rest]; cbn [app tl] in *.
  - subst k. split.
    + rewrite skipn_all2; [reflexivity | rewrite length_app; simpl; lia].
    + destruct b as [qb pb]. exists qb. split; [|lra].
      rewrite nth_error_app2 by lia. now rewrite Nat.sub_diag.
  - destruct Hhd as (q0 & Hnth & Hq).
    assert (k < List.length bought)%nat
      by (apply nth_error_Some; congruence).
    split.
    + rewrite Htl, skipn_app.
      replace (S k - List.length bought)%nat with 0%nat by lia.
      reflexivity.
    + exists q0. split; [|exact Hq]. now rewrite nth_error_app1.
Qed.

Lemma fifo_rest_step (row : Transaction) (queue bought : list lot) :
  fifo_rest queue bought ->
  fifo_rest (step_queue row queue)
    (bought ++ if is_buy row then [(quantity row, price row)] else []).
Proof.
  intro H. unfold step_queue, is_buy.
  destruct (String.eqb (transaction_type row) "BUY").
  - now apply fifo_rest_buy.
  - rewrite app_nil_r.
    destruct (String.eqb (transaction_type row) "SELL"); [|exact H].
    now apply fifo_rest_sell.
Qed.

Lemma fifo_rest_fold (rows : list Transaction) :
  forall queue bought,
    fifo_rest queue bought ->
    fifo_rest (fold_left (fun queue row => step_queue row queue) rows queue)
      (bought ++ map (fun row => (quantity row, price row))
                   (filter is_buy rows)).
Proof.
  induction rows as [|row rest IH]; intros queue bought H; simpl.
  - now rewrite app_nil_r.
  - apply (fifo_rest_step row) in H. apply IH in H.
    destruct (is_buy row); simpl in *.
    + now rewrite <- app_assoc in H.
    + now rewrite app_nil_r in H.
Qed.

Lemma process_rows_fifo_rest (rows : list Transaction) (tk : string)
  (lots : dict (list lot)) :
  process_rows [] rows = Ok lots ->
  fifo_rest (queue_of lots tk) (bought_lots tk rows).
Proof.
  intro H. rewrite (process_rows_queue tk _ _ _ H).
  apply (fifo_rest_fold (filter (has_ticker tk) rows) [] []).
  exists 0%nat. simpl. auto.
Qed.

Lemma fifo_rest_prices (queue bought : list lot) (k : nat) :
  tl queue = skipn (S k) bought ->
  match queue with
  | [] => k = List.length bought
  | (q, p) :: _ => exists q0, nth_error bought k = Some (q0, p) /\ q <= q0
  end ->
  map snd queue = skipn k (map snd bought).
Proof.
  intros Htl Hhd. destruct queue as [|[q p] rest]; cbn [tl map snd] in *.
  - subst k. rewrite skipn_all2; [reflexivity | now rewrite length_map].
  - destruct Hhd as (q0 & Hnth & _).
    rewrite Htl, <- !skipn_map.
    symmetry. apply (nth_error_skipn_cons k (map snd bought) p).
    now rewrite nth_error_map, Hnth.
Qed.

(** X2. After a replay the queue of a ticker is the tail end of the lots
    bought for it, in the order they were bought: from some position [k] on
    the lots bought are all there, with their prices, and all but the first
    with their full quantity; the first has the price it was bought at and
    at most the quantity bought.  Lots are never reordered or re-priced, and
    nothing bought before position [k] is left. *)
Theorem queue_is_tail_of_bought (rows : list Transaction) (tk : string) :
  exists lots k,
    process_rows [] rows = Ok lots
    /\ (k <= List.length (bought_lots tk rows))%nat
    /\ List.length (queue_of lots tk)
       = (List.length (bought_lots tk rows) - k)%nat
    /\ map snd (queue_of lots tk) = skipn k (map snd (bought_lots tk rows))
    /\ tl (queue_of lots tk) = skipn (S k) (bought_lots tk rows)
    /\ (forall q p,
          nth_error (queue_of lots tk) 0 = Some (q, p) ->
          exists q0,
            nth_error (bought_lots tk rows) k = Some (q0, p) /\ q <= q0).
Proof.
  destruct (process_rows_ok rows []) as [lots Hlots].
  destruct (process_rows_fifo_rest rows tk lots Hlots) as (k & Hk & Htl & Hhd).
  exists lots, k. split; [exact Hlots|]. split; [exact Hk|].
  pose proof (fifo_rest_prices _ _ k Htl Hhd) as Hp.
  split; [|split; [exact Hp|split; [exact Htl|]]].
  - apply (f_equal (@List.length _)) in Hp.
    rewrite length_skipn, !length_map in Hp. exact Hp.
  - intros q p Hq. destruct (queue_of lots tk) as [|[q' p'] rest];
      [discriminate|]. simpl in Hq. inversion Hq. subst. exact Hhd.
Qed.

(** ** A sell in two parts *)

Lemma lots_eq_refl (l : list lot) : lots_eq l l.
Proof.
  unfold lots_eq. induction l as [|a l IH]; constructor; auto.
  split; reflexivity.
Qed.

Lemma lots_eq_trans (l1 l2 l3 : list lot) :
  lots_eq l1 l2 -> lots_eq l2 l3 -> lots_eq l1 l3.
Proof.
  unfold lots_eq. intro H. revert l3.
  induction H as [|a b l1 l2 [Hq Hp] _ IH]; intros l3 H23.
  - inversion H23. constructor.
  - inversion H23 as [|? c ? l3' [Hq' Hp'] H23']; subst.
    constructor; [|now apply IH]. split; [lra | congruence].
Qed.

Lemma lots_eq_quantity (l1 l2 : list lot) :
  lots_eq l1 l2 -> lots_quantity l1 == lots_quantity l2.
Proof.
  unfold lots_eq, lots_quantity.
  induction 1 as [|a b l1 l2 [Hq _] _ IH]; simpl; lra.
Qed.

Lemma sell_loop_Qeq (queue : list lot) :
  forall r r', r == r' ->
    lots_eq (snd (sell_loop r queue)) (snd (sell_loop r' queue)).
Proof.
  induction queue as [|[q p] rest IH]; intros r r' E; simpl.
  - constructor.
  - destruct (Qgt_bool r 0) eqn:Hr, (Qgt_bool r' 0) eqn:Hr';
      try (apply Qgt_bool_true in Hr); try (apply Qgt_bool_true in Hr');
      try (apply Qgt_bool_false in Hr); try (apply Qgt_bool_false in Hr');
      try lra; [|apply lots_eq_refl].
    destruct (Qle_bool q r) eqn:Hq, (Qle_bool q r') eqn:Hq';
      try (apply Qle_bool_iff in Hq); try (apply Qle_bool_iff in Hq').
    + apply IH. lra.
    + exfalso. assert (Qle_bool q r' = true) by (apply Qle_bool_iff; lra).
      congruence.
    + exfalso. assert (Qle_bool q r = true) by (apply Qle_bool_iff; lra).
      congruence.
    + simpl. constructor; [|apply lots_eq_refl]. simpl. split; [lra|reflexivity].
Qed.

Lemma Qle_bool_false (x y : Q) : Qle_bool x y = false <-> y < x.
Proof.
  rewrite <- Qgt_bool_true. unfold Qgt_bool.
  now destruct (Qle_bool x y).
Qed.

Lemma sell_loop_twice (queue : list lot) :
  forall r1 r2, 0 <= r1 -> 0 <= r2 ->
    lots_eq (snd (sell_loop r2 (snd (sell_loop r1 queue))))
      (snd (sell_loop (r1 + r2) queue)).
Proof.
  induction queue as [|[q p] rest IH]; intros r1 r2 H1 H2.
  - simpl. constructor.
  - destruct (Qgt_bool r1 0) eqn:Hr1.
    + apply Qgt_bool_true in Hr1.
      assert (Hsum : Qgt_bool (r1 + r2) 0 = true)
        by (apply Qgt_bool_true; lra).
      assert (Hg : Qgt_bool r1 0 = true) by (apply Qgt_bool_true; lra).
      cbn [sell_loop]. rewrite Hsum, Hg.
      destruct (Qle_bool q r1) eqn:Hq.
      * apply Qle_bool_iff in Hq.
        assert (Hq' : Qle_bool q (r1 + r2) = true)
          by (apply Qle_bool_iff; lra).
        rewrite Hq'.
        eapply lots_eq_trans; [apply IH; lra|].
        apply sell_loop_Qeq. lra.
      * apply Qle_bool_false in Hq. cbn [snd sell_loop].
        destruct (Qgt_bool r2 0) eqn:Hr2.
        -- apply Qgt_bool_true in Hr2.
           destruct (Qle_bool (q - r1) r2) eqn:Hq2.
           ++ apply Qle_bool_iff in Hq2.
              assert (Hq' : Qle_bool q (r1 + r2) = true)
                by (apply Qle_bool_iff; lra).
              rewrite Hq'. apply sell_loop_Qeq. lra.
           ++ apply Qle_bool_false in Hq2.
              assert (Hq' : Qle_bool q (r1 + r2) = false)
                by (apply Qle_bool_false; lra).
              rewrite Hq'. cbn [snd].
              constructor; [|apply lots_eq_refl].
              simpl. split; [lra|reflexivity].
        -- apply Qgt_bool_false in Hr2.
           assert (Hq' : Qle_bool q (r1 + r2) = false)
             by (apply Qle_bool_false; lra).
           rewrite Hq'. cbn [snd].
           constructor; [|apply lots_eq_refl].
           simpl. split; [lra|reflexivity].
    + apply Qgt_bool_false in Hr1.
      assert (E : sell_loop r1 ((q, p) :: rest) = (r1, (q, p) :: rest)).
      { cbn [sell_loop].
        assert (Hg : Qgt_bool r1 0 = false) by (apply Qgt_bool_false; lra).
        now rewrite Hg. }
      rewrite E. cbn [snd]. apply sell_loop_Qeq. lra.
Qed.

(** X3. Selling in two parts is selling the sum: for quantities that are
    not negative, a sell of [r1] followed by a sell of [r2] leaves the same
    lots as one sell of [r1 + r2], and the two together match the same
    quantity. *)
Theorem sell_in_two_parts (queue : list lot) (r1 r2 : Q) :
  0 <= r1 -> 0 <= r2 ->
  let first := sell_loop r1 queue in
  let second := sell_loop r2 (snd first) in
  let whole := sell_loop (r1 + r2) queue in
  lots_eq (snd second) (snd whole)
  /\ (r1 - fst first) + (r2 - fst second) == (r1 + r2) - fst whole.
Proof.
  intros H1 H2 first second whole. subst first second whole.
  pose proof (sell_loop_twice queue r1 r2 H1 H2) as H.
  split; [exact H|].
  apply lots_eq_quantity in H. unfold lots_quantity in H.
  pose proof (sell_loop_matched r1 queue).
  pose proof (sell_loop_matched r2 (snd (sell_loop r1 queue))).
  pose proof (sell_loop_matched (r1 + r2) queue).
  lra.
Qed.

(** ** The average cost of a holding *)

Lemma weighted_cost_bounds (queue : list lot) (lo hi : Q) :
  Forall (fun l => 0 <= fst l) queue ->
  Forall (fun l => lo <= snd l /\ snd l <= hi) queue ->
  lo * Qsum (map fst queue) <= Qsum (map lot_cost queue)
  /\ Qsum (map lot_cost queue) <= hi * Qsum (map fst queue).
Proof.
  intros Hq Hp. induction queue as [|[q p] rest IH]; simpl.
  - lra.
  - inversion Hq as [|? ? Hq0 Hq']; subst.
    inversion Hp as [|? ? [Hlo Hhi] Hp']; subst. simpl in *.
    destruct (IH Hq' Hp') as [IH1 IH2]. unfold lot_cost at 1 3. simpl.
    assert (lo * q <= p * q) by (apply Qmult_le_compat_r; assumption).
    assert (p * q <= hi * q) by (apply Qmult_le_compat_r; assumption).
    lra.
Qed.

(** ** First occurrences, for an equality test that is reflexive and
    symmetric *)

Section FirstOccurrences.

Context {A : Type}.
Variable eqb : A -> A -> bool.
Hypothesis eqb_refl : forall x, eqb x x = true.
Hypothesis eqb_sym : forall x y, eqb x y = eqb y x.


Lemma first_occurrences_seen (l : list A) :
  forall s1 s2,
    (forall x, existsb (eqb x) s1 = existsb (eqb x) s2) ->
    first_occurrences eqb s1 l = first_occurrences eqb s2 l.
Proof.
  induction l as [|y l IH]; intros s1 s2 H; simpl; [reflexivity|].
  rewrite <- H. destruct (existsb (eqb y) s1); [now apply IH|].
  f_equal. apply IH. intro x. simpl. now rewrite H.
Qed.

Lemma first_occurrences_app (l1 l2 : list A) :
  forall seen,
    first_occurrences eqb seen (l1 ++ l2)
    = first_occurrences eqb seen l1
      ++ first_occurrences eqb (rev (first_occurrences eqb seen l1) ++ seen) l2.
Proof.
  induction l1 as [|y l1 IH]; intro seen; simpl; [reflexivity|].
  destruct (existsb (eqb y) seen); [apply IH|].
  simpl. f_equal. rewrite IH. f_equal. now rewrite <- app_assoc.
Qed.

Lemma first_occurrences_in (l : list A) :
  forall seen x,
    In x (first_occurrences eqb seen l) ->
    In x l /\ existsb (eqb x) seen = false.
Proof.
  induction l as [|y l IH]; intros seen x H; simpl in *; [tauto|].
  destruct (existsb (eqb y) seen) eqn:E.
  - destruct (IH _ _ H). tauto.
  - destruct H as [<- | H]; [tauto|].
    destruct (IH _ _ H) as [Hin Hex]. simpl in Hex.
    apply orb_false_iff in Hex. tauto.
Qed.

Lemma first_occurrences_covers (l : list A) :
  forall seen x,
    In x l ->
    existsb (eqb x) (seen ++ first_occurrences eqb seen l) = true.
Proof.
  induction l as [|y l IH]; intros seen x H; [destruct H|].
  simpl. destruct (existsb (eqb y) seen) eqn:E.
  - destruct H as [<- | H]; [|now apply IH].
    rewrite existsb_app, E. reflexivity.
  - destruct H as [<- | H].
    + rewrite existsb_app. simpl. rewrite eqb_refl.
      now rewrite orb_true_r.
    + specialize (IH (y :: seen) x H). rewrite existsb_app in *.
      simpl in *.
      destruct (existsb (eqb x) seen), (eqb x y),
        (existsb (eqb x) (first_occurrences eqb (y :: seen) l));
        simpl in *; auto.
Qed.

Lemma first_occurrences_distinct (l : list A) :
  forall seen,
    ForallOrdPairs (fun a b => eqb a b = false)
      (first_occurrences eqb seen l).
Proof.
  induction l as [|y l IH]; intro seen; simpl; [constructor|].
  destruct (existsb (eqb y) seen); [apply IH|].
  constructor; [|apply IH].
  rewrite Forall_forall. intros x Hx.
  apply first_occurrences_in in Hx. destruct Hx as [_ Hex].
  simpl in Hex. apply orb_false_iff in Hex. rewrite eqb_sym. tauto.
Qed.

Lemma first_occurrences_covered (l : list A) :
  forall seen,
    Forall (fun x => existsb (eqb x) seen = true) l ->
    first_occurrences eqb seen l = [].
Proof.
  induction l as [|y l IH]; intros seen H; simpl; [reflexivity|].
  inversion H as [|? ? Hy Hl]; subst. rewrite Hy. now apply IH.
Qed.

Lemma first_occurrences_fixed (l : list A) :
  forall seen,
    ForallOrdPairs (fun a b => eqb a b = false) l ->
    Forall (fun x => existsb (eqb x) seen = false) l ->
    first_occurrences eqb seen l = l.
Proof.
  induction l as [|y l IH]; intros seen Hd Hs; simpl; [reflexivity|].
  inversion Hd as [|? ? Hy Hd']; subst.
  inversion Hs as [|? ? Hys Hs']; subst.
  rewrite Hys. f_equal. apply IH; [exact Hd'|].
  rewrite Forall_forall in *. intros x Hx. simpl.
  rewrite (Hs' x Hx), orb_false_r. rewrite eqb_sym. now apply Hy.
Qed.

End FirstOccurrences.

(** ** The tickers of a frame *)


Lemma existsb_string_eqb (x : string) (s : list string) :
  existsb (String.eqb x) s = true <-> In x s.
Proof.
  rewrite existsb_exists. split.
  - intros (y & Hy & E). apply String.eqb_eq in E. now subst.
  - intro H. exists x. split; [exact H | apply String.eqb_refl].
Qed.

Lemma distinct_strings_NoDup (l : list string) :
  ForallOrdPairs (fun a b => String.eqb a b = false) l -> NoDup l.
Proof.
  induction 1 as [|a l Ha _ IH]; constructor; [|exact IH].
  intro Hin. rewrite Forall_forall in Ha. specialize (Ha a Hin).
  now rewrite String.eqb_refl in Ha.
Qed.

Lemma existsb_rev {A : Type} (f : A -> bool) (l : list A) :
  existsb f (rev l) = existsb f l.
Proof.
  induction l as [|x l IH]; simpl; [reflexivity|].
  rewrite existsb_app, IH. simpl. rewrite orb_false_r. apply orb_comm.
Qed.

Lemma get_unique_tickers_Some (rows : list Transaction) :
  get_unique_tickers (Some rows) = series_unique (map ticker rows).
Proof. now destruct rows. Qed.

Lemma series_unique_NoDup (s : list string) : NoDup (series_unique s).
Proof.
  apply distinct_strings_NoDup.
  apply first_occurrences_distinct. exact String.eqb_sym.
Qed.

Lemma series_unique_In (s : list string) (x : string) :
  In x (series_unique s) <-> In x s.
Proof.
  unfold series_unique. split.
  - intro H. now apply first_occurrences_in in H.
  - intro H.
    pose proof (first_occurrences_covers String.eqb String.eqb_refl
                  s [] x H) as Hc.
    simpl in Hc. now apply existsb_string_eqb in Hc.
Qed.

(** X4. [get_unique_tickers] lists every ticker of the frame once, in the
    order of first appearance: the list has no repetition, holds exactly the
    tickers of the rows, and a row appended to the frame adds its ticker at
    the end when the ticker is new and changes nothing otherwise.  Without a
    frame the list is empty. *)
Theorem unique_tickers_first_appearance (rows : list Transaction)
  (row : Transaction) :
  NoDup (get_unique_tickers (Some rows))
  /\ (forall tk,
        In tk (get_unique_tickers (Some rows))
        <-> exists r, In r rows /\ ticker r = tk)
  /\ get_unique_tickers (Some (rows ++ [row]))
     = (if existsb (String.eqb (ticker row)) (get_unique_tickers (Some rows))
        then get_unique_tickers (Some rows)
        else get_unique_tickers (Some rows) ++ [ticker row])
  /\ get_unique_tickers None = [].
Proof.
  rewrite !get_unique_tickers_Some. split; [apply series_unique_NoDup|].
  split; [|split; [|reflexivity]].
  - intro tk. rewrite series_unique_In, in_map_iff.
    split; intros (r & H1 & H2); exists r; tauto.
  - rewrite map_app. unfold series_unique.
    rewrite first_occurrences_app. simpl.
    rewrite app_nil_r, existsb_rev.
    destruct (existsb _ _); [now rewrite app_nil_r | reflexivity].
Qed.

(** ** The keys of the lots are the tickers of the replayed frame *)

Lemma dict_contains_In {V : Type} (d : dict V) (k : string) :
  dict_contains d k = existsb (String.eqb k) (map fst d).
Proof.
  unfold dict_contains. induction d as [|[k' v] tl IH]; simpl; [reflexivity|].
  rewrite (String.eqb_sym k k'). destruct (String.eqb k' k); [reflexivity|].
  exact IH.
Qed.

Lemma process_rows_keys (rows : list Transaction) :
  forall lots lots',
    process_rows lots rows = Ok lots' ->
    map fst lots'
    = map fst lots
      ++ first_occurrences String.eqb (map fst lots) (map ticker rows).
Proof.
  induction rows as [|row rest IH]; intros lots lots' H.
  - simpl in H. inversion H. simpl. now rewrite app_nil_r.
  - rewrite process_rows_cons in H. apply IH in H. rewrite H. clear H.
    rewrite dict_setitem_keys, dict_contains_In. simpl.
    destruct (existsb (String.eqb (ticker row)) (map fst lots)) eqn:E.
    + reflexivity.
    + rewrite <- app_assoc. simpl. f_equal. f_equal.
      apply first_occurrences_seen. intro x.
      rewrite existsb_app. simpl.
      now rewrite orb_false_r, orb_comm.
Qed.

Lemma matched_of_nonneg (row : Transaction) (queue : list lot) :
  Forall (fun l => 0 <= fst l) queue -> 0 <= matched_of row queue.
Proof.
  intro H. unfold matched_of.
  destruct (String.eqb (transaction_type row) "SELL"); [|lra].
  pose proof (sell_loop_remaining_le (quantity row) queue H). lra.
Qed.

Lemma fold_step_quantity_le (rows : list Transaction) :
  Forall (fun row => is_buy row = true -> 0 <= quantity row) rows ->
  forall queue,
    Forall (fun l => 0 <= fst l) queue ->
    lots_quantity (fold_left (fun queue row => step_queue row queue) rows queue)
    <= lots_quantity queue + bought_total rows.
Proof.
  induction 1 as [|row rest Hrow _ IH]; intros queue Hq; simpl.
  - unfold bought_total. simpl. lra.
  - specialize (IH _ (step_queue_nonneg row queue Hrow Hq)).
    pose proof (step_queue_quantity row queue).
    pose proof (matched_of_nonneg row queue Hq).
    pose proof (bought_total_cons row rest). lra.
Qed.

Lemma In_skipn {A : Type} (n : nat) (l : list A) (x : A) :
  In x (skipn n l) -> In x l.
Proof.
  intro H. rewrite <- (firstn_skipn n l). apply in_or_app. now right.
Qed.

Lemma bought_lots_price (tk : string) (rows : list Transaction) (p : Q) :
  In p (map snd (bought_lots tk rows)) ->
  exists row,
    In row rows /\ is_buy row = true /\ ticker row = tk /\ price row = p.
Proof.
  unfold bought_lots. rewrite map_map. simpl. intro H.
  apply in_map_iff in H. destruct H as (row & Hp & Hin).
  apply filter_In in Hin. destruct Hin as [Hin Hbuy].
  apply filter_In in Hin. destruct Hin as [Hin Htk].
  exists row. unfold has_ticker in Htk. apply String.eqb_eq in Htk. auto.
Qed.

Lemma In_holdings (h : Holding) (lots : dict (list lot)) :
  NoDup (map fst lots) ->
  In h (map holding_of (filter has_quantity lots)) ->
  h = holding_of (h_ticker h, queue_of lots (h_ticker h))
  /\ has_quantity (h_ticker h, queue_of lots (h_ticker h)) = true.
Proof.
  intros Hnd Hin. apply in_map_iff in Hin.
  destruct Hin as ([k v] & <- & Hin). apply filter_In in Hin.
  destruct Hin as [Hin Hq]. simpl.
  unfold queue_of. rewrite (dict_get_of_In lots k v Hnd Hin). auto.
Qed.

Lemma holdings_tickers (lots : dict (list lot)) :
  NoDup (map fst lots) ->
  map h_ticker (map holding_of (filter has_quantity lots))
  = filter (fun tk => has_quantity (tk, queue_of lots tk)) (map fst lots).
Proof.
  induction lots as [|[k v] rest IH]; intro Hnd; [reflexivity|].
  inversion Hnd as [|? ? Hnotin Hnd']; subst.
  assert (Hrest :
    filter (fun tk => has_quantity (tk, queue_of ((k, v) :: rest) tk))
      (map fst rest)
    = filter (fun tk => has_quantity (tk, queue_of rest tk)) (map fst rest)).
  { apply filter_ext_in. intros tk Htk. unfold queue_of. simpl.
    destruct (String.eqb_spec k tk) as [E|E]; [|reflexivity].
    subst. contradiction. }
  cbn [filter map fst]. rewrite Hrest, <- (IH Hnd').
  unfold queue_of at 1. cbn [dict_get]. rewrite String.eqb_refl.
  destruct (has_quantity (k, v)); reflexivity.
Qed.

(** ** More on calculate_holdings_fifo, for any sort by date *)

Section HoldingsOfLedger.

Variable sort_values : list Transaction -> list Transaction.
Hypothesis sort_values_sorts : sorts_by_date sort_values.

(** X5. The average cost of a holding lies between the lowest and the
    highest price at which its ticker was bought: any bounds that hold for
    the prices of the BUY rows of the ticker hold for the average cost.
    BUY quantities are positive. *)
Theorem average_cost_within_buy_prices (rows : list Transaction) :
  Forall (fun row => is_buy row = true -> 0 < quantity row) rows ->
  exists holdings,
    calculate_holdings_fifo sort_values (Some rows) = Ok holdings
    /\ forall h lo hi,
         In h holdings ->
         (forall row,
            In row rows -> is_buy row = true -> ticker row = h_ticker h ->
            lo <= price row /\ price row <= hi) ->
         lo <= h_avg_cost_basis h /\ h_avg_cost_basis h <= hi.
Proof.
  intro Hrows.
  destruct (calculate_holdings_fifo_eq sort_values rows
              (sort_values_nil sort_values sort_values_sorts))
    as (lots & Hlots & Hnd & Hcalc).
  eexists. split; [exact Hcalc|].
  intros h lo hi Hin Hbounds.
  destruct (In_holdings h lots Hnd Hin) as [Hh Hq].
  set (tk := h_ticker h) in *. set (queue := queue_of lots tk) in *.
  destruct (sort_values_sorts rows) as [Hperm _].
  unfold final_lots in Hlots.
  assert (Hpos : Forall (fun l => 0 < fst l) queue).
  { apply (all_queues_queue_of (Forall (fun l => 0 < fst l)));
      [|constructor].
    eapply (process_rows_all_queues (Forall (fun l => 0 < fst l)));
      [| | |exact Hlots].
    - constructor.
    - eapply Permutation_Forall in Hrows; [|exact Hperm].
      eapply Forall_impl; [|exact Hrows].
      intros row Hrow q. now apply step_queue_pos.
    - constructor. }
  assert (Hprices : Forall (fun l => lo <= snd l /\ snd l <= hi) queue).
  { destruct (process_rows_fifo_rest _ tk lots Hlots) as (k & Hk & Htl & Hhd).
    pose proof (fifo_rest_prices _ _ k Htl Hhd) as Hp. fold queue in Hp.
    rewrite Forall_forall. intros l Hl.
    assert (Hin' : In (snd l) (map snd queue)) by now apply in_map.
    rewrite Hp in Hin'. apply In_skipn in Hin'.
    apply bought_lots_price in Hin'.
    destruct Hin' as (row & Hrow & Hbuy & Htk & Hprice).
    rewrite <- Hprice. apply Hbounds; try assumption.
    eapply Permutation_in; [symmetry; exact Hperm | exact Hrow]. }
  assert (Hnn : Forall (fun l => 0 <= fst l) queue).
  { eapply Forall_impl; [|exact Hpos]. simpl. intros; lra. }
  destruct (weighted_cost_bounds queue lo hi Hnn Hprices) as [B1 B2].
  unfold has_quantity in Hq. apply Qgt_bool_true in Hq. simpl in Hq.
  rewrite Hh. simpl.
  split.
  - apply Qle_shift_div_l; [exact Hq|]. now rewrite !py_sum_Qsum.
  - apply Qle_shift_div_r; [exact Hq|]. now rewrite !py_sum_Qsum.
Qed.

(** X6. A holding never exceeds what was bought: the quantity held of a
    ticker is at most the sum of the quantities of the BUY rows of that
    ticker.  BUY quantities are not negative. *)
Theorem holding_at_most_bought (rows : list Transaction) :
  Forall (fun row => is_buy row = true -> 0 <= quantity row) rows ->
  exists holdings,
    calculate_holdings_fifo sort_values (Some rows) = Ok holdings
    /\ forall h,
         In h holdings ->
         h_quantity h
         <= bought_total (filter (has_ticker (h_ticker h)) rows).
Proof.
  intro Hrows.
  destruct (calculate_holdings_fifo_eq sort_values rows
              (sort_values_nil sort_values sort_values_sorts))
    as (lots & Hlots & Hnd & Hcalc).
  eexists. split; [exact Hcalc|].
  intros h Hin.
  destruct (In_holdings h lots Hnd Hin) as [Hh _].
  set (tk := h_ticker h) in *.
  destruct (sort_values_sorts rows) as [Hperm _].
  unfold final_lots in Hlots.
  rewrite Hh. simpl. rewrite py_sum_Qsum.
  rewrite (process_rows_queue tk _ _ _ Hlots).
  rewrite (bought_total_perm _ _
             (filter_Permutation (has_ticker tk) _ _ Hperm)).
  pose proof (fold_step_quantity_le (filter (has_ticker tk) (sort_values rows)))
    as H.
  specialize (H ltac:(
    apply incl_Forall with (l1 := sort_values rows);
      [intros x Hx; now apply filter_In in Hx
      |eapply Permutation_Forall; eassumption]) [] ltac:(constructor)).
  unfold queue_of at 1. simpl. unfold lots_quantity in *. simpl in H. lra.
Qed.

(** X7. The holdings come in the order in which their tickers first appear
    in the frame sorted by date: the keys of the lots are the tickers
    [get_unique_tickers] gives for that frame, and the tickers of the
    holdings are those of them that have a quantity above zero left, each
    once. *)
Theorem holdings_in_order_of_first_appearance (rows : list Transaction) :
  exists lots holdings,
    final_lots sort_values rows = Ok lots
    /\ calculate_holdings_fifo sort_values (Some rows) = Ok holdings
    /\ map fst lots = get_unique_tickers (Some (sort_values rows))
    /\ map h_ticker holdings
       = filter (fun tk => has_quantity (tk, queue_of lots tk))
           (get_unique_tickers (Some (sort_values rows)))
    /\ NoDup (map h_ticker holdings).
Proof.
  destruct (calculate_holdings_fifo_eq sort_values rows
              (sort_values_nil sort_values sort_values_sorts))
    as (lots & Hlots & Hnd & Hcalc).
  exists lots. eexists. split; [exact Hlots|]. split; [exact Hcalc|].
  assert (Hkeys : map fst lots = get_unique_tickers (Some (sort_values rows))).
  { unfold final_lots in Hlots. apply process_rows_keys in Hlots.
    rewrite get_unique_tickers_Some. exact Hlots. }
  rewrite holdings_tickers by exact Hnd. rewrite <- Hkeys.
  split; [reflexivity|]. split; [reflexivity|].
  apply NoDup_filter. exact Hnd.
Qed.

End HoldingsOfLedger.

(** ** A valued holding *)

Lemma calculate_portfolio_value_map (holdings : list Holding)
  (prices : dict (option Q)) :
  calculate_portfolio_value holdings prices = map (value_row prices) holdings.
Proof. now destruct holdings. Qed.

(** X8. A holding with a positive quantity and a positive average cost
    whose ticker has the price [p] is valued at quantity times [p]; its
    unrealized profit is quantity times [p] less the average cost, positive
    exactly when [p] is above the average cost; and the profit in percent
    is [(p - average cost) / average cost * 100], whatever the quantity. *)
Theorem valued_holding_profit (holdings : list Holding)
  (prices : dict (option Q)) (h : Holding) (p : Q) :
  In h holdings ->
  map_price prices (h_ticker h) = Some p ->
  0 < h_quantity h -> 0 < h_avg_cost_basis h ->
  exists v pl pct,
    In v (calculate_portfolio_value holdings prices)
    /\ v_ticker v = h_ticker h
    /\ v_current_price v = Some p
    /\ v_current_value v = Some (h_quantity h * p)
    /\ v_unrealized_pl v = Some pl
    /\ pl == h_quantity h * (p - h_avg_cost_basis h)
    /\ (0 < pl <-> h_avg_cost_basis h < p)
    /\ v_unrealized_pl_percent v = Some pct
    /\ pct == (p - h_avg_cost_basis h) / h_avg_cost_basis h * 100.
Proof.
  intros Hin Hp Hq Havg.
  assert (Hcost : ~ h_quantity h * h_avg_cost_basis h == 0).
  { intro E. assert (0 < h_quantity h * h_avg_cost_basis h); [|lra].
    apply Qmult_lt_0_compat; assumption. }
  exists (value_row prices h).
  exists (h_quantity h * p - h_quantity h * h_avg_cost_basis h).
  exists ((h_quantity h * p - h_quantity h * h_avg_cost_basis h)
          / (h_quantity h * h_avg_cost_basis h) * 100).
  split; [rewrite calculate_portfolio_value_map; now apply in_map|].
  unfold value_row. rewrite Hp. simpl.
  unfold np_truediv.
  destruct (Qeq_bool (h_quantity h * h_avg_cost_basis h) 0) eqn:E;
    [apply Qeq_bool_iff in E; contradiction|].
  simpl. repeat (split; [reflexivity|]).
  split; [ring|]. split; [|split; [reflexivity|]].
  - split; intro H.
    + assert (h_quantity h * h_avg_cost_basis h < h_quantity h * p) by lra.
      exact (proj1 (Qmult_lt_l _ _ _ Hq) H0).
    + assert (h_quantity h * h_avg_cost_basis h < h_quantity h * p); [|lra].
      exact (proj2 (Qmult_lt_l _ _ _ Hq) H).
  - field. split; intro E'; lra.
Qed.

(** ** The equation of the rate, for a power function that is exact at the
    exponents 0 and 1 *)

Section RateEquation.

Variable pow : Q -> Q -> res Q.
Hypothesis pow_zero : forall x y, y == 0 -> pow x y = Ok 1.
Hypothesis pow_one : forall x y, y == 1 -> pow x y = Ok x.

Lemma npv_from_same_day (rate : Q) (flows : list (Q * Z)) :
  Forall (fun f => snd f = 0%Z) flows ->
  forall acc : Q,
    exists v,
      npv_from pow rate flows (Some acc) = Ok (Some v)
      /\ v == acc + Qsum (map fst flows).
Proof.
  induction 1 as [|[cf d] rest Hd _ IH]; intro acc; simpl.
  - exists acc. split; [reflexivity | lra].
  - simpl in Hd. subst d. unfold discounted.
    rewrite pow_zero by reflexivity. simpl.
    destruct (IH (acc + cf / 1)) as (v & Hv & E).
    exists v. split; [exact Hv|]. rewrite E. field.
Qed.

(** X9. When every cash flow falls on the day of the earliest one, all the
    days are zero and the equation does not depend on the rate: it is the
    plain sum of the cash flows at every rate. *)
Theorem same_day_flows_ignore_rate (now : timestamp)
  (rows : list Transaction) (cv : Q) (min_date : timestamp) :
  let cfs := xirr_cash_flows rows cv in
  let dates := xirr_dates now rows cv in
  Forall (fun d => timedelta_days d min_date = 0%Z) dates ->
  exists days,
    xirr_days dates min_date = Ok days
    /\ forall rate,
         exists v,
           xirr_equation pow cfs days rate = Ok (Some v)
           /\ v == Qsum cfs.
Proof.
  intros cfs dates Hdays.
  exists (map (fun d => timedelta_days d min_date) dates).
  split; [apply xirr_days_timestamp|]. intro rate.
  set (days := map (fun d => timedelta_days d min_date) dates).
  assert (Hlen : List.length days = List.length cfs).
  { unfold days. rewrite length_map. apply xirr_lengths. }
  rewrite xirr_equation_npv by exact Hlen.
  destruct (npv_from_same_day rate (combine cfs days)) with (acc := 0)
    as (v & Hv & E).
  - rewrite Forall_forall. intros [cf d] Hin. simpl.
    apply in_combine_r in Hin. unfold days in Hin.
    apply in_map_iff in Hin. destruct Hin as (d0 & <- & Hd0).
    rewrite Forall_forall in Hdays. now apply Hdays.
  - exists v. split; [exact Hv|]. rewrite E.
    assert (Hfst : map fst (combine cfs days) = cfs).
    { clear - Hlen. revert Hlen.
      generalize days as ds.
      induction cfs as [|c cfs' IH]; intros [|d ds] H; simpl in *;
        try reflexivity; try discriminate.
      f_equal. apply IH. lia. }
    rewrite Hfst. lra.
Qed.

(** X10. One purchase held for 365 days: the flows are minus the amount
    paid, on day 0, and the current value, on day 365, and the equation is
    solved by the simple return, current value over amount paid less one. *)
Theorem one_year_rate_is_simple_return (now : timestamp) (row : Transaction)
  (cv : Q) :
  is_buy row = true ->
  0 < quantity row * price row -> 0 < cv ->
  timedelta_days now (date row) = 365%Z ->
  let cfs := xirr_cash_flows [row] cv in
  let dates := xirr_dates now [row] cv in
  py_min dates = Ok (date row)
  /\ cfs = [- (quantity row * price row); cv]
  /\ xirr_days dates (date row) = Ok [0%Z; 365%Z]
  /\ exists v,
       xirr_equation pow cfs [0%Z; 365%Z]
         (cv / (quantity row * price row) - 1) = Ok (Some v)
       /\ v == 0.
Proof.
  intros Hbuy HA Hcv Hyear cfs dates. subst cfs dates.
  assert (Hle : (date row <= now)%Z).
  { unfold timedelta_days, microseconds_per_day in Hyear.
    destruct (Z.le_gt_cases (date row) now) as [H|H]; [exact H|].
    assert ((now - date row) / 86400000000 < 0)%Z; [|lia].
    apply Z.div_lt_upper_bound; lia. }
  assert (Hg : Qgt_bool cv 0 = true) by now apply Qgt_bool_true.
  unfold xirr_cash_flows, xirr_dates. rewrite Hg. cbn [map app].
  unfold cash_flow_of. unfold is_buy in Hbuy. rewrite Hbuy.
  split.
  { cbn [py_min of_datetime timestamp_object].
    rewrite py_min_loop_timestamp. cbn [fold_left]. now rewrite Z.min_l. }
  split; [reflexivity|].
  rewrite xirr_days_timestamp. cbn [map].
  rewrite timedelta_days_same. cbn [of_datetime timestamp_object].
  rewrite Hyear. split; [reflexivity|].
  unfold xirr_equation. simpl. unfold list_getitem. simpl.
  rewrite pow_zero by reflexivity. simpl.
  rewrite pow_one by reflexivity. simpl.
  set (A := quantity row * price row) in *.
  unfold np_truediv.
  destruct (Qeq_bool (1 + (cv / A - 1)) 0) eqn:E.
  - apply Qeq_bool_iff in E.
    assert (0 < cv / A) by (apply Qlt_shift_div_l; lra). lra.
  - simpl. eexists. split; [reflexivity|]. field. split; lra.
Qed.

End RateEquation.

(** ** calculate_xirr on a frame of objects, by the class of its dates *)

Lemma py_min_loop_app {D : Type} `{DateObject D} (l l' : list D) :
  forall x,
    py_min_loop x (l ++ l') = (m <- py_min_loop x l ;; py_min_loop m l').
Proof.
  induction l as [|y l IH]; intro x; [reflexivity|].
  cbn [app py_min_loop]. destruct (py_lt y x) as [b|e]; [|reflexivity].
  cbn [bind]. apply IH.
Qed.

Lemma py_min_loop_calendar (l : list pydate) :
  Forall (fun d => is_calendar_date d = true) l ->
  forall x, exists m, py_min_loop (CalendarDate x) l = Ok (CalendarDate m).
Proof.
  induction 1 as [|d l Hd _ IH]; intro x.
  - now exists x.
  - destruct d as [t|y]; [discriminate Hd|].
    cbn [py_min_loop py_lt pydate_object bind].
    destruct (y <? x)%Z; apply IH.
Qed.

Lemma py_min_loop_datetime (l : list timestamp) :
  forall x,
    py_min_loop (Datetime x) (map Datetime l)
    = Ok (Datetime (fold_left Z.min l x)).
Proof.
  induction l as [|y l IH]; intro x; [reflexivity|].
  cbn [map py_min_loop py_lt pydate_object bind fold_left].
  replace (Z.min x y) with (if (y <? x)%Z then y else x)
    by (destruct (Z.ltb_spec y x); lia).
  destruct (y <? x)%Z; apply IH.
Qed.

Lemma xirr_days_calendar (l : list pydate) (m : Z) :
  Forall (fun d => is_calendar_date d = true) l ->
  exists days, xirr_days l (CalendarDate m) = Ok days.
Proof.
  induction 1 as [|d l Hd _ [days IH]].
  - now exists [].
  - destruct d as [t|y]; [discriminate Hd|].
    cbn [xirr_days py_sub_days pydate_object bind]. rewrite IH.
    eexists. reflexivity.
Qed.

Lemma xirr_days_datetime (l : list timestamp) (m : timestamp) :
  xirr_days (map Datetime l) (Datetime m)
  = Ok (map (fun d => timedelta_days d m) l).
Proof.
  induction l as [|d l IH]; [reflexivity|].
  cbn [map xirr_days py_sub_days pydate_object bind]. rewrite IH.
  reflexivity.
Qed.

(** Operations on dates raise nothing but [DateTypeError]. *)
Lemma py_min_loop_raises (l : list pydate) (e : exn) :
  forall x, py_min_loop x l = Raise e -> e = DateTypeError.
Proof.
  induction l as [|y l IH]; intros x Hx; [discriminate Hx|].
  cbn [py_min_loop] in Hx.
  destruct (py_lt y x) as [b|e0] eqn:E; cbn [bind] in Hx.
  - eapply IH. exact Hx.
  - inversion Hx. subst e0.
    destruct y, x; simpl in E; now inversion E.
Qed.

Lemma xirr_days_raises (l : list pydate) (m : pydate) (e : exn) :
  xirr_days l m = Raise e -> e = DateTypeError.
Proof.
  induction l as [|d l IH]; intro Hd; [discriminate Hd|].
  cbn [xirr_days] in Hd.
  destruct (py_sub_days d m) as [n|e0] eqn:E; cbn [bind] in Hd.
  - destruct (xirr_days l m) as [ns|e1]; cbn [bind] in Hd;
      [discriminate Hd|]. inversion Hd. subst e1. now apply IH.
  - inversion Hd. subst e0.
    destruct d, m; simpl in E; now inversion E.
Qed.

Lemma xirr_cash_flows_stamped (ledger : list Transaction) (cv : Q) :
  xirr_cash_flows (map stamped ledger) cv = xirr_cash_flows ledger cv.
Proof.
  unfold xirr_cash_flows. now rewrite map_map.
Qed.

Lemma xirr_dates_stamped (now : timestamp) (ledger : list Transaction)
  (cv : Q) :
  xirr_dates now (map stamped ledger) cv
  = map Datetime (xirr_dates now ledger cv).
Proof.
  unfold xirr_dates. rewrite map_app, !map_map.
  now destruct (Qgt_bool cv 0).
Qed.

Section ClassesOfDates.

Variable now : timestamp.
Variable pow : Q -> Q -> res Q.
Variable newton : (Q -> res (option Q)) -> Q -> res pyfloat.
Variable brentq : (Q -> res (option Q)) -> Q -> Q -> res pyfloat.

(** A frame of objects that are all Timestamps gives what the frame of
    Timestamps gives. *)
Lemma calculate_xirr_stamped (ledger : list Transaction) (cv : Q) :
  calculate_xirr now pow newton brentq (Some (map stamped ledger)) cv
  = calculate_xirr now pow newton brentq (Some ledger) cv.
Proof.
  unfold calculate_xirr.
  rewrite length_map, xirr_cash_flows_stamped, xirr_dates_stamped.
  destruct (List.length ledger =? 0)%nat; [reflexivity|].
  destruct (List.length (xirr_cash_flows ledger cv) <? 2)%nat; [reflexivity|].
  destruct (xirr_dates now ledger cv) as [|d l]; [reflexivity|].
  cbn [map py_min]. rewrite py_min_loop_datetime, py_min_loop_timestamp.
  cbn [bind].
  change (Datetime d :: map Datetime l) with (map Datetime (d :: l)).
  now rewrite xirr_days_datetime, xirr_days_timestamp.
Qed.

(** X21. The call on a frame of objects.  When every date of the frame is
    a [datetime.date], as in a frame built by the entry form, the call
    raises [TypeError] as soon as the current value is above zero:
    [datetime.now()] is then among the dates and [min(dates)], ahead of the
    [try] block, compares it with a date; when the current value is not
    above zero the call returns.  When every date is a Timestamp the call
    is the one on the frame of Timestamps, and returns.  No other
    exception than this [TypeError] leaves the call. *)
Theorem xirr_by_class_of_dates (row : TransactionRow pydate)
  (rows : list (TransactionRow pydate)) (cv : Q) :
  let frame := row :: rows in
  (Forall (fun r => is_calendar_date (date r) = true) frame ->
   (0 < cv ->
    calculate_xirr now pow newton brentq (Some frame) cv
    = Raise DateTypeError)
   /\ (~ 0 < cv ->
       exists x, calculate_xirr now pow newton brentq (Some frame) cv = Ok x))
  /\ (forall ledger : list Transaction,
        calculate_xirr now pow newton brentq (Some (map stamped ledger)) cv
        = calculate_xirr now pow newton brentq (Some ledger) cv
        /\ exists x,
             calculate_xirr now pow newton brentq (Some (map stamped ledger))
               cv = Ok x)
  /\ (forall e,
        calculate_xirr now pow newton brentq (Some frame) cv = Raise e ->
        e = DateTypeError).
Proof.
  intro frame. split; [|split].
  - intro Hclass.
    assert (Hdates : Forall (fun d => is_calendar_date d = true)
                       (map date rows)).
    { inversion Hclass as [|? ? _ Hrows]; subst.
      rewrite Forall_map. exact Hrows. }
    assert (Hrow : exists x, date row = CalendarDate x).
    { inversion Hclass as [|? ? Hr _]; subst.
      destruct (date row) as [t|x]; [discriminate Hr | now exists x]. }
    destruct Hrow as [x Hx].
    destruct (py_min_loop_calendar _ Hdates x) as [m Hm].
    split.
    + intro Hcv. apply Qgt_bool_true in Hcv.
      rewrite calculate_xirr_many.
      * unfold frame, xirr_dates. rewrite Hcv. cbn [map app py_min].
        rewrite Hx, py_min_loop_app, Hm. reflexivity.
      * unfold frame, xirr_cash_flows. rewrite Hcv, length_app.
        simpl. lia.
    + intro Hcv.
      destruct (Nat.lt_ge_cases
                  (List.length (xirr_cash_flows frame cv)) 2) as [Hlt | Hge].
      * exists None. now apply calculate_xirr_few.
      * rewrite calculate_xirr_many by exact Hge.
        unfold frame, xirr_dates.
        destruct (Qgt_bool cv 0) eqn:E; [apply Qgt_bool_true in E; tauto|].
        rewrite app_nil_r. cbn [map py_min]. rewrite Hx, Hm. cbn [bind].
        destruct (xirr_days_calendar (CalendarDate x :: map date rows) m)
          as [days Hdays]; [constructor; [reflexivity | exact Hdates]|].
        rewrite Hdays. eexists. reflexivity.
  - intro ledger. split; [apply calculate_xirr_stamped|].
    rewrite calculate_xirr_stamped. apply calculate_xirr_ok.
  - intros e He.
    destruct (Nat.lt_ge_cases
                (List.length (xirr_cash_flows frame cv)) 2) as [Hlt | Hge].
    + rewrite (calculate_xirr_few now pow newton brentq frame cv Hlt) in He.
      discriminate He.
    + rewrite (calculate_xirr_many now pow newton brentq frame cv Hge) in He.
      destruct (py_min (xirr_dates now frame cv)) as [m|e0] eqn:Hm;
        cbn [bind] in He.
      * destruct (xirr_days (xirr_dates now frame cv) m) as [days|e1] eqn:Hd;
          cbn [bind] in He; [discriminate He|].
        inversion He. subst e1. eapply xirr_days_raises. exact Hd.
      * inversion He. subst e0.
        unfold frame, xirr_dates in Hm. cbn [map app py_min] in Hm.
        eapply py_min_loop_raises. exact Hm.
Qed.

End ClassesOfDates.

(** ** get_current_prices *)

Lemma dict_getitem_contains {V : Type} (d : dict V) (k : string) :
  dict_contains d k = true -> exists v, dict_get d k = Some v.
Proof.
  unfold dict_contains. destruct (dict_get d k) as [v|]; [|discriminate].
  intros _. now exists v.
Qed.

Lemma collect_prices_spec (latest : dict (option Q)) (tickers : list string) :
  forall prices,
    snd (collect_prices latest tickers prices) = None
    /\ (NoDup (map fst prices) ->
        NoDup (map fst (fst (collect_prices latest tickers prices))))
    /\ forall tk,
         dict_get (fst (collect_prices latest tickers prices)) tk
         = if existsb (String.eqb tk) tickers && dict_contains latest tk
           then dict_get latest tk
           else dict_get prices tk.
Proof.
  induction tickers as [|t rest IH]; intro prices.
  - simpl. auto.
  - cbn [collect_prices]. destruct (dict_contains latest t) eqn:Hc.
    + destruct (dict_getitem_contains latest t Hc) as [v Hv].
      unfold dict_getitem. rewrite Hv.
      destruct (IH (dict_setitem prices t v)) as (H1 & H2 & H3).
      split; [exact H1|]. split.
      * intro Hnd. apply H2. now apply dict_setitem_NoDup.
      * intro tk. rewrite H3. cbn [existsb].
        destruct (String.eqb_spec tk t) as [E|E].
        -- subst tk. rewrite Hc, Hv. simpl.
           rewrite dict_get_setitem_same.
           now destruct (existsb (String.eqb t) rest).
        -- simpl. rewrite dict_get_setitem_other by congruence. reflexivity.
    + destruct (IH prices) as (H1 & H2 & H3).
      split; [exact H1|]. split; [exact H2|].
      intro tk. rewrite H3. cbn [existsb].
      destruct (String.eqb_spec tk t) as [E|E]; [|reflexivity].
      subst tk. rewrite Hc. simpl. now rewrite andb_false_r.
Qed.

Lemma dict_get_key {V : Type} (d : dict V) (k : string) :
  In k (map fst d) -> exists v, dict_get d k = Some v.
Proof.
  intro H. destruct (dict_get d k) as [v|] eqn:E; [now exists v|].
  now apply dict_get_None in E.
Qed.

(** X11. [get_current_prices] never raises and prices only tickers it was
    asked for, each once.  A failed download gives the empty dictionary.
    From a frame of closing prices, the price of a requested ticker is the
    one in the last row of the frame, and a ticker missing there has no
    entry; from a Series, only the first requested ticker gets a price. *)
Theorem current_prices_of_requested (download : list string -> res close_data)
  (tickers : list string) :
  let prices := get_current_prices download tickers in
  NoDup (map fst prices)
  /\ (forall tk, In tk (map fst prices) -> In tk tickers)
  /\ (forall e, download tickers = Raise e -> prices = [])
  /\ (forall rows latest,
        download tickers = Ok (CloseFrame rows) ->
        iloc_last rows = Ok latest ->
        forall tk,
          dict_get prices tk
          = if existsb (String.eqb tk) tickers then dict_get latest tk
            else None)
  /\ (forall values v,
        download tickers = Ok (CloseSeries values) ->
        iloc_last values = Ok v ->
        prices = match tickers with
                 | [] => []
                 | first :: _ => [(first, v)]
                 end).
Proof.
  intro prices. subst prices. unfold get_current_prices.
  destruct tickers as [|first rest].
  - simpl. repeat split; try constructor; try tauto; try reflexivity.
  - destruct (download (first :: rest)) as [[values | rows] | e].
    + destruct (iloc_last values) as [v | e] eqn:Hil; simpl.
      * split; [repeat constructor; simpl; tauto|].
        split; [intros tk [<- | []]; now left|].
        split; [discriminate|]. split; [discriminate|].
        intros values' v' Hd Hv. inversion Hd. subst values'.
        rewrite Hil in Hv. inversion Hv. reflexivity.
      * split; [constructor|]. split; [tauto|].
        split; [reflexivity|]. split; [discriminate|].
        intros values' v' Hd Hv. inversion Hd. subst values'. congruence.
    + destruct (iloc_last rows) as [latest | e] eqn:Hil.
      * destruct (collect_prices_spec latest (first :: rest) [])
          as (_ & Hnd & Hget).
        split; [apply Hnd; constructor|]. split.
        -- intros tk Hin. apply dict_get_key in Hin.
           destruct Hin as [v Hv]. rewrite Hget in Hv.
           destruct (existsb (String.eqb tk) (first :: rest)) eqn:E;
             [|discriminate].
           now apply existsb_string_eqb in E.
        -- split; [discriminate|]. split; [|discriminate].
           intros rows' latest' Hd Hl tk. inversion Hd. subst rows'.
           rewrite Hil in Hl. inversion Hl. subst latest'.
           rewrite Hget.
           destruct (existsb (String.eqb tk) (first :: rest)); [|reflexivity].
           simpl. unfold dict_contains.
           now destruct (dict_get latest tk).
      * split; [constructor|]. split; [simpl; tauto|].
        split; [reflexivity|]. split; [|discriminate].
        intros rows' latest' Hd Hl. inversion Hd. subst rows'. congruence.
    + split; [constructor|]. split; [simpl; tauto|].
      split; [reflexivity|]. split; discriminate.
Qed.

(** ** The view tab *)

Lemma get_current_prices_failed (download : list string -> res close_data)
  (tickers : list string) (e : exn) :
  download tickers = Raise e -> get_current_prices download tickers = [].
Proof.
  intro H. unfold get_current_prices. destruct tickers; [reflexivity|].
  now rewrite H.
Qed.

Lemma calculate_portfolio_metrics_eq (now : timestamp) (pow : Q -> Q -> res Q)
  (newton : (Q -> res (option Q)) -> Q -> res pyfloat)
  (brentq : (Q -> res (option Q)) -> Q -> Q -> res pyfloat)
  (rows : list Transaction) (holdings : list ValuedHolding) :
  let ti := notional_sum "BUY" rows in
  let ts := notional_sum "SELL" rows in
  let cur := series_sum (map v_current_value holdings) in
  exists x,
    calculate_xirr now pow newton brentq (Some rows) cur = Ok x
    /\ calculate_portfolio_metrics now pow newton brentq (Some rows)
         (Some holdings)
       = Ok (mkMetrics ti ts cur (ts + cur - ti)
               (if Qgt_bool ti 0 then (ts + cur - ti) / ti * 100 else 0) x).
Proof.
  intros ti ts cur.
  destruct (calculate_xirr_ok now pow newton brentq (Some rows) cur)
    as [x Hx].
  exists x. split; [exact Hx|]. unfold calculate_portfolio_metrics.
  replace (match rows with [] => 0 | _ => notional_sum "BUY" rows end)
    with ti by (now destruct rows).
  replace (match rows with [] => 0 | _ => notional_sum "SELL" rows end)
    with ts by (now destruct rows).
  replace (match holdings with
           | [] => 0
           | _ => series_sum (map v_current_value holdings)
           end) with cur by (now destruct holdings).
  rewrite Hx. reflexivity.
Qed.

Section PortfolioTabs.

Variable sort_values : list Transaction -> list Transaction.
Hypothesis sort_values_sorts : sorts_by_date sort_values.
Variable download : list string -> res close_data.

(** X12. The view tab always produces one of its screens and never the
    "could not calculate portfolio value" error: once there are holdings
    and prices, the valued frame has a row for every holding.  The table it
    shows is never empty and its total is the sum of the current values of
    its rows; when the download fails the tab stops before any table. *)
Theorem view_tab_screens (transactions : option (list Transaction)) :
  exists view,
    render_view_portfolio sort_values download transactions = Ok view
    /\ view <> ValueUnavailable
    /\ (forall total valued,
          view = PortfolioTable total valued ->
          valued <> []
          /\ total = series_sum (map v_current_value valued)
          /\ exists holdings,
               calculate_holdings_fifo sort_values transactions = Ok holdings
               /\ map v_ticker valued = map h_ticker holdings
               /\ get_current_prices download (map h_ticker holdings) <> [])
    /\ ((forall tickers, exists e, download tickers = Raise e) ->
        view = NoTransactions \/ view = NoHoldings \/ view = PricesUnavailable).
Proof.
  unfold render_view_portfolio.
  destruct transactions as [[|row rows]|].
  - exists NoTransactions. repeat split; try discriminate. now left.
  - destruct (calculate_holdings_fifo_eq sort_values (row :: rows)
                (sort_values_nil sort_values sort_values_sorts))
      as (lots & _ & _ & Hcalc).
    rewrite Hcalc. cbn [bind].
    remember (map holding_of (filter has_quantity lots)) as holdings.
    destruct holdings as [|h hs].
    + exists NoHoldings. repeat split; try discriminate. right. now left.
    + cbv iota.
      destruct (get_current_prices download (map h_ticker (h :: hs)))
        as [|pr prs] eqn:Hp.
      * exists PricesUnavailable. repeat split; try discriminate.
        right. now right.
      * cbn [calculate_portfolio_value map].
        eexists. split; [reflexivity|]. split; [discriminate|]. split.
        -- intros total valued Hval. inversion Hval. subst total valued.
           split; [discriminate|]. split; [reflexivity|].
           exists (h :: hs). split; [reflexivity|]. split.
           ++ cbn [map]. f_equal. rewrite map_map. reflexivity.
           ++ rewrite Hp. discriminate.
        -- intro Hfail. exfalso.
           destruct (Hfail (map h_ticker (h :: hs))) as [e He].
           rewrite (get_current_prices_failed _ _ _ He) in Hp. discriminate.
  - exists NoTransactions. repeat split; try discriminate. now left.
Qed.

End PortfolioTabs.

(** ** The table of transactions by ticker *)

Lemma sum_or_zero_Qsum (f : Transaction -> Q) (rows : list Transaction) :
  sum_or_zero f rows = Qsum (map f rows).
Proof.
  unfold sum_or_zero.
  rewrite <- series_sum_Some, map_map. now destruct rows.
Qed.

Lemma Qsum_indicator (a : string) (c : Q) (keys : list string) :
  NoDup keys ->
  Qsum (map (fun k => if String.eqb a k then c else 0) keys)
  == if existsb (String.eqb a) keys then c else 0.
Proof.
  induction 1 as [|k keys Hnotin _ IH]; simpl; [lra|].
  rewrite IH. destruct (String.eqb_spec a k) as [E|E]; simpl.
  - subst k. destruct (existsb (String.eqb a) keys) eqn:Ex; [|lra].
    apply existsb_string_eqb in Ex. contradiction.
  - lra.
Qed.

Lemma Qsum_map_plus {A : Type} (f g : A -> Q) (l : list A) :
  Qsum (map (fun x => f x + g x) l) == Qsum (map f l) + Qsum (map g l).
Proof.
  induction l as [|x l IH]; simpl; [lra | rewrite IH; lra].
Qed.

Lemma Qsum_map_ext {A : Type} (f g : A -> Q) (l : list A) :
  (forall x, In x l -> f x == g x) -> Qsum (map f l) == Qsum (map g l).
Proof.
  induction l as [|x l IH]; intro H; simpl; [lra|].
  rewrite (H x (or_introl eq_refl)), IH; [lra|].
  intros y Hy. apply H. now right.
Qed.

(** Summing per ticker and then over the tickers is summing over the rows. *)
Lemma Qsum_by_ticker (f : Transaction -> Q) (rows : list Transaction)
  (keys : list string) :
  NoDup keys ->
  (forall row, In row rows -> In (ticker row) keys) ->
  Qsum (map (fun k => Qsum (map f (filter (has_ticker k) rows))) keys)
  == Qsum (map f rows).
Proof.
  intros Hnd. induction rows as [|row rest IH]; intro Hkeys.
  - simpl. clear. induction keys as [|k keys IH]; simpl; lra.
  - rewrite (Qsum_map_ext _
               (fun k => (if String.eqb (ticker row) k then f row else 0)
                         + Qsum (map f (filter (has_ticker k) rest)))).
    + rewrite Qsum_map_plus, (Qsum_indicator _ _ _ Hnd), IH.
      * assert (E : existsb (String.eqb (ticker row)) keys = true).
        { apply existsb_string_eqb. apply Hkeys. now left. }
        rewrite E. simpl. lra.
      * intros r Hr. apply Hkeys. now right.
    + intros k _. simpl. unfold has_ticker at 1.
      destruct (String.eqb (ticker row) k); simpl; lra.
Qed.

Lemma filter_comm {A : Type} (f g : A -> bool) (l : list A) :
  filter f (filter g l) = filter g (filter f l).
Proof.
  induction l as [|x l IH]; [reflexivity|]. simpl.
  destruct (f x) eqn:Ef, (g x) eqn:Eg; simpl;
    rewrite ?Ef, ?Eg, IH; reflexivity.
Qed.

Lemma ticker_summary_sum (g : TickerSummary -> Q) (f : Transaction -> Q)
  (ty : string) (rows : list Transaction) :
  (forall tk,
     g (ticker_summary_row rows tk)
     = sum_or_zero f (filter (is_type ty) (filter (has_ticker tk) rows))) ->
  Qsum (map g (ticker_summary rows))
  == Qsum (map f (filter (is_type ty) rows)).
Proof.
  intro Hg. unfold ticker_summary. rewrite map_map.
  rewrite (Qsum_map_ext _
             (fun k => Qsum (map f (filter (has_ticker k)
                                      (filter (is_type ty) rows))))).
  - apply Qsum_by_ticker; [apply series_unique_NoDup|].
    intros row Hrow. apply series_unique_In. apply in_map.
    now apply filter_In in Hrow.
  - intros k _. rewrite Hg, sum_or_zero_Qsum, filter_comm. reflexivity.
Qed.

(** X14. The table of transactions by ticker has one row for each ticker
    of the frame, in order of first appearance, and agrees with the
    metrics: its buy values add up to the total investment, its sell values
    to the total sells and its buy quantities to the quantity bought.  The
    realized profit of a ticker is 0 when nothing was bought, and sell value
    less buy value when all that was bought was sold. *)
Theorem ticker_table_adds_up (now : timestamp) (pow : Q -> Q -> res Q)
  (newton : (Q -> res (option Q)) -> Q -> res pyfloat)
  (brentq : (Q -> res (option Q)) -> Q -> Q -> res pyfloat)
  (rows : list Transaction) (holdings : list ValuedHolding) :
  exists m,
    calculate_portfolio_metrics now pow newton brentq (Some rows)
      (Some holdings) = Ok m
    /\ map s_ticker (ticker_summary rows) = get_unique_tickers (Some rows)
    /\ Qsum (map s_buy_value (ticker_summary rows)) == total_investment m
    /\ Qsum (map s_sell_value (ticker_summary rows)) == total_sells m
    /\ Qsum (map s_buy_quantity (ticker_summary rows)) == bought_total rows
    /\ (forall s,
          In s (ticker_summary rows) ->
          (s_buy_quantity s <= 0 -> s_realized_pl s = 0)
          /\ (0 < s_buy_quantity s ->
              s_sell_quantity s == s_buy_quantity s ->
              s_realized_pl s == s_sell_value s - s_buy_value s)).
Proof.
  destruct (calculate_portfolio_metrics_eq now pow newton brentq rows holdings)
    as (x & _ & Hm).
  eexists. split; [exact Hm|].
  cbn [total_investment total_sells].
  split; [|split; [|split; [|split]]].
  - unfold ticker_summary. rewrite map_map. cbn [s_ticker ticker_summary_row].
    rewrite map_id. symmetry. apply get_unique_tickers_Some.
  - rewrite (ticker_summary_sum s_buy_value notional "BUY") by reflexivity.
    unfold notional_sum. rewrite <- (series_sum_Some (map _ _)), map_map.
    reflexivity.
  - rewrite (ticker_summary_sum s_sell_value notional "SELL") by reflexivity.
    unfold notional_sum. rewrite <- (series_sum_Some (map _ _)), map_map.
    reflexivity.
  - rewrite (ticker_summary_sum s_buy_quantity quantity "BUY") by reflexivity.
    reflexivity.
  - intros s Hs. unfold ticker_summary in Hs. apply in_map_iff in Hs.
    destruct Hs as (tk & <- & _). cbn [s_buy_quantity s_realized_pl
      s_sell_quantity s_sell_value s_buy_value ticker_summary_row].
    set (bq := sum_or_zero quantity _).
    set (sq := sum_or_zero quantity _).
    split.
    + intro Hle. apply Qgt_bool_false in Hle. now rewrite Hle.
    + intros Hpos Heq. apply Qgt_bool_true in Hpos as Hg. rewrite Hg.
      rewrite Heq. field. lra.
Qed.

(** ** Adding an uploaded frame *)

Lemma row_eqb_refl (a : Transaction) : row_eqb a a = true.
Proof.
  unfold row_eqb.
  now rewrite !String.eqb_refl, Z.eqb_refl, !Qeq_bool_refl.
Qed.

Lemma row_eqb_sym (a b : Transaction) : row_eqb a b = row_eqb b a.
Proof.
  unfold row_eqb.
  now rewrite (String.eqb_sym (ticker a)), (Z.eqb_sym (date a)),
    (String.eqb_sym (transaction_type a)), (Qeq_bool_comm (quantity a)),
    (Qeq_bool_comm (price a)).
Qed.



(** X15. Adding an upload to an existing portfolio keeps one row of each
    group of equal rows, the first one: no two rows of the result are
    equal, every row of the portfolio and of the upload has an equal row in
    the result, and adding the same upload again changes nothing.  The
    first upload, into an empty session, is stored as it is. *)
Theorem upload_again_changes_nothing (rows result : list Transaction) :
  let merged := add_to_portfolio (Some rows) result in
  add_to_portfolio (Some merged) result = merged
  /\ ForallOrdPairs (fun a b => row_eqb a b = false) merged
  /\ (forall row,
        In row (rows ++ result) -> existsb (row_eqb row) merged = true)
  /\ (forall row, In row merged -> In row (rows ++ result))
  /\ add_to_portfolio None result = result.
Proof.
  intro merged. subst merged. unfold add_to_portfolio, drop_duplicates.
  set (D := first_occurrences row_eqb [] (rows ++ result)).
  assert (Hdist : ForallOrdPairs (fun a b => row_eqb a b = false) D)
    by (apply first_occurrences_distinct; exact row_eqb_sym).
  assert (Hcov : forall row,
             In row (rows ++ result) -> existsb (row_eqb row) D = true).
  { intros row Hrow.
    exact (first_occurrences_covers row_eqb row_eqb_refl _ [] row Hrow). }
  split; [|split; [exact Hdist|split; [exact Hcov|split]]].
  - rewrite first_occurrences_app.
    rewrite (first_occurrences_fixed row_eqb row_eqb_sym D [] Hdist)
      by (rewrite Forall_forall; reflexivity).
    rewrite first_occurrences_covered; [apply app_nil_r|].
    rewrite Forall_forall. intros row Hrow.
    rewrite app_nil_r, existsb_rev. apply Hcov.
    apply in_or_app. now right.
  - intros row Hrow. now apply first_occurrences_in in Hrow.
  - reflexivity.
Qed.

(** ** A portfolio that was never sold from *)

Lemma dict_cost_setitem (lots : dict (list lot)) (k : string) (v : list lot) :
  dict_cost (dict_setitem lots k v)
  == dict_cost lots - lots_cost (queue_of lots k) + lots_cost v.
Proof.
  unfold dict_cost, queue_of.
  induction lots as [|[k0 v0] tl IH]; simpl.
  - unfold lots_cost at 2. simpl. lra.
  - destruct (String.eqb k0 k) eqn:E; simpl.
    + lra.
    + rewrite IH. lra.
Qed.

Lemma process_rows_buys_cost (rows : list Transaction) :
  Forall (fun row => is_buy row = true) rows ->
  forall lots lots',
    process_rows lots rows = Ok lots' ->
    dict_cost lots' == dict_cost lots + Qsum (map notional rows).
Proof.
  induction 1 as [|row rest Hrow _ IH]; intros lots lots' H.
  - simpl in H. inversion H. simpl. lra.
  - rewrite process_rows_cons in H. apply IH in H. rewrite H.
    rewrite dict_cost_setitem. unfold step_queue.
    unfold is_buy in Hrow. rewrite Hrow.
    unfold lots_cost. rewrite map_app, Qsum_app. simpl.
    unfold lot_cost at 3, notional. simpl. lra.
Qed.

Lemma holdings_cost_basis (lots : dict (list lot)) :
  all_queues (Forall (fun l => 0 < fst l)) lots ->
  Qsum (map cost_basis (map holding_of (filter has_quantity lots)))
  == dict_cost lots.
Proof.
  unfold all_queues, dict_cost.
  induction 1 as [|[k queue] rest Hq _ IH]; simpl; [lra|].
  simpl in Hq. destruct (has_quantity (k, queue)) eqn:E; simpl.
  - rewrite IH. unfold cost_basis at 1, lots_cost at 2. simpl.
    unfold has_quantity in E. simpl in E. apply Qgt_bool_true in E.
    rewrite <- (py_sum_Qsum (map lot_cost queue)).
    assert (py_sum (map fst queue)
            * (py_sum (map lot_cost queue) / py_sum (map fst queue))
            == py_sum (map lot_cost queue)); [|lra].
    field. lra.
  - destruct queue as [|l queue'].
    + rewrite IH. unfold lots_cost at 2. simpl. lra.
    + rewrite has_quantity_pos in E; [discriminate | exact Hq | discriminate].
Qed.

Lemma value_rows_profit (prices : dict (option Q)) (holdings : list Holding) :
  Forall (fun h => map_price prices (h_ticker h) <> None) holdings ->
  series_sum (map v_unrealized_pl (map (value_row prices) holdings))
  == series_sum (map v_current_value (map (value_row prices) holdings))
     - Qsum (map cost_basis holdings).
Proof.
  induction 1 as [|h rest Hh _ IH]; simpl; [lra|].
  destruct (map_price prices (h_ticker h)) as [p|]; [|congruence].
  simpl. rewrite IH. unfold cost_basis at 2. lra.
Qed.

Lemma filter_all {A : Type} (f : A -> bool) (l : list A) :
  Forall (fun x => f x = true) l -> filter f l = l.
Proof.
  induction 1 as [|x l Hx _ IH]; simpl; [reflexivity|].
  now rewrite Hx, IH.
Qed.

Lemma filter_none {A : Type} (f : A -> bool) (l : list A) :
  Forall (fun x => f x = false) l -> filter f l = [].
Proof.
  induction 1 as [|x l Hx _ IH]; simpl; [reflexivity|].
  now rewrite Hx, IH.
Qed.

Section NeverSold.

Variable sort_values : list Transaction -> list Transaction.
Hypothesis sort_values_sorts : sorts_by_date sort_values.
Variable now : timestamp.
Variable pow : Q -> Q -> res Q.
Variable newton : (Q -> res (option Q)) -> Q -> res pyfloat.
Variable brentq : (Q -> res (option Q)) -> Q -> Q -> res pyfloat.

(** X16. For a ledger of BUY rows only, with positive quantities, whose
    tickers all have a price: the total sells are 0, the total investment
    is the cost basis of the holdings (quantity at average cost, summed),
    and the total return of the metrics is the sum of the unrealized
    profits of the valued holdings. *)
Theorem total_return_is_unrealized_profit (rows : list Transaction)
  (prices : dict (option Q)) :
  Forall (fun row => is_buy row = true /\ 0 < quantity row) rows ->
  (forall row, In row rows -> map_price prices (ticker row) <> None) ->
  exists holdings m,
    calculate_holdings_fifo sort_values (Some rows) = Ok holdings
    /\ calculate_portfolio_metrics now pow newton brentq (Some rows)
         (Some (calculate_portfolio_value holdings prices)) = Ok m
    /\ total_sells m = 0
    /\ total_investment m == Qsum (map cost_basis holdings)
    /\ total_return m
       == series_sum
            (map v_unrealized_pl (calculate_portfolio_value holdings prices)).
Proof.
  intros Hrows Hprices.
  destruct (calculate_holdings_fifo_eq sort_values rows
              (sort_values_nil sort_values sort_values_sorts))
    as (lots & Hlots & Hnd & Hcalc).
  set (holdings := map holding_of (filter has_quantity lots)) in *.
  destruct (calculate_portfolio_metrics_eq now pow newton brentq rows
              (calculate_portfolio_value holdings prices)) as (x & _ & Hm).
  exists holdings. eexists. split; [exact Hcalc|]. split; [exact Hm|].
  cbn [total_sells total_investment total_return].
  destruct (sort_values_sorts rows) as [Hperm _].
  unfold final_lots in Hlots.
  assert (Hbuys : Forall (fun row => is_buy row = true) rows)
    by (eapply Forall_impl; [|exact Hrows]; simpl; tauto).
  assert (Hsells : notional_sum "SELL" rows = 0).
  { unfold notional_sum. rewrite filter_none; [reflexivity|].
    eapply Forall_impl; [|exact Hbuys]. intros row Hb.
    unfold is_buy in Hb. unfold is_type. apply String.eqb_eq in Hb.
    now rewrite Hb. }
  assert (Hinv : notional_sum "BUY" rows == Qsum (map cost_basis holdings)).
  { unfold notional_sum. rewrite (filter_all (is_type "BUY")) by exact Hbuys.
    rewrite <- map_map, series_sum_Some.
    subst holdings. rewrite holdings_cost_basis.
    - rewrite (process_rows_buys_cost _
                 ltac:(eapply Permutation_Forall; eassumption) _ _ Hlots).
      unfold dict_cost. simpl.
      rewrite (Qsum_perm _ _ (Permutation_map notional Hperm)).
      unfold notional. lra.
    - eapply (process_rows_all_queues (Forall (fun l => 0 < fst l)));
        [| | |exact Hlots].
      + constructor.
      + eapply Permutation_Forall in Hrows; [|exact Hperm].
        eapply Forall_impl; [|exact Hrows].
        intros row [_ Hq] queue. apply step_queue_pos. now intros _.
      + constructor. }
  split; [exact Hsells|]. split; [exact Hinv|].
  rewrite calculate_portfolio_value_map, value_rows_profit.
  - rewrite Hsells, Hinv. lra.
  - rewrite Forall_forall. intros h Hh.
    destruct (In_holdings h lots Hnd Hh) as [_ Hq].
    assert (Hkey : In (h_ticker h) (map fst lots)).
    { subst holdings. apply in_map_iff in Hh.
      destruct Hh as ([k v] & <- & Hin). apply filter_In in Hin.
      simpl. change k with (fst (k, v)). apply in_map. tauto. }
    rewrite (process_rows_keys _ _ _ Hlots) in Hkey. simpl in Hkey.
    apply first_occurrences_in in Hkey. destruct Hkey as [Hkey _].
    apply in_map_iff in Hkey. destruct Hkey as (row & Htk & Hrow).
    rewrite <- Htk. apply Hprices.
    eapply Permutation_in; [symmetry; exact Hperm | exact Hrow].
Qed.

End NeverSold.

(** ** validate_csv_format *)

Lemma any_not_positive_false (vs : list (option Q)) :
  any_not_positive vs = false
  <-> Forall (fun v => v = None \/ exists x, v = Some x /\ 0 < x) vs.
Proof.
  unfold any_not_positive. induction vs as [|v vs IH]; simpl.
  - split; [constructor | reflexivity].
  - rewrite orb_false_iff, IH. split.
    + intros [Hv Hvs]. constructor; [|exact Hvs].
      destruct v as [x|]; [|now left]. right. exists x.
      split; [reflexivity|]. now apply Qle_bool_false.
    + intro H. inversion H as [|? ? Hv Hvs]; subst. split; [|exact Hvs].
      destruct Hv as [-> | (x & -> & Hx)]; [reflexivity|].
      now apply Qle_bool_false.
Qed.

Lemma first_occurrences_nil {A : Type} (eqb : A -> A -> bool) (l : list A) :
  first_occurrences eqb [] l = [] <-> l = [].
Proof.
  destruct l as [|x l]; simpl; split; try reflexivity; discriminate.
Qed.

Lemma filter_nil_iff {A : Type} (f : A -> bool) (l : list A) :
  filter f l = [] <-> Forall (fun x => f x = false) l.
Proof.
  induction l as [|x l IH]; simpl.
  - split; [constructor | reflexivity].
  - destruct (f x) eqn:E.
    + split; [discriminate|]. intro H. inversion H. congruence.
    + rewrite IH. split; [now constructor | now inversion 1].
Qed.

Lemma is_valid_type_true (c : cell) :
  is_valid_type c = true <-> c = CStr "BUY" \/ c = CStr "SELL".
Proof.
  destruct c as [s| | |]; simpl;
    try (split; [discriminate | intros [H|H]; discriminate]).
  rewrite orb_true_iff, !String.eqb_eq.
  split; intros [H|H]; try (inversion H); subst; auto.
Qed.

Lemma missing_columns_nil (df : frame) :
  filter (fun col => negb (dict_contains df col)) required_columns = []
  <-> exists kcol dcol tcol qcol pcol,
        dict_get df "ticker" = Some kcol
        /\ dict_get df "date" = Some dcol
        /\ dict_get df "transaction_type" = Some tcol
        /\ dict_get df "quantity" = Some qcol
        /\ dict_get df "price" = Some pcol.
Proof.
  rewrite filter_nil_iff. unfold required_columns, dict_contains. split.
  - intro H. repeat match goal with
      | H : Forall _ (_ :: _) |- _ => inversion H; clear H; subst
      end.
    destruct (dict_get df "ticker"), (dict_get df "date"),
      (dict_get df "transaction_type"), (dict_get df "quantity"),
      (dict_get df "price"); try discriminate.
    repeat eexists.
  - intros (kcol & dcol & tcol & qcol & pcol & H1 & H2 & H3 & H4 & H5).
    repeat constructor; simpl; now rewrite ?H1, ?H2, ?H3, ?H4, ?H5.
Qed.

Section ValidateFacts.

Variable to_numeric : column -> outcome (list (option Q)).
Variable to_datetime : column -> outcome (list (option timestamp)).

Local Abbreviation validate := (validate_csv_format to_numeric to_datetime).

Lemma validate_dates_and_signs_true (df df' : frame)
  (qs ps : list (option Q)) (msg : string) :
  validate_dates_and_signs to_datetime df qs ps = Returns ((true, msg), df')
  <-> exists dcol ds,
        dict_get df "date" = Some dcol
        /\ to_datetime dcol = Returns ds
        /\ any_not_positive qs = false
        /\ any_not_positive ps = false
        /\ msg = ""%string
        /\ df' = dict_setitem df "date" (Datetimes ds).
Proof.
  unfold validate_dates_and_signs, getcol. split.
  - destruct (dict_get df "date") as [dcol|]; [|discriminate]. simpl.
    destruct (to_datetime dcol) as [ds | [ | []]] eqn:Hds; try discriminate.
    destruct (any_not_positive qs); [discriminate|].
    destruct (any_not_positive ps); [discriminate|].
    intro H. inversion H. subst. exists dcol, ds. repeat split; auto.
  - intros (dcol & ds & H1 & H2 & H3 & H4 & -> & ->).
    rewrite H1. simpl. now rewrite H2, H3, H4.
Qed.

Lemma validate_numbers_true (df df' : frame) (msg : string) :
  validate_numbers to_numeric to_datetime df = Returns ((true, msg), df')
  <-> exists qcol pcol dcol qs ps ds,
        dict_get df "quantity" = Some qcol
        /\ dict_get df "price" = Some pcol
        /\ dict_get df "date" = Some dcol
        /\ to_numeric qcol = Returns qs
        /\ to_numeric pcol = Returns ps
        /\ to_datetime dcol = Returns ds
        /\ any_not_positive qs = false
        /\ any_not_positive ps = false
        /\ msg = ""%string
        /\ df' = dict_setitem
                   (dict_setitem (dict_setitem df "quantity" (Floats qs))
                      "price" (Floats ps))
                   "date" (Datetimes ds).
Proof.
  unfold validate_numbers, getcol.
  assert (Hp : forall v,
             dict_get (dict_setitem df "quantity" v) "price"
             = dict_get df "price")
    by (intro v; apply dict_get_setitem_other; discriminate).
  assert (Hd : forall v w,
             dict_get (dict_setitem (dict_setitem df "quantity" v) "price" w)
               "date"
             = dict_get df "date").
  { intros v w. rewrite !dict_get_setitem_other by discriminate.
    reflexivity. }
  split.
  - destruct (dict_get df "quantity") as [qcol|]; [|discriminate]. simpl.
    destruct (to_numeric qcol) as [qs | [ | []]] eqn:Hqs; try discriminate.
    rewrite Hp.
    destruct (dict_get df "price") as [pcol|]; [|discriminate]. simpl.
    destruct (to_numeric pcol) as [ps | [ | []]] eqn:Hps; try discriminate.
    intro H. apply validate_dates_and_signs_true in H.
    destruct H as (dcol & ds & H1 & H2 & H3 & H4 & H5 & H6).
    rewrite Hd in H1.
    exists qcol, pcol, dcol, qs, ps, ds. repeat split; auto.
  - intros (qcol & pcol & dcol & qs & ps & ds
            & H1 & H2 & H3 & H4 & H5 & H6 & H7 & H8 & H9 & H10).
    rewrite H1. simpl. rewrite H4, Hp, H2. simpl. rewrite H5.
    apply validate_dates_and_signs_true.
    exists dcol, ds. rewrite Hd. repeat split; auto.
Qed.

(** X18. A frame is accepted, with an empty message, exactly when the five
    required columns are there, every transaction type is the string BUY or
    SELL, quantity, price and date convert without error, and every
    converted quantity and price is above zero or missing: a missing number
    passes the test of positivity.  The frame then holds the three
    converted columns. *)
Theorem csv_accepted_iff (df df' : frame) (msg : string) :
  validate df = Returns ((true, msg), df')
  <-> exists kcol dcol tcol qcol pcol qs ps ds,
        dict_get df "ticker" = Some kcol
        /\ dict_get df "date" = Some dcol
        /\ dict_get df "transaction_type" = Some tcol
        /\ dict_get df "quantity" = Some qcol
        /\ dict_get df "price" = Some pcol
        /\ Forall (fun c => c = CStr "BUY" \/ c = CStr "SELL")
             (column_cells tcol)
        /\ to_numeric qcol = Returns qs
        /\ to_numeric pcol = Returns ps
        /\ to_datetime dcol = Returns ds
        /\ Forall (fun v => v = None \/ exists x, v = Some x /\ 0 < x) qs
        /\ Forall (fun v => v = None \/ exists x, v = Some x /\ 0 < x) ps
        /\ msg = ""%string
        /\ df' = dict_setitem
                   (dict_setitem (dict_setitem df "quantity" (Floats qs))
                      "price" (Floats ps))
                   "date" (Datetimes ds).
Proof.
  unfold validate_csv_format. split.
  - destruct (filter _ required_columns) as [|c cs] eqn:Hmiss;
      [|discriminate].
    apply missing_columns_nil in Hmiss.
    destruct Hmiss as (kcol & dcol & tcol & qcol & pcol
                       & H1 & H2 & H3 & H4 & H5).
    unfold getcol. rewrite H3. simpl.
    destruct (first_occurrences cell_eqb [] _) as [|i rest] eqn:Hinv.
    + apply first_occurrences_nil, filter_nil_iff in Hinv.
      intro H. apply validate_numbers_true in H.
      destruct H as (qcol' & pcol' & dcol' & qs & ps & ds
                     & G1 & G2 & G3 & G4 & G5 & G6 & G7 & G8 & G9 & G10).
      rewrite H4 in G1. rewrite H5 in G2. rewrite H2 in G3.
      inversion G1. inversion G2. inversion G3. subst qcol' pcol' dcol'.
      exists kcol, dcol, tcol, qcol, pcol, qs, ps, ds.
      do 5 (split; [first [assumption | reflexivity]|]).
      split.
      { eapply Forall_impl; [|exact Hinv]. intros c Hc.
        apply is_valid_type_true. now apply negb_false_iff in Hc. }
      do 3 (split; [assumption|]).
      split; [now apply any_not_positive_false|].
      split; [now apply any_not_positive_false|]. split; assumption.
    + destruct (py_join ", " (i :: rest)); simpl; discriminate.
  - intros (kcol & dcol & tcol & qcol & pcol & qs & ps & ds
            & H1 & H2 & H3 & H4 & H5 & Hty & G4 & G5 & G6 & G7 & G8 & G9 & G10).
    assert (Hmiss :
      filter (fun col => negb (dict_contains df col)) required_columns = []).
    { apply missing_columns_nil. exists kcol, dcol, tcol, qcol, pcol. auto. }
    rewrite Hmiss. unfold getcol. rewrite H3. simpl.
    assert (Hinv : filter (fun c => negb (is_valid_type c)) (column_cells tcol)
                   = []).
    { apply filter_nil_iff. eapply Forall_impl; [|exact Hty].
      intros c Hc. apply negb_false_iff. now apply is_valid_type_true. }
    rewrite Hinv. simpl. apply validate_numbers_true.
    exists qcol, pcol, dcol, qs, ps, ds.
    do 6 (split; [assumption|]).
    split; [now apply any_not_positive_false|].
    split; [now apply any_not_positive_false|]. split; assumption.
Qed.

End ValidateFacts.

Lemma cell_eqb_refl (c : cell) : cell_eqb c c = true.
Proof.
  destruct c; simpl;
    [apply String.eqb_refl | apply Qeq_bool_refl | reflexivity
    | apply Z.eqb_refl].
Qed.

Lemma cell_strings_throws (items : list cell) :
  (exists c, In c items /\ ~ is_string c) ->
  cell_strings items = Throws TypeError.
Proof.
  induction items as [|i rest IH]; intros (c & Hin & Hc); [destruct Hin|].
  destruct i as [s| | |]; try reflexivity.
  simpl. rewrite IH; [reflexivity|].
  destruct Hin as [<- | Hin]; [|now exists c].
  exfalso. apply Hc. now exists s.
Qed.

Lemma cell_strings_returns (items : list cell) :
  Forall is_string items -> exists ss, cell_strings items = Returns ss.
Proof.
  induction 1 as [|i rest [s ->] _ [ss IH]]; simpl.
  - now exists [].
  - rewrite IH. simpl. now exists (s :: ss).
Qed.

Section ValidateErrors.

Variable to_numeric : column -> outcome (list (option Q)).
Variable to_datetime : column -> outcome (list (option timestamp)).

Local Abbreviation validate := (validate_csv_format to_numeric to_datetime).

(** X19. When the five columns are there and some transaction type is not
    a string (a number, or a cell left empty), the function does not return
    its pair: joining the invalid types into the message raises
    [TypeError]. *)
Theorem csv_type_that_is_no_string_raises (df : frame) (tcol : column)
  (c : cell) :
  filter (fun col => negb (dict_contains df col)) required_columns = [] ->
  dict_get df "transaction_type" = Some tcol ->
  In c (column_cells tcol) -> ~ is_string c ->
  validate df = Throws TypeError.
Proof.
  intros Hmiss Hcol Hin Hc. unfold validate_csv_format.
  rewrite Hmiss. unfold getcol. rewrite Hcol. simpl.
  set (invalid := filter (fun c => negb (is_valid_type c)) (column_cells tcol)).
  assert (Hinv : In c invalid).
  { apply filter_In. split; [exact Hin|].
    destruct c as [s| | |]; try reflexivity. exfalso. apply Hc. now exists s. }
  pose proof (first_occurrences_covers cell_eqb cell_eqb_refl invalid [] c Hinv)
    as Hcov.
  simpl in Hcov. apply existsb_exists in Hcov.
  destruct Hcov as (c' & Hc' & Heq).
  assert (Hns : ~ is_string c').
  { intros [s ->]. destruct c as [s'| | |]; try discriminate.
    apply Hc. now exists s'. }
  destruct (first_occurrences cell_eqb [] invalid) as [|i rest] eqn:E;
    [destruct Hc'|].
  unfold py_join. rewrite cell_strings_throws; [reflexivity|].
  exists c'. split; assumption.
Qed.

(** X20. When all transaction types are strings and the two converters
    raise nothing but [ValueError], the function returns its pair for every
    frame, and the message is empty exactly when the frame is accepted. *)
Theorem csv_validation_returns (df : frame) :
  (forall tcol,
     dict_get df "transaction_type" = Some tcol ->
     Forall is_string (column_cells tcol)) ->
  (forall col e, to_numeric col = Throws e -> e = OtherError ValueError) ->
  (forall col e, to_datetime col = Throws e -> e = OtherError ValueError) ->
  exists is_valid error_message df',
    validate df = Returns ((is_valid, error_message), df')
    /\ (is_valid = true <-> error_message = ""%string).
Proof.
  intros Hty Hnum Hdt. unfold validate_csv_format.
  destruct (filter _ required_columns) as [|m ms] eqn:Hmiss.
  - apply missing_columns_nil in Hmiss.
    destruct Hmiss as (kcol & dcol & tcol & qcol & pcol
                       & H1 & H2 & H3 & H4 & H5).
    unfold getcol. rewrite H3. simpl.
    destruct (first_occurrences cell_eqb [] _) as [|i rest] eqn:Hinv.
    + unfold validate_numbers, getcol. rewrite H4. simpl.
      destruct (to_numeric qcol) as [qs | e] eqn:Hq.
      * rewrite dict_get_setitem_other by discriminate. rewrite H5. simpl.
        destruct (to_numeric pcol) as [ps | e] eqn:Hp.
        -- unfold validate_dates_and_signs, getcol.
           rewrite !dict_get_setitem_other by discriminate. rewrite H2. simpl.
           destruct (to_datetime dcol) as [ds | e] eqn:Hd.
           ++ destruct (any_not_positive qs);
                [|destruct (any_not_positive ps)];
                do 3 eexists; (split; [reflexivity|]);
                split; intro; first [discriminate | reflexivity].
           ++ rewrite (Hdt _ _ Hd). do 3 eexists. split; [reflexivity|].
              split; intro; discriminate.
        -- rewrite (Hnum _ _ Hp). do 3 eexists. split; [reflexivity|].
           split; intro; discriminate.
      * rewrite (Hnum _ _ Hq). do 3 eexists. split; [reflexivity|].
        split; intro; discriminate.
    + destruct (cell_strings_returns (i :: rest)) as [ss Hss].
      { rewrite <- Hinv. rewrite Forall_forall. intros c Hc.
        apply first_occurrences_in in Hc. destruct Hc as [Hc _].
        apply filter_In in Hc. destruct Hc as [Hc _].
        specialize (Hty tcol H3). rewrite Forall_forall in Hty. auto. }
      unfold py_join. rewrite Hss. simpl. do 3 eexists.
      split; [reflexivity|]. split; intro; discriminate.
  - do 3 eexists. split; [reflexivity|]. split; intro; discriminate.
Qed.

End ValidateErrors.

(** ** The further properties at concrete inputs *)

Lemma sample_pow_zero (x y : Q) : y == 0 -> sample_pow x y = Ok 1.
Proof.
  intro H. unfold sample_pow. apply Qeq_bool_iff in H. now rewrite H.
Qed.

Lemma sample_pow_one (x y : Q) : y == 1 -> sample_pow x y = Ok x.
Proof.
  intro H. unfold sample_pow.
  destruct (Qeq_bool y 0) eqn:E0.
  - apply Qeq_bool_iff in E0. rewrite H in E0. discriminate E0.
  - apply Qeq_bool_iff in H. now rewrite H.
Qed.

Lemma sample_numbers_throws (cs : list cell) (e : py_error) :
  sample_numbers cs = Throws e -> e = OtherError ValueError.
Proof.
  induction cs as [|c cs IH]; simpl; [discriminate|].
  destruct c; try (intro H; now inversion H);
    destruct (sample_numbers cs); simpl; try discriminate;
    intro H; inversion H; subst; now apply IH.
Qed.

Lemma sample_times_throws (cs : list cell) (e : py_error) :
  sample_times cs = Throws e -> e = OtherError ValueError.
Proof.
  induction cs as [|c cs IH]; simpl; [discriminate|].
  destruct c; try (intro H; now inversion H);
    destruct (sample_times cs); simpl; try discriminate;
    intro H; inversion H; subst; now apply IH.
Qed.

Lemma queue_is_tail_of_bought_witness :
  let rows := [buy "X" 0%Z 10 100; buy "X" day 5 200; sell "X" year 12 250] in
  exists k q0,
    nth_error (bought_lots "X" rows) k = Some (q0, 200) /\ 3 <= q0.
Proof.
  intro rows.
  destruct (queue_is_tail_of_bought rows "X")
    as (lots & k & Hlots & _ & _ & _ & _ & H).
  vm_compute in Hlots. inversion Hlots. subst lots.
  destruct (H 3 200) as (q0 & Hq0); [reflexivity|].
  exists k, q0. exact Hq0.
Defined.

Lemma sell_in_two_parts_witness :
  lots_eq
    (snd (sell_loop 8 (snd (sell_loop 4 [(10, 100); (5, 200)]))))
    (snd (sell_loop (4 + 8) [(10, 100); (5, 200)])).
Proof.
  apply (sell_in_two_parts [(10, 100); (5, 200)] 4 8); lra.
Defined.

Lemma unique_tickers_first_appearance_witness :
  In "Y"%string
    (get_unique_tickers (Some [buy "X" 0%Z 10 100; buy "Y" day 5 200])).
Proof.
  apply (unique_tickers_first_appearance
           [buy "X" 0%Z 10 100; buy "Y" day 5 200] (buy "X" 0%Z 10 100)).
  exists (buy "Y" day 5 200). split; [simpl; tauto | reflexivity].
Defined.

Lemma average_cost_within_buy_prices_witness :
  let ledger := [buy "X" 0%Z 10 100; buy "X" day 5 200; sell "X" year 12 250] in
  exists holdings,
    calculate_holdings_fifo stable_sort_values (Some ledger) = Ok holdings
    /\ forall h,
         In h holdings ->
         100 <= h_avg_cost_basis h /\ h_avg_cost_basis h <= 200.
Proof.
  intro ledger.
  destruct (average_cost_within_buy_prices stable_sort_values
              stable_sort_values_sorts ledger) as (hs & H1 & H2).
  - repeat constructor; simpl; intros; lra.
  - exists hs. split; [exact H1|]. intros h Hh. apply (H2 h 100 200 Hh).
    intros row [<- | [<- | [<- | []]]] Hb Ht;
      try (vm_compute in Hb; discriminate Hb); simpl; lra.
Defined.

Lemma holding_at_most_bought_witness :
  let ledger := [buy "X" 0%Z 10 100; buy "X" day 5 200; sell "X" year 12 250] in
  exists holdings,
    calculate_holdings_fifo stable_sort_values (Some ledger) = Ok holdings
    /\ forall h,
         In h holdings ->
         h_quantity h <= bought_total (filter (has_ticker (h_ticker h)) ledger).
Proof.
  intro ledger.
  apply (holding_at_most_bought stable_sort_values stable_sort_values_sorts).
  repeat constructor; simpl; intros; lra.
Defined.

Lemma holdings_in_order_of_first_appearance_witness :
  let ledger := [buy "Y" day 5 200; buy "X" 0%Z 10 100] in
  exists lots holdings,
    final_lots stable_sort_values ledger = Ok lots
    /\ calculate_holdings_fifo stable_sort_values (Some ledger) = Ok holdings
    /\ map fst lots = get_unique_tickers (Some (stable_sort_values ledger))
    /\ NoDup (map h_ticker holdings).
Proof.
  intro ledger.
  destruct (holdings_in_order_of_first_appearance stable_sort_values
              stable_sort_values_sorts ledger)
    as (lots & hs & H1 & H2 & H3 & _ & H5).
  exists lots, hs. auto.
Defined.

Lemma valued_holding_profit_witness :
  exists v pl pct,
    In v (calculate_portfolio_value [mkHolding "A" 10 50] [("A"%string, Some 60)])
    /\ v_unrealized_pl v = Some pl /\ pl == 10 * (60 - 50)
    /\ v_unrealized_pl_percent v = Some pct /\ pct == (60 - 50) / 50 * 100.
Proof.
  destruct (valued_holding_profit [mkHolding "A" 10 50]
              [("A"%string, Some 60)] (mkHolding "A" 10 50) 60)
    as (v & pl & pct & H1 & _ & _ & _ & H5 & H6 & _ & H8 & H9).
  - now left.
  - reflexivity.
  - reflexivity.
  - reflexivity.
  - exists v, pl, pct. auto.
Defined.

Lemma same_day_flows_ignore_rate_witness :
  let rows := [buy "X" 0%Z 10 100; sell "X" 0%Z 10 110] in
  exists days v,
    xirr_days (xirr_dates 0%Z rows 0) 0%Z = Ok days
    /\ xirr_equation sample_pow (xirr_cash_flows rows 0) days (1 # 10)
       = Ok (Some v)
    /\ v == Qsum (xirr_cash_flows rows 0).
Proof.
  intro rows.
  destruct (same_day_flows_ignore_rate sample_pow sample_pow_zero 0%Z rows 0
              0%Z) as (days & Hdays & H).
  - repeat constructor.
  - destruct (H (1 # 10)) as (v & Hv & E).
    exists days, v. repeat split; assumption.
Defined.

Lemma one_year_rate_is_simple_return_witness :
  exists v,
    xirr_equation sample_pow (xirr_cash_flows [buy "X" 0%Z 10 100] 1100)
      [0%Z; 365%Z] (1100 / (10 * 100) - 1) = Ok (Some v)
    /\ v == 0.
Proof.
  destruct (one_year_rate_is_simple_return sample_pow sample_pow_zero
              sample_pow_one year (buy "X" 0%Z 10 100) 1100)
    as (_ & _ & _ & H); try reflexivity.
  exact H.
Defined.

Lemma xirr_by_class_of_dates_witness :
  calculate_xirr year sample_pow seed_newton failing_brentq
    (Some [mkTransaction "X" (CalendarDate 19724) "BUY" 10 100]) 1100
  = Raise DateTypeError.
Proof.
  destruct (xirr_by_class_of_dates year sample_pow seed_newton failing_brentq
              (mkTransaction "X" (CalendarDate 19724) "BUY" 10 100) [] 1100)
    as (H & _).
  destruct H as [H _].
  - repeat constructor.
  - apply H. reflexivity.
Defined.

Lemma current_prices_of_requested_witness :
  dict_get
    (get_current_prices
       (fun _ => Ok (CloseFrame [[("A"%string, Some 59)];
                                 [("A"%string, Some 60)]]))
       ["A"; "B"]%string) "A"
  = Some (Some 60).
Proof.
  destruct (current_prices_of_requested
              (fun _ => Ok (CloseFrame [[("A"%string, Some 59)];
                                        [("A"%string, Some 60)]]))
              ["A"; "B"]%string) as (_ & _ & _ & H & _).
  rewrite (H _ [("A"%string, Some 60)] eq_refl eq_refl). reflexivity.
Defined.

Lemma view_tab_screens_witness :
  exists view,
    render_view_portfolio stable_sort_values (fun _ => Raise RuntimeError)
      (Some [buy "X" 0%Z 10 100]) = Ok view
    /\ (view = NoTransactions \/ view = NoHoldings \/ view = PricesUnavailable).
Proof.
  destruct (view_tab_screens stable_sort_values stable_sort_values_sorts
              (fun _ => Raise RuntimeError) (Some [buy "X" 0%Z 10 100]))
    as (view & H1 & _ & _ & H4).
  exists view. split; [exact H1|]. apply H4.
  intros _. now exists RuntimeError.
Defined.

Lemma ticker_table_adds_up_witness :
  s_realized_pl (ticker_summary_row [sell "X" 0%Z 5 10] "X") = 0.
Proof.
  destruct (ticker_table_adds_up year sample_pow failing_newton failing_brentq
              [sell "X" 0%Z 5 10] []) as (m & _ & _ & _ & _ & _ & H).
  apply (H (ticker_summary_row [sell "X" 0%Z 5 10] "X")).
  - now left.
  - simpl. lra.
Defined.

Lemma upload_again_changes_nothing_witness :
  existsb (row_eqb (buy "X" 0%Z 10 100))
    (add_to_portfolio (Some [buy "X" 0%Z 10 100]) [buy "X" 0%Z 10 100])
  = true.
Proof.
  apply (upload_again_changes_nothing [buy "X" 0%Z 10 100]
           [buy "X" 0%Z 10 100]).
  simpl. tauto.
Defined.

Lemma total_return_is_unrealized_profit_witness :
  let ledger := [buy "X" 0%Z 10 100; buy "X" day 5 200] in
  let prices := [("X"%string, Some 150)] in
  exists holdings m,
    calculate_holdings_fifo stable_sort_values (Some ledger) = Ok holdings
    /\ calculate_portfolio_metrics year sample_pow failing_newton
         failing_brentq (Some ledger)
         (Some (calculate_portfolio_value holdings prices)) = Ok m
    /\ total_return m
       == series_sum
            (map v_unrealized_pl (calculate_portfolio_value holdings prices)).
Proof.
  intros ledger prices.
  destruct (total_return_is_unrealized_profit stable_sort_values
              stable_sort_values_sorts year sample_pow failing_newton
              failing_brentq ledger prices)
    as (hs & m & H1 & H2 & _ & _ & H5).
  - repeat constructor; simpl; lra.
  - intros row [<- | [<- | []]]; discriminate.
  - exists hs, m. auto.
Defined.

Lemma csv_accepted_iff_witness :
  exists df',
    validate_csv_format sample_to_numeric sample_to_datetime
      (sample_frame (CStr "BUY"))
    = Returns ((true, ""%string), df').
Proof.
  eexists.
  apply (csv_accepted_iff sample_to_numeric sample_to_datetime).
  exists (Cells [CStr "AAPL"]), (Cells [CNum 0]), (Cells [CStr "BUY"]),
    (Cells [CNum 10]), (Cells [CNum 150]), [Some 10], [Some 150], [Some 0%Z].
  repeat split; try reflexivity.
  - constructor; [left; reflexivity | constructor].
  - constructor; [right; exists 10; split; reflexivity | constructor].
  - constructor; [right; exists 150; split; reflexivity | constructor].
Defined.

Lemma csv_type_that_is_no_string_raises_witness :
  validate_csv_format sample_to_numeric sample_to_datetime (sample_frame CNaN)
  = Throws TypeError.
Proof.
  apply (csv_type_that_is_no_string_raises sample_to_numeric
           sample_to_datetime (sample_frame CNaN) (Cells [CNaN]) CNaN).
  - reflexivity.
  - reflexivity.
  - now left.
  - intros [s H]. discriminate H.
Defined.

Lemma csv_validation_returns_witness :
  exists is_valid error_message df',
    validate_csv_format sample_to_numeric sample_to_datetime
      (sample_frame (CStr "HOLD"))
    = Returns ((is_valid, error_message), df')
    /\ (is_valid = true <-> error_message = ""%string).
Proof.
  apply (csv_validation_returns sample_to_numeric sample_to_datetime).
  - intros tcol H. inversion H. repeat constructor. now exists "HOLD"%string.
  - intros col e. apply sample_numbers_throws.
  - intros col e. apply sample_times_throws.
Defined.
